(** * SOLAR controller: serial protocol client of the two GUI variants

    A shallow embedding of the protocol layer of [SOLAR_GUI.py] (class
    [SOLARGUI], the first variant) and of [SOLAR_GUI_V3.py] (class
    [SolarController], the V3 variant): command encoding and validation,
    the inbound line dispatcher, the device-state variables and the log.

    Python objects are modelled as records of their attributes, methods as
    functions in a state-and-exception monad.  Widgets appear only through
    the text they hold.  Threads are not modelled: the functions below are
    the ones that run on the interactive (Tk) thread. *)

From Stdlib Require Import String Ascii ZArith List Lia Bool.
From Stdlib Require Import DecimalString DecimalZ DecimalN DecimalPos.
Import ListNotations.

Set Primitive Projections.
Set Implicit Arguments.

Local Open Scope string_scope.
Local Open Scope Z_scope.

(* ================================================================== *)
(** * Part I: definitions *)
(* ================================================================== *)

(** ** The Python fragment the two programs rely on *)

Module Py.

(** Exceptions that the modelled code can see, each with the text that
    [str(e)] gives. *)
Inductive exn : Type :=
| ValueError (text : string)
| IndexError (text : string)
| OverflowError (text : string)
| TclError (text : string)
| SerialException (text : string).

(** Outcome of running a statement: a value, or a raised exception. *)
Inductive result (A : Type) : Type :=
| Ok (a : A)
| Raise (e : exn).
Arguments Ok {A} a.
Arguments Raise {A} e.

(** State-and-exception monad.  As in Python, mutations made before an
    exception is raised stay in the state. *)
Definition M (St A : Type) : Type := St -> result A * St.

Definition ret {St A} (a : A) : M St A := fun s => (Ok a, s).

Definition raise {St A} (e : exn) : M St A := fun s => (Raise e, s).

Definition bind {St A B} (m : M St A) (k : A -> M St B) : M St B :=
  fun s =>
    match m s with
    | (Ok a, s') => k a s'
    | (Raise e, s') => (Raise e, s')
    end.

Definition get {St} : M St St := fun s => (Ok s, s).

Definition gets {St A} (f : St -> A) : M St A := fun s => (Ok (f s), s).

Definition modify {St} (f : St -> St) : M St unit := fun s => (Ok tt, f s).

(** [try: body except <catches>: handler].  An exception for which
    [catches] answers [false] propagates. *)
Definition try_except {St A} (body : M St A) (catches : exn -> bool)
           (handler : exn -> M St A) : M St A :=
  fun s =>
    match body s with
    | (Ok a, s') => (Ok a, s')
    | (Raise e, s') => if catches e then handler e s' else (Raise e, s')
    end.

(** [except Exception as e]: every modelled exception is caught. *)
Definition any_exception (e : exn) : bool := true.

Definition is_ValueError (e : exn) : bool :=
  match e with ValueError _ => true | _ => false end.

(** [except (tk.TclError, ValueError)] *)
Definition is_TclError_or_ValueError (e : exn) : bool :=
  match e with TclError _ | ValueError _ => true | _ => false end.

(** [except serial.SerialException] *)
Definition is_SerialException (e : exn) : bool :=
  match e with SerialException _ => true | _ => false end.

(** [str(e)] *)
Definition message (e : exn) : string :=
  match e with
  | ValueError text | IndexError text | OverflowError text | TclError text
  | SerialException text => text
  end.

(** Final state of a computation. *)
Definition exec {St A} (m : M St A) (s : St) : St := snd (m s).

(** Outcome of a computation. *)
Definition outcome {St A} (m : M St A) (s : St) : result A := fst (m s).

(** *** Strings

    A Python string is kept as the bytes of its UTF-8 encoding, so that a
    character above ASCII takes two to four elements of the [string].
    The methods below look for ASCII text only, which no byte of a longer
    sequence can be taken for. *)

(** [s.startswith(p)] *)
Fixpoint startswith (s p : string) {struct p} : bool :=
  match p with
  | EmptyString => true
  | String a p' =>
      match s with
      | EmptyString => false
      | String b s' => Ascii.eqb a b && startswith s' p'
      end
  end.

(** [sub in s] *)
Fixpoint contains (sub s : string) : bool :=
  startswith s sub
  || match s with
     | EmptyString => false
     | String _ r => contains sub r
     end.

Definition push_head (c : ascii) (l : list string) : list string :=
  match l with
  | h :: t => String c h :: t
  | [] => [String c EmptyString]
  end.

(** [s.split(sep)] for a one-character separator. *)
Fixpoint split (sep : ascii) (s : string) : list string :=
  match s with
  | EmptyString => [EmptyString]
  | String c r =>
      if Ascii.eqb c sep then EmptyString :: split sep r
      else push_head c (split sep r)
  end.

(** [s.split(sep, maxsplit)] for a one-character separator. *)
Fixpoint split_max (sep : ascii) (s : string) (maxsplit : nat) : list string :=
  match s with
  | EmptyString => [EmptyString]
  | String c r =>
      match maxsplit with
      | O => [s]
      | S k =>
          if Ascii.eqb c sep then EmptyString :: split_max sep r k
          else push_head c (split_max sep r maxsplit)
      end
  end.

(** [l[i]], raising [IndexError] out of range. *)
Definition index {St A} (l : list A) (i : nat) : M St A :=
  match nth_error l i with
  | Some x => ret x
  | None => raise (IndexError "list index out of range")
  end.

(** *** Characters *)

Definition byte (c : ascii) : N := N_of_ascii c.

(** A byte that continues a UTF-8 sequence. *)
Definition continuation (c : ascii) : bool :=
  ((128 <=? byte c) && (byte c <? 192))%N.

(** The characters of a text: the code point of each, with the bytes that
    encode it.  A byte that begins no sequence is given a number above
    the code points; a Python string holds none. *)
Fixpoint chars (s : string) : list (N * string) :=
  match s with
  | EmptyString => []
  | String a r =>
      let x := byte a in
      let stray := ((1114112 + x)%N, String a EmptyString) in
      if (x <? 128)%N then (x, String a EmptyString) :: chars r
      else if (x <? 192)%N then stray :: chars r
      else if (x <? 224)%N then
        match r with
        | String b r' =>
            if continuation b
            then (((x - 192) * 64 + (byte b - 128))%N,
                  String a (String b EmptyString)) :: chars r'
            else stray :: chars r
        | _ => stray :: chars r
        end
      else if (x <? 240)%N then
        match r with
        | String b (String c r') =>
            if continuation b && continuation c
            then (((x - 224) * 4096 + (byte b - 128) * 64 + (byte c - 128))%N,
                  String a (String b (String c EmptyString))) :: chars r'
            else stray :: chars r
        | _ => stray :: chars r
        end
      else if (x <? 248)%N then
        match r with
        | String b (String c (String d r')) =>
            if continuation b && continuation c && continuation d
            then (((x - 240) * 262144 + (byte b - 128) * 4096
                   + (byte c - 128) * 64 + (byte d - 128))%N,
                  String a (String b (String c (String d EmptyString))))
                 :: chars r'
            else stray :: chars r
        | _ => stray :: chars r
        end
      else stray :: chars r
  end.

Definition in_runs (runs : list (N * N)) (c : N) : bool :=
  existsb (fun r => ((fst r <=? c) && (c <=? snd r))%N) runs.

(** The characters above ASCII for which [str.isspace] holds, as ranges of
    code points (Unicode 14, as CPython 3.11 has it). *)
Definition space_runs : list (N * N) :=
  [(133, 133); (160, 160); (5760, 5760); (8192, 8202); (8232, 8233);
   (8239, 8239); (8287, 8287); (12288, 12288)]%N.

(** The decimal digits above ASCII, as ranges of code points; each range
    starts at a digit zero and holds whole runs of the ten digits. *)
Definition decimal_runs : list (N * N) :=
  [(1632, 1641); (1776, 1785); (1984, 1993); (2406, 2415); (2534, 2543);
   (2662, 2671); (2790, 2799); (2918, 2927); (3046, 3055); (3174, 3183);
   (3302, 3311); (3430, 3439); (3558, 3567); (3664, 3673); (3792, 3801);
   (3872, 3881); (4160, 4169); (4240, 4249); (6112, 6121); (6160, 6169);
   (6470, 6479); (6608, 6617); (6784, 6793); (6800, 6809); (6992, 7001);
   (7088, 7097); (7232, 7241); (7248, 7257); (42528, 42537); (43216, 43225);
   (43264, 43273); (43472, 43481); (43504, 43513); (43600, 43609);
   (44016, 44025); (65296, 65305); (66720, 66729); (68912, 68921);
   (69734, 69743); (69872, 69881); (69942, 69951); (70096, 70105);
   (70384, 70393); (70736, 70745); (70864, 70873); (71248, 71257);
   (71360, 71369); (71472, 71481); (71904, 71913); (72016, 72025);
   (72784, 72793); (73040, 73049); (73120, 73129); (92768, 92777);
   (92864, 92873); (93008, 93017); (120782, 120831); (123200, 123209);
   (123632, 123641); (125264, 125273); (130032, 130041)]%N.

(** The characters above ASCII for which [str.isprintable] does not
    hold, as ranges of code points. *)
Definition unprintable_runs : list (N * N) :=
  [(128, 160); (173, 173); (888, 889); (896, 899); (907, 907); (909, 909);
   (930, 930); (1328, 1328); (1367, 1368); (1419, 1420); (1424, 1424);
   (1480, 1487); (1515, 1518); (1525, 1541); (1564, 1564); (1757, 1757);
   (1806, 1807); (1867, 1868); (1970, 1983); (2043, 2044); (2094, 2095);
   (2111, 2111); (2140, 2141); (2143, 2143); (2155, 2159); (2191, 2199);
   (2274, 2274); (2436, 2436); (2445, 2446); (2449, 2450); (2473, 2473);
   (2481, 2481); (2483, 2485); (2490, 2491); (2501, 2502); (2505, 2506);
   (2511, 2518); (2520, 2523); (2526, 2526); (2532, 2533); (2559, 2560);
   (2564, 2564); (2571, 2574); (2577, 2578); (2601, 2601); (2609, 2609);
   (2612, 2612); (2615, 2615); (2618, 2619); (2621, 2621); (2627, 2630);
   (2633, 2634); (2638, 2640); (2642, 2648); (2653, 2653); (2655, 2661);
   (2679, 2688); (2692, 2692); (2702, 2702); (2706, 2706); (2729, 2729);
   (2737, 2737); (2740, 2740); (2746, 2747); (2758, 2758); (2762, 2762);
   (2766, 2767); (2769, 2783); (2788, 2789); (2802, 2808); (2816, 2816);
   (2820, 2820); (2829, 2830); (2833, 2834); (2857, 2857); (2865, 2865);
   (2868, 2868); (2874, 2875); (2885, 2886); (2889, 2890); (2894, 2900);
   (2904, 2907); (2910, 2910); (2916, 2917); (2936, 2945); (2948, 2948);
   (2955, 2957); (2961, 2961); (2966, 2968); (2971, 2971); (2973, 2973);
   (2976, 2978); (2981, 2983); (2987, 2989); (3002, 3005); (3011, 3013);
   (3017, 3017); (3022, 3023); (3025, 3030); (3032, 3045); (3067, 3071);
   (3085, 3085); (3089, 3089); (3113, 3113); (3130, 3131); (3141, 3141);
   (3145, 3145); (3150, 3156); (3159, 3159); (3163, 3164); (3166, 3167);
   (3172, 3173); (3184, 3190); (3213, 3213); (3217, 3217); (3241, 3241);
   (3252, 3252); (3258, 3259); (3269, 3269); (3273, 3273); (3278, 3284);
   (3287, 3292); (3295, 3295); (3300, 3301); (3312, 3312); (3315, 3327);
   (3341, 3341); (3345, 3345); (3397, 3397); (3401, 3401); (3408, 3411);
   (3428, 3429); (3456, 3456); (3460, 3460); (3479, 3481); (3506, 3506);
   (3516, 3516); (3518, 3519); (3527, 3529); (3531, 3534); (3541, 3541);
   (3543, 3543); (3552, 3557); (3568, 3569); (3573, 3584); (3643, 3646);
   (3676, 3712); (3715, 3715); (3717, 3717); (3723, 3723); (3748, 3748);
   (3750, 3750); (3774, 3775); (3781, 3781); (3783, 3783); (3790, 3791);
   (3802, 3803); (3808, 3839); (3912, 3912); (3949, 3952); (3992, 3992);
   (4029, 4029); (4045, 4045); (4059, 4095); (4294, 4294); (4296, 4300);
   (4302, 4303); (4681, 4681); (4686, 4687); (4695, 4695); (4697, 4697);
   (4702, 4703); (4745, 4745); (4750, 4751); (4785, 4785); (4790, 4791);
   (4799, 4799); (4801, 4801); (4806, 4807); (4823, 4823); (4881, 4881);
   (4886, 4887); (4955, 4956); (4989, 4991); (5018, 5023); (5110, 5111);
   (5118, 5119); (5760, 5760); (5789, 5791); (5881, 5887); (5910, 5918);
   (5943, 5951); (5972, 5983); (5997, 5997); (6001, 6001); (6004, 6015);
   (6110, 6111); (6122, 6127); (6138, 6143); (6158, 6158); (6170, 6175);
   (6265, 6271); (6315, 6319); (6390, 6399); (6431, 6431); (6444, 6447);
   (6460, 6463); (6465, 6467); (6510, 6511); (6517, 6527); (6572, 6575);
   (6602, 6607); (6619, 6621); (6684, 6685); (6751, 6751); (6781, 6782);
   (6794, 6799); (6810, 6815); (6830, 6831); (6863, 6911); (6989, 6991);
   (7039, 7039); (7156, 7163); (7224, 7226); (7242, 7244); (7305, 7311);
   (7355, 7356); (7368, 7375); (7419, 7423); (7958, 7959); (7966, 7967);
   (8006, 8007); (8014, 8015); (8024, 8024); (8026, 8026); (8028, 8028);
   (8030, 8030); (8062, 8063); (8117, 8117); (8133, 8133); (8148, 8149);
   (8156, 8156); (8176, 8177); (8181, 8181); (8191, 8207); (8232, 8239);
   (8287, 8303); (8306, 8307); (8335, 8335); (8349, 8351); (8385, 8399);
   (8433, 8447); (8588, 8591); (9255, 9279); (9291, 9311); (11124, 11125);
   (11158, 11158); (11508, 11512); (11558, 11558); (11560, 11564);
   (11566, 11567); (11624, 11630); (11633, 11646); (11671, 11679);
   (11687, 11687); (11695, 11695); (11703, 11703); (11711, 11711);
   (11719, 11719); (11727, 11727); (11735, 11735); (11743, 11743);
   (11870, 11903); (11930, 11930); (12020, 12031); (12246, 12271);
   (12284, 12288); (12352, 12352); (12439, 12440); (12544, 12548);
   (12592, 12592); (12687, 12687); (12772, 12783); (12831, 12831);
   (42125, 42127); (42183, 42191); (42540, 42559); (42744, 42751);
   (42955, 42959); (42962, 42962); (42964, 42964); (42970, 42993);
   (43053, 43055); (43066, 43071); (43128, 43135); (43206, 43213);
   (43226, 43231); (43348, 43358); (43389, 43391); (43470, 43470);
   (43482, 43485); (43519, 43519); (43575, 43583); (43598, 43599);
   (43610, 43611); (43715, 43738); (43767, 43776); (43783, 43784);
   (43791, 43792); (43799, 43807); (43815, 43815); (43823, 43823);
   (43884, 43887); (44014, 44015); (44026, 44031); (55204, 55215);
   (55239, 55242); (55292, 63743); (64110, 64111); (64218, 64255);
   (64263, 64274); (64280, 64284); (64311, 64311); (64317, 64317);
   (64319, 64319); (64322, 64322); (64325, 64325); (64451, 64466);
   (64912, 64913); (64968, 64974); (64976, 65007); (65050, 65055);
   (65107, 65107); (65127, 65127); (65132, 65135); (65141, 65141);
   (65277, 65280); (65471, 65473); (65480, 65481); (65488, 65489);
   (65496, 65497); (65501, 65503); (65511, 65511); (65519, 65531);
   (65534, 65535); (65548, 65548); (65575, 65575); (65595, 65595);
   (65598, 65598); (65614, 65615); (65630, 65663); (65787, 65791);
   (65795, 65798); (65844, 65846); (65935, 65935); (65949, 65951);
   (65953, 65999); (66046, 66175); (66205, 66207); (66257, 66271);
   (66300, 66303); (66340, 66348); (66379, 66383); (66427, 66431);
   (66462, 66462); (66500, 66503); (66518, 66559); (66718, 66719);
   (66730, 66735); (66772, 66775); (66812, 66815); (66856, 66863);
   (66916, 66926); (66939, 66939); (66955, 66955); (66963, 66963);
   (66966, 66966); (66978, 66978); (66994, 66994); (67002, 67002);
   (67005, 67071); (67383, 67391); (67414, 67423); (67432, 67455);
   (67462, 67462); (67505, 67505); (67515, 67583); (67590, 67591);
   (67593, 67593); (67638, 67638); (67641, 67643); (67645, 67646);
   (67670, 67670); (67743, 67750); (67760, 67807); (67827, 67827);
   (67830, 67834); (67868, 67870); (67898, 67902); (67904, 67967);
   (68024, 68027); (68048, 68049); (68100, 68100); (68103, 68107);
   (68116, 68116); (68120, 68120); (68150, 68151); (68155, 68158);
   (68169, 68175); (68185, 68191); (68256, 68287); (68327, 68330);
   (68343, 68351); (68406, 68408); (68438, 68439); (68467, 68471);
   (68498, 68504); (68509, 68520); (68528, 68607); (68681, 68735);
   (68787, 68799); (68851, 68857); (68904, 68911); (68922, 69215);
   (69247, 69247); (69290, 69290); (69294, 69295); (69298, 69375);
   (69416, 69423); (69466, 69487); (69514, 69551); (69580, 69599);
   (69623, 69631); (69710, 69713); (69750, 69758); (69821, 69821);
   (69827, 69839); (69865, 69871); (69882, 69887); (69941, 69941);
   (69960, 69967); (70007, 70015); (70112, 70112); (70133, 70143);
   (70162, 70162); (70207, 70271); (70279, 70279); (70281, 70281);
   (70286, 70286); (70302, 70302); (70314, 70319); (70379, 70383);
   (70394, 70399); (70404, 70404); (70413, 70414); (70417, 70418);
   (70441, 70441); (70449, 70449); (70452, 70452); (70458, 70458);
   (70469, 70470); (70473, 70474); (70478, 70479); (70481, 70486);
   (70488, 70492); (70500, 70501); (70509, 70511); (70517, 70655);
   (70748, 70748); (70754, 70783); (70856, 70863); (70874, 71039);
   (71094, 71095); (71134, 71167); (71237, 71247); (71258, 71263);
   (71277, 71295); (71354, 71359); (71370, 71423); (71451, 71452);
   (71468, 71471); (71495, 71679); (71740, 71839); (71923, 71934);
   (71943, 71944); (71946, 71947); (71956, 71956); (71959, 71959);
   (71990, 71990); (71993, 71994); (72007, 72015); (72026, 72095);
   (72104, 72105); (72152, 72153); (72165, 72191); (72264, 72271);
   (72355, 72367); (72441, 72703); (72713, 72713); (72759, 72759);
   (72774, 72783); (72813, 72815); (72848, 72849); (72872, 72872);
   (72887, 72959); (72967, 72967); (72970, 72970); (73015, 73017);
   (73019, 73019); (73022, 73022); (73032, 73039); (73050, 73055);
   (73062, 73062); (73065, 73065); (73103, 73103); (73106, 73106);
   (73113, 73119); (73130, 73439); (73465, 73647); (73649, 73663);
   (73714, 73726); (74650, 74751); (74863, 74863); (74869, 74879);
   (75076, 77711); (77811, 77823); (78895, 82943); (83527, 92159);
   (92729, 92735); (92767, 92767); (92778, 92781); (92863, 92863);
   (92874, 92879); (92910, 92911); (92918, 92927); (92998, 93007);
   (93018, 93018); (93026, 93026); (93048, 93052); (93072, 93759);
   (93851, 93951); (94027, 94030); (94088, 94094); (94112, 94175);
   (94181, 94191); (94194, 94207); (100344, 100351); (101590, 101631);
   (101641, 110575); (110580, 110580); (110588, 110588); (110591, 110591);
   (110883, 110927); (110931, 110947); (110952, 110959); (111356, 113663);
   (113771, 113775); (113789, 113791); (113801, 113807); (113818, 113819);
   (113824, 118527); (118574, 118575); (118599, 118607); (118724, 118783);
   (119030, 119039); (119079, 119080); (119155, 119162); (119275, 119295);
   (119366, 119519); (119540, 119551); (119639, 119647); (119673, 119807);
   (119893, 119893); (119965, 119965); (119968, 119969); (119971, 119972);
   (119975, 119976); (119981, 119981); (119994, 119994); (119996, 119996);
   (120004, 120004); (120070, 120070); (120075, 120076); (120085, 120085);
   (120093, 120093); (120122, 120122); (120127, 120127); (120133, 120133);
   (120135, 120137); (120145, 120145); (120486, 120487); (120780, 120781);
   (121484, 121498); (121504, 121504); (121520, 122623); (122655, 122879);
   (122887, 122887); (122905, 122906); (122914, 122914); (122917, 122917);
   (122923, 123135); (123181, 123183); (123198, 123199); (123210, 123213);
   (123216, 123535); (123567, 123583); (123642, 123646); (123648, 124895);
   (124903, 124903); (124908, 124908); (124911, 124911); (124927, 124927);
   (125125, 125126); (125143, 125183); (125260, 125263); (125274, 125277);
   (125280, 126064); (126133, 126208); (126270, 126463); (126468, 126468);
   (126496, 126496); (126499, 126499); (126501, 126502); (126504, 126504);
   (126515, 126515); (126520, 126520); (126522, 126522); (126524, 126529);
   (126531, 126534); (126536, 126536); (126538, 126538); (126540, 126540);
   (126544, 126544); (126547, 126547); (126549, 126550); (126552, 126552);
   (126554, 126554); (126556, 126556); (126558, 126558); (126560, 126560);
   (126563, 126563); (126565, 126566); (126571, 126571); (126579, 126579);
   (126584, 126584); (126589, 126589); (126591, 126591); (126602, 126602);
   (126620, 126624); (126628, 126628); (126634, 126634); (126652, 126703);
   (126706, 126975); (127020, 127023); (127124, 127135); (127151, 127152);
   (127168, 127168); (127184, 127184); (127222, 127231); (127406, 127461);
   (127491, 127503); (127548, 127551); (127561, 127567); (127570, 127583);
   (127590, 127743); (128728, 128732); (128749, 128751); (128765, 128767);
   (128884, 128895); (128985, 128991); (129004, 129007); (129009, 129023);
   (129036, 129039); (129096, 129103); (129114, 129119); (129160, 129167);
   (129198, 129199); (129202, 129279); (129620, 129631); (129646, 129647);
   (129653, 129655); (129661, 129663); (129671, 129679); (129709, 129711);
   (129723, 129727); (129734, 129743); (129754, 129759); (129768, 129775);
   (129783, 129791); (129939, 129939); (129995, 130031); (130042, 131071);
   (173792, 173823); (177977, 177983); (178206, 178207); (183970, 183983);
   (191457, 194559); (195102, 196607); (201547, 917759); (918000, 1114111)]%N.

(** [unicodedata.decimal] of a character above ASCII. *)
Definition decimal (c : N) : option N :=
  match find (fun r => ((fst r <=? c) && (c <=? snd r))%N) decimal_runs with
  | Some r => Some (((c - fst r) mod 10)%N)
  | None => None
  end.

(** *** Integers and their text *)

Definition is_digit (c : ascii) : bool :=
  let n := nat_of_ascii c in (48 <=? n)%nat && (n <=? 57)%nat.

Definition digit_value (c : ascii) : Z := Z.of_nat (nat_of_ascii c) - 48.

(** White space that [int] skips at both ends of an ASCII argument:
    tab, line feed, vertical tab, form feed, carriage return, space. *)
Definition is_space (c : ascii) : bool :=
  let n := nat_of_ascii c in
  ((9 <=? n)%nat && (n <=? 13)%nat) || (n =? 32)%nat.

Fixpoint lstrip (s : string) : string :=
  match s with
  | EmptyString => EmptyString
  | String c r => if is_space c then lstrip r else s
  end.

Fixpoint rstrip (s : string) : string :=
  match s with
  | EmptyString => EmptyString
  | String c r =>
      match rstrip r with
      | EmptyString => if is_space c then EmptyString else String c EmptyString
      | r' => String c r'
      end
  end.

Definition strip (s : string) : string := rstrip (lstrip s).

(** Decimal digits with single underscores allowed between digits.
    [after_digit] tells whether the previous character was a digit. *)
Fixpoint digits_value (s : string) (acc : Z) (after_digit : bool) : option Z :=
  match s with
  | EmptyString => if after_digit then Some acc else None
  | String c r =>
      if is_digit c then digits_value r (10 * acc + digit_value c) true
      else if Ascii.eqb c "_"%char then
             if after_digit then digits_value r acc false else None
      else None
  end.

(** What [int] reads of an ASCII text. *)
Definition parse_ascii (s : string) : option Z :=
  match strip s with
  | String "+"%char r => digits_value r 0 false
  | String "-"%char r => option_map Z.opp (digits_value r 0 false)
  | t => digits_value t 0 false
  end.

(** The ASCII text that [int] reads in place of its argument: a
    character above ASCII becomes a space if it is white space and the
    ASCII digit of its value if it is a decimal digit; any other one makes
    the text unreadable. *)
Fixpoint to_ascii (cs : list (N * string)) : option string :=
  match cs with
  | [] => Some EmptyString
  | (c, _) :: rest =>
      let a :=
        if (c <? 127)%N then Some (ascii_of_N c)
        else if in_runs space_runs c then Some " "%char
        else option_map (fun d => ascii_of_N (48 + d)) (decimal c) in
      match a with
      | Some a => option_map (String a) (to_ascii rest)
      | None => None
      end
  end.

(** [int(s)] on a string: [None] stands for [ValueError]. *)
Definition parse_int (s : string) : option Z :=
  match to_ascii (chars s) with
  | Some t => parse_ascii t
  | None => None
  end.

(** *** [repr] of a string *)

Definition hex_digit (n : N) : ascii :=
  match String.get (N.to_nat n) "0123456789abcdef" with
  | Some a => a
  | None => "0"%char
  end.

(** The last [width] hexadecimal digits of [c], one per element. *)
Fixpoint hex (width : nat) (c : N) : list string :=
  match width with
  | O => []
  | S k => (hex k (c / 16) ++ [String (hex_digit (c mod 16)) EmptyString])%list
  end.

Definition backslash (text : string) : list string :=
  ["\"; text].

(** What [repr] writes for one character between quotes [quote], one
    element per character written. *)
Definition escape (quote : N) (ch : N * string) : list string :=
  let (c, bytes) := ch in
  if ((c =? quote) || (c =? 92))%N then backslash bytes
  else if (c =? 9)%N then backslash "t"
  else if (c =? 10)%N then backslash "n"
  else if (c =? 13)%N then backslash "r"
  else if ((c <? 32) || (c =? 127))%N then (backslash "x" ++ hex 2 c)%list
  else if (c <? 127)%N then [bytes]
  else if in_runs unprintable_runs c then
    if (c <=? 255)%N then (backslash "x" ++ hex 2 c)%list
    else if (c <=? 65535)%N then (backslash "u" ++ hex 4 c)%list
    else (backslash "U" ++ hex 8 c)%list
  else [bytes].

(** [repr(s)], one element per character: double quotes if the text
    holds a single quote and no double quote, single quotes otherwise. *)
Definition repr_chars (s : string) : list string :=
  let cs := chars s in
  let has q := existsb (fun ch : N * string => (fst ch =? q)%N) cs in
  let quote := if has 39%N && negb (has 34%N) then 34%N else 39%N in
  let q := String (ascii_of_N quote) EmptyString in
  (q :: flat_map (escape quote) cs ++ [q])%list.

Definition repr (s : string) : string := String.concat "" (repr_chars s).

(** The text of the [ValueError] of [int(s)]: the format is
    ["...: %.200R"], which cuts [repr(s)] after 200 characters. *)
Definition invalid_literal (s : string) : string :=
  "invalid literal for int() with base 10: "
  ++ String.concat "" (firstn 200 (repr_chars s)).

Definition int {St} (s : string) : M St Z :=
  match parse_int s with
  | Some z => ret z
  | None => raise (ValueError (invalid_literal s))
  end.

(** [str(n)], also what an f-string field [{n}] prints for an integer. *)
Definition str (n : Z) : string := NilZero.string_of_int (Z.to_int n).

Fixpoint zeros (n : nat) : string :=
  match n with
  | O => EmptyString
  | S k => String "0"%char (zeros k)
  end.

(** [f"{n:03d}"] and [strftime]'s two-digit fields: zeros are put
    between the sign and the digits up to [width] characters. *)
Definition zero_pad (width : nat) (n : Z) : string :=
  if n <? 0 then
    let d := str (- n) in "-" ++ zeros (width - 1 - String.length d) ++ d
  else
    let d := str n in zeros (width - String.length d) ++ d.

(** [range(1, n + 1)] *)
Definition range1 (n : Z) : list Z :=
  map (fun i => Z.of_nat i) (seq 1 (Z.to_nat n)).

(** The line terminator, Python's ["\n"]. *)
Definition nl : string := String "010"%char EmptyString.

(** [x in l] for a list of strings. *)
Definition mem (x : string) (l : list string) : bool :=
  existsb (String.eqb x) l.

(** [v.get()] on a [tk.IntVar]: [getint] of the text that the Tcl
    variable holds and, when that fails, [int(getdouble(text))].  The
    model keeps of the text what reading it gives: the integer, or the
    exception that [get] raises, [TclError] for text that is no number,
    [ValueError] for a not-a-number and [OverflowError] for an infinity.
    [v.set(n)] makes it [Ok n]. *)
Definition IntVar_get {St} (v : result Z) : M St Z :=
  match v with
  | Ok z => ret z
  | Raise e => raise e
  end.

(** *** Notions used to state properties of the above *)

(** Value of a decimal numeral read from the left, starting from [acc]. *)
Fixpoint uint_value (d : Decimal.uint) (acc : Z) : Z :=
  match d with
  | Decimal.Nil => acc
  | Decimal.D0 l => uint_value l (10 * acc + 0)
  | Decimal.D1 l => uint_value l (10 * acc + 1)
  | Decimal.D2 l => uint_value l (10 * acc + 2)
  | Decimal.D3 l => uint_value l (10 * acc + 3)
  | Decimal.D4 l => uint_value l (10 * acc + 4)
  | Decimal.D5 l => uint_value l (10 * acc + 5)
  | Decimal.D6 l => uint_value l (10 * acc + 6)
  | Decimal.D7 l => uint_value l (10 * acc + 7)
  | Decimal.D8 l => uint_value l (10 * acc + 8)
  | Decimal.D9 l => uint_value l (10 * acc + 9)
  end.

(** Every character of [s] satisfies [p]. *)
Fixpoint all_chars (p : ascii -> bool) (s : string) : bool :=
  match s with
  | EmptyString => true
  | String c r => p c && all_chars p r
  end.

Definition numeral_char (c : ascii) : bool :=
  is_digit c || Ascii.eqb c "-"%char.

(** [c] is not the separator [sep]. *)
Definition differs (sep c : ascii) : bool := negb (Ascii.eqb c sep).

(** [c] is an ASCII character other than DEL. *)
Definition plain (c : ascii) : bool := (byte c <? 127)%N.

(** *** Wall clock *)

Record time : Type := { hour : Z; minute : Z; second : Z }.

(** A clock that always reads noon, for the examples. *)
Definition noon (t : nat) : time := {| hour := 12; minute := 0; second := 0 |}.

(** [strftime("%H:%M:%S")] *)
Definition strftime_HMS (t : time) : string :=
  zero_pad 2 (hour t) ++ ":" ++ zero_pad 2 (minute t) ++ ":" ++ zero_pad 2 (second t).

(** *** Serial port handle (pyserial's [Serial] object)

    [faulty] stands for the condition of the operating-system handle
    (device unplugged, driver error): while it holds, I/O calls on the
    handle raise [SerialException] with the text [failure]. *)
Record port : Type := { is_open : bool; faulty : bool; failure : string }.

(** The text of pyserial's [PortNotOpenError]. *)
Definition port_not_open : string :=
  "Attempting to use a port that is not open".

(** What [serial.Serial(port, baud)] answers: a fresh handle or an
    exception.  The answer is the operating system's. *)
Definition Serial {St} (opened : result port) : M St port :=
  match opened with
  | Ok p => ret p
  | Raise e => raise e
  end.

(** *** Message boxes shown to the user *)
Inductive dialog : Type :=
| showerror (title message : string)
| showwarning (title message : string)
| askyesno (title message : string).

(** *** Frames *)

(** The method leaves the view [f] of the state as it was, whether it
    returns or raises. *)
Definition preserves {St A X} (f : St -> X) (m : M St A) : Prop :=
  forall s, f (snd (m s)) = f s.

(** The method returns: it raises no exception. *)
Definition returns {St A} (m : M St A) : Prop :=
  forall s, exists a, fst (m s) = Ok a.

End Py.

Notation "x <- m ;; k" := (Py.bind m (fun x => k))
  (at level 61, m at next level, right associativity).
Notation "m ;; k" := (Py.bind m (fun _ => k))
  (at level 61, right associativity).

(* ------------------------------------------------------------------ *)
(** ** First variant: class [SOLARGUI] of [SOLAR_GUI.py] *)
(* ------------------------------------------------------------------ *)

Module SOLARGUI.
Import Py.

(** Methods handed to [root.after]: they run later, from the Tk loop. *)
Inductive callback : Type :=
| after_update_device_lists
| after_get_status.

(** The attributes of the object.  [wire] is not an attribute: it records
    what has been written to the device through the serial handle.
    [log_text] and the labels hold the text of the widgets of the same
    name; [clock] and [ticks] give [datetime.now()] its successive
    answers. *)
Record state : Type := {
  serial_port : option port;
  is_connected : bool;
  wire : list string;
  total_devices : Z;
  system_state : string;
  ina226_status : string;
  servo_target_var : string;
  servo_device_var : string;
  servo_angle_var : result Z;
  current_target_var : string;
  current_device_var : string;
  current_value_var : result Z;
  filter_debug_var : bool;
  log_text : list string;
  device_count_label : string;
  state_label : string;
  ina226_label : string;
  connect_btn : string;
  connection_status : string;
  port_var : string;
  baud_var : string;
  servo_device_combo : list string;
  current_device_combo : list string;
  dialogs : list dialog;
  after_queue : list callback;
  clock : nat -> time;
  ticks : nat
}.

Definition set_serial_port (v : option port) (s : state) : state :=
  let 'Build_state _ x1 x2 x3 x4 x5 x6 x7 x8 x9 x10 x11 x12 x13 x14 x15 x16
      x17 x18 x19 x20 x21 x22 x23 x24 x25 x26 := s in
  Build_state v x1 x2 x3 x4 x5 x6 x7 x8 x9 x10 x11 x12 x13 x14 x15 x16 x17 x18
      x19 x20 x21 x22 x23 x24 x25 x26.

Definition set_is_connected (v : bool) (s : state) : state :=
  let 'Build_state x0 _ x2 x3 x4 x5 x6 x7 x8 x9 x10 x11 x12 x13 x14 x15 x16
      x17 x18 x19 x20 x21 x22 x23 x24 x25 x26 := s in
  Build_state x0 v x2 x3 x4 x5 x6 x7 x8 x9 x10 x11 x12 x13 x14 x15 x16 x17 x18
      x19 x20 x21 x22 x23 x24 x25 x26.

Definition set_wire (v : list string) (s : state) : state :=
  let 'Build_state x0 x1 _ x3 x4 x5 x6 x7 x8 x9 x10 x11 x12 x13 x14 x15 x16
      x17 x18 x19 x20 x21 x22 x23 x24 x25 x26 := s in
  Build_state x0 x1 v x3 x4 x5 x6 x7 x8 x9 x10 x11 x12 x13 x14 x15 x16 x17 x18
      x19 x20 x21 x22 x23 x24 x25 x26.

Definition set_total_devices (v : Z) (s : state) : state :=
  let 'Build_state x0 x1 x2 _ x4 x5 x6 x7 x8 x9 x10 x11 x12 x13 x14 x15 x16
      x17 x18 x19 x20 x21 x22 x23 x24 x25 x26 := s in
  Build_state x0 x1 x2 v x4 x5 x6 x7 x8 x9 x10 x11 x12 x13 x14 x15 x16 x17 x18
      x19 x20 x21 x22 x23 x24 x25 x26.

Definition set_system_state (v : string) (s : state) : state :=
  let 'Build_state x0 x1 x2 x3 _ x5 x6 x7 x8 x9 x10 x11 x12 x13 x14 x15 x16
      x17 x18 x19 x20 x21 x22 x23 x24 x25 x26 := s in
  Build_state x0 x1 x2 x3 v x5 x6 x7 x8 x9 x10 x11 x12 x13 x14 x15 x16 x17 x18
      x19 x20 x21 x22 x23 x24 x25 x26.

Definition set_ina226_status (v : string) (s : state) : state :=
  let 'Build_state x0 x1 x2 x3 x4 _ x6 x7 x8 x9 x10 x11 x12 x13 x14 x15 x16
      x17 x18 x19 x20 x21 x22 x23 x24 x25 x26 := s in
  Build_state x0 x1 x2 x3 x4 v x6 x7 x8 x9 x10 x11 x12 x13 x14 x15 x16 x17 x18
      x19 x20 x21 x22 x23 x24 x25 x26.

Definition set_servo_device_var (v : string) (s : state) : state :=
  let 'Build_state x0 x1 x2 x3 x4 x5 x6 _ x8 x9 x10 x11 x12 x13 x14 x15 x16
      x17 x18 x19 x20 x21 x22 x23 x24 x25 x26 := s in
  Build_state x0 x1 x2 x3 x4 x5 x6 v x8 x9 x10 x11 x12 x13 x14 x15 x16 x17 x18
      x19 x20 x21 x22 x23 x24 x25 x26.

Definition set_servo_angle_var (v : result Z) (s : state) : state :=
  let 'Build_state x0 x1 x2 x3 x4 x5 x6 x7 _ x9 x10 x11 x12 x13 x14 x15 x16
      x17 x18 x19 x20 x21 x22 x23 x24 x25 x26 := s in
  Build_state x0 x1 x2 x3 x4 x5 x6 x7 v x9 x10 x11 x12 x13 x14 x15 x16 x17 x18
      x19 x20 x21 x22 x23 x24 x25 x26.

Definition set_current_device_var (v : string) (s : state) : state :=
  let 'Build_state x0 x1 x2 x3 x4 x5 x6 x7 x8 x9 _ x11 x12 x13 x14 x15 x16 x17
      x18 x19 x20 x21 x22 x23 x24 x25 x26 := s in
  Build_state x0 x1 x2 x3 x4 x5 x6 x7 x8 x9 v x11 x12 x13 x14 x15 x16 x17 x18
      x19 x20 x21 x22 x23 x24 x25 x26.

Definition set_current_value_var (v : result Z) (s : state) : state :=
  let 'Build_state x0 x1 x2 x3 x4 x5 x6 x7 x8 x9 x10 _ x12 x13 x14 x15 x16 x17
      x18 x19 x20 x21 x22 x23 x24 x25 x26 := s in
  Build_state x0 x1 x2 x3 x4 x5 x6 x7 x8 x9 x10 v x12 x13 x14 x15 x16 x17 x18
      x19 x20 x21 x22 x23 x24 x25 x26.

Definition set_filter_debug_var (v : bool) (s : state) : state :=
  let 'Build_state x0 x1 x2 x3 x4 x5 x6 x7 x8 x9 x10 x11 _ x13 x14 x15 x16 x17
      x18 x19 x20 x21 x22 x23 x24 x25 x26 := s in
  Build_state x0 x1 x2 x3 x4 x5 x6 x7 x8 x9 x10 x11 v x13 x14 x15 x16 x17 x18
      x19 x20 x21 x22 x23 x24 x25 x26.

Definition set_log_text (v : list string) (s : state) : state :=
  let 'Build_state x0 x1 x2 x3 x4 x5 x6 x7 x8 x9 x10 x11 x12 _ x14 x15 x16 x17
      x18 x19 x20 x21 x22 x23 x24 x25 x26 := s in
  Build_state x0 x1 x2 x3 x4 x5 x6 x7 x8 x9 x10 x11 x12 v x14 x15 x16 x17 x18
      x19 x20 x21 x22 x23 x24 x25 x26.

Definition set_device_count_label (v : string) (s : state) : state :=
  let 'Build_state x0 x1 x2 x3 x4 x5 x6 x7 x8 x9 x10 x11 x12 x13 _ x15 x16 x17
      x18 x19 x20 x21 x22 x23 x24 x25 x26 := s in
  Build_state x0 x1 x2 x3 x4 x5 x6 x7 x8 x9 x10 x11 x12 x13 v x15 x16 x17 x18
      x19 x20 x21 x22 x23 x24 x25 x26.

Definition set_state_label (v : string) (s : state) : state :=
  let 'Build_state x0 x1 x2 x3 x4 x5 x6 x7 x8 x9 x10 x11 x12 x13 x14 _ x16 x17
      x18 x19 x20 x21 x22 x23 x24 x25 x26 := s in
  Build_state x0 x1 x2 x3 x4 x5 x6 x7 x8 x9 x10 x11 x12 x13 x14 v x16 x17 x18
      x19 x20 x21 x22 x23 x24 x25 x26.

Definition set_ina226_label (v : string) (s : state) : state :=
  let 'Build_state x0 x1 x2 x3 x4 x5 x6 x7 x8 x9 x10 x11 x12 x13 x14 x15 _ x17
      x18 x19 x20 x21 x22 x23 x24 x25 x26 := s in
  Build_state x0 x1 x2 x3 x4 x5 x6 x7 x8 x9 x10 x11 x12 x13 x14 x15 v x17 x18
      x19 x20 x21 x22 x23 x24 x25 x26.

Definition set_connect_btn (v : string) (s : state) : state :=
  let 'Build_state x0 x1 x2 x3 x4 x5 x6 x7 x8 x9 x10 x11 x12 x13 x14 x15 x16 _
      x18 x19 x20 x21 x22 x23 x24 x25 x26 := s in
  Build_state x0 x1 x2 x3 x4 x5 x6 x7 x8 x9 x10 x11 x12 x13 x14 x15 x16 v x18
      x19 x20 x21 x22 x23 x24 x25 x26.

Definition set_connection_status (v : string) (s : state) : state :=
  let 'Build_state x0 x1 x2 x3 x4 x5 x6 x7 x8 x9 x10 x11 x12 x13 x14 x15 x16
      x17 _ x19 x20 x21 x22 x23 x24 x25 x26 := s in
  Build_state x0 x1 x2 x3 x4 x5 x6 x7 x8 x9 x10 x11 x12 x13 x14 x15 x16 x17 v
      x19 x20 x21 x22 x23 x24 x25 x26.

Definition set_servo_device_combo (v : list string) (s : state) : state :=
  let 'Build_state x0 x1 x2 x3 x4 x5 x6 x7 x8 x9 x10 x11 x12 x13 x14 x15 x16
      x17 x18 x19 x20 _ x22 x23 x24 x25 x26 := s in
  Build_state x0 x1 x2 x3 x4 x5 x6 x7 x8 x9 x10 x11 x12 x13 x14 x15 x16 x17
      x18 x19 x20 v x22 x23 x24 x25 x26.

Definition set_current_device_combo (v : list string) (s : state) : state :=
  let 'Build_state x0 x1 x2 x3 x4 x5 x6 x7 x8 x9 x10 x11 x12 x13 x14 x15 x16
      x17 x18 x19 x20 x21 _ x23 x24 x25 x26 := s in
  Build_state x0 x1 x2 x3 x4 x5 x6 x7 x8 x9 x10 x11 x12 x13 x14 x15 x16 x17
      x18 x19 x20 x21 v x23 x24 x25 x26.

Definition set_dialogs (v : list dialog) (s : state) : state :=
  let 'Build_state x0 x1 x2 x3 x4 x5 x6 x7 x8 x9 x10 x11 x12 x13 x14 x15 x16
      x17 x18 x19 x20 x21 x22 _ x24 x25 x26 := s in
  Build_state x0 x1 x2 x3 x4 x5 x6 x7 x8 x9 x10 x11 x12 x13 x14 x15 x16 x17
      x18 x19 x20 x21 x22 v x24 x25 x26.

Definition set_after_queue (v : list callback) (s : state) : state :=
  let 'Build_state x0 x1 x2 x3 x4 x5 x6 x7 x8 x9 x10 x11 x12 x13 x14 x15 x16
      x17 x18 x19 x20 x21 x22 x23 _ x25 x26 := s in
  Build_state x0 x1 x2 x3 x4 x5 x6 x7 x8 x9 x10 x11 x12 x13 x14 x15 x16 x17
      x18 x19 x20 x21 x22 x23 v x25 x26.

Definition set_ticks (v : nat) (s : state) : state :=
  let 'Build_state x0 x1 x2 x3 x4 x5 x6 x7 x8 x9 x10 x11 x12 x13 x14 x15 x16
      x17 x18 x19 x20 x21 x22 x23 x24 x25 _ := s in
  Build_state x0 x1 x2 x3 x4 x5 x6 x7 x8 x9 x10 x11 x12 x13 x14 x15 x16 x17
      x18 x19 x20 x21 x22 x23 x24 x25 v.

Definition show (d : dialog) : M state unit :=
  modify (fun s => set_dialogs (dialogs s ++ [d]) s).

Definition after (cb : callback) : M state unit :=
  modify (fun s => set_after_queue (after_queue s ++ [cb]) s).

(** [self.serial_port.write(data)]: pyserial refuses a handle that is not
    open with its [PortNotOpenError], a [SerialException]. *)
Definition write (p : port) (data : string) : M state unit :=
  if is_open p && negb (faulty p)
  then modify (fun s => set_wire (wire s ++ [data]) s)
  else raise (SerialException (if is_open p then failure p else port_not_open)).

(** [self.serial_port.close()] *)
Definition close (p : port) : M state unit :=
  if faulty p then raise (SerialException (failure p))
  else modify (set_serial_port (Some {| is_open := false; faulty := faulty p; failure := failure p |})).

(** [datetime.now().strftime("%H:%M:%S")], at the current reading of the
    clock. *)
Definition stamp (s : state) : string := strftime_HMS (clock s (ticks s)).

Definition log_message (message : string) : M state unit :=
  s <- get ;;
  let timestamp := stamp s in
  modify (set_ticks (S (ticks s))) ;;
  modify (fun s => set_log_text
                     (log_text s ++ ["[" ++ timestamp ++ "] " ++ message ++ nl]) s).

Definition send_command (command : string) : M state unit :=
  s <- get ;;
  match is_connected s, serial_port s with
  | true, Some p =>
      try_except
        (write p (command ++ nl) ;;
         log_message ("→ " ++ command))
        any_exception
        (fun e => log_message ("❌ Send error: " ++ message e))
  | _, _ => show (showerror "Error" "Not connected to device")
  end.

Definition get_status : M state unit := send_command "status".

Definition reinitialize : M state unit := send_command "reinit".

Definition get_current_status : M state unit := send_command "current".

(** [answer] is what the user replies to the confirmation box. *)
Definition emergency_shutdown (answer : bool) : M state unit :=
  show (askyesno "Emergency Shutdown"
                 "Are you sure you want to perform emergency shutdown?") ;;
  if answer then send_command "emergency" else ret tt.

Definition set_servo_angle (angle : Z) : M state unit :=
  modify (set_servo_angle_var (Ok angle)).

Definition set_current_value (current : Z) : M state unit :=
  modify (set_current_value_var (Ok current)).

Definition set_servo : M state unit :=
  s <- get ;;
  angle <- IntVar_get (servo_angle_var s) ;;
  let device :=
    if String.eqb (servo_target_var s) "all" then "000"
    else servo_device_var s in
  let command := device ++ ",servo," ++ str angle in
  send_command command.

Definition set_current : M state unit :=
  s <- get ;;
  current <- IntVar_get (current_value_var s) ;;
  let device :=
    if String.eqb (current_target_var s) "all" then "000"
    else current_device_var s in
  let command := device ++ ",current," ++ str current in
  send_command command.

Definition update_device_lists : M state unit :=
  s <- get ;;
  if 0 <? total_devices s then
    let device_list := "000" :: map (zero_pad 3) (range1 (total_devices s)) in
    modify (set_servo_device_combo device_list) ;;
    (if negb (mem (servo_device_var s) device_list)
     then modify (set_servo_device_var "000") else ret tt) ;;
    modify (set_current_device_combo device_list) ;;
    (if negb (mem (current_device_var s) device_list)
     then modify (set_current_device_var "000") else ret tt)
  else ret tt.

Definition is_current_detail (data : string) : bool :=
  startswith data "Target Current:" || startswith data "Measured Current:"
  || startswith data "Bus Voltage:" || startswith data "Shunt Voltage:"
  || startswith data "Power:" || startswith data "DAC Value:"
  || startswith data "DAC Voltage:" || startswith data "Control State:".

Definition process_serial_data (data : string) : M state unit :=
  s <- get ;;
  if filter_debug_var s && startswith data "DEBUG:" then ret tt
  else if startswith data "TOTAL:" then
    field <- index (split ":" data) 1 ;;
    total <- int field ;;
    modify (set_total_devices total) ;;
    modify (set_device_count_label (str total)) ;;
    after after_update_device_lists
  else if startswith data "STATE:" then
    field <- index (split ":" data) 1 ;;
    modify (set_system_state field) ;;
    modify (set_state_label field)
  else if startswith data "INA226:" then
    field <- index (split ":" data) 1 ;;
    modify (set_ina226_status field) ;;
    modify (set_ina226_label field)
  else if startswith data "EOT" then log_message "✓ EOT"
  else if startswith data "ERR:" then log_message ("❌ Error: " ++ data)
  else if startswith data "EMERGENCY:" then log_message ("🚨 " ++ data)
  else if startswith data "===" then log_message data
  else if is_current_detail data then log_message data
  else log_message data.

(** [opened] is the answer of [serial.Serial] should the method reach it.
    The reader thread that the connect branch starts is not modelled. *)
Definition toggle_connection (opened : result port) : M state unit :=
  s <- get ;;
  if negb (is_connected s) then
    try_except
      (let port := port_var s in
       baud <- int (baud_var s) ;;
       if String.eqb port "" then
         show (showerror "Error" "Please select a port")
       else
         p <- Serial opened ;;
         modify (set_serial_port (Some p)) ;;
         modify (set_is_connected true) ;;
         modify (set_connect_btn "Disconnect") ;;
         modify (set_connection_status "Connected") ;;
         after after_get_status ;;
         log_message ("🔌 Connected to " ++ port ++ " at " ++ str baud ++ " baud"))
      any_exception
      (fun e =>
         show (showerror "Connection Error" ("Failed to connect: " ++ message e)) ;;
         log_message ("❌ Connection failed: " ++ message e))
  else
    try_except
      (match serial_port s with
       | Some p => close p
       | None => ret tt
       end ;;
       modify (set_is_connected false) ;;
       modify (set_connect_btn "Connect") ;;
       modify (set_connection_status "Disconnected") ;;
       modify (set_device_count_label "0") ;;
       modify (set_state_label "Unknown") ;;
       modify (set_ina226_label "Unknown") ;;
       log_message "🔌 Disconnected")
      any_exception
      (fun e => log_message ("❌ Disconnect error: " ++ message e)).

Definition clear_log : M state unit := modify (set_log_text []).

(** The "Filter DEBUG messages" check box: it is bound to the variable and
    has no command, so a click only flips the variable. *)
Definition click_filter_debug : M state unit :=
  modify (fun s => set_filter_debug_var (negb (filter_debug_var s)) s).

(** The attribute values that [__init__] and the widget constructors set.
    Port enumeration and the scheduled auto-connect are left out. *)
Definition init (clk : nat -> time) : state :=
  {| serial_port := None; is_connected := false; wire := [];
     total_devices := 0; system_state := "Unknown"; ina226_status := "Unknown";
     servo_target_var := "all"; servo_device_var := "000";
     servo_angle_var := Ok 90;
     current_target_var := "all"; current_device_var := "000";
     current_value_var := Ok 0;
     filter_debug_var := true; log_text := [];
     device_count_label := "0"; state_label := "Unknown";
     ina226_label := "Unknown";
     connect_btn := "Connect"; connection_status := "Disconnected";
     port_var := ""; baud_var := "115200";
     servo_device_combo := ["000"]; current_device_combo := ["000"];
     dialogs := []; after_queue := [];
     clock := clk; ticks := O |}.

(** Connected, with a handle that is open and works. *)
Definition ready (s : state) : Prop :=
  is_connected s = true
  /\ exists p, serial_port s = Some p /\ is_open p = true /\ faulty p = false.

(** The object once a port has been opened. *)
Definition connected (clk : nat -> time) : state :=
  set_serial_port (Some {| is_open := true; faulty := false; failure := "" |})
    (set_is_connected true (init clk)).

(** *** Further methods of the class *)

Definition set_servo_target_var (v : string) (s : state) : state :=
  let 'Build_state x0 x1 x2 x3 x4 x5 _ x7 x8 x9 x10 x11 x12 x13 x14 x15 x16
      x17 x18 x19 x20 x21 x22 x23 x24 x25 x26 := s in
  Build_state x0 x1 x2 x3 x4 x5 v x7 x8 x9 x10 x11 x12 x13 x14 x15 x16 x17 x18
      x19 x20 x21 x22 x23 x24 x25 x26.

Definition set_current_target_var (v : string) (s : state) : state :=
  let 'Build_state x0 x1 x2 x3 x4 x5 x6 x7 x8 _ x10 x11 x12 x13 x14 x15 x16
      x17 x18 x19 x20 x21 x22 x23 x24 x25 x26 := s in
  Build_state x0 x1 x2 x3 x4 x5 x6 x7 x8 v x10 x11 x12 x13 x14 x15 x16 x17 x18
      x19 x20 x21 x22 x23 x24 x25 x26.
(** The state of the combo box (disabled, read-only) is not modelled. *)
Definition update_servo_device_list : M state unit :=
  s <- get ;;
  if String.eqb (servo_target_var s) "all" then
    modify (set_servo_device_var "000")
  else if 0 <? total_devices s then
    let device_list := "000" :: map (zero_pad 3) (range1 (total_devices s)) in
    modify (set_servo_device_combo device_list) ;;
    if negb (mem (servo_device_var s) device_list)
    then modify (set_servo_device_var "001") else ret tt
  else ret tt.

Definition update_current_device_list : M state unit :=
  s <- get ;;
  if String.eqb (current_target_var s) "all" then
    modify (set_current_device_var "000")
  else if 0 <? total_devices s then
    let device_list := "000" :: map (zero_pad 3) (range1 (total_devices s)) in
    modify (set_current_device_combo device_list) ;;
    if negb (mem (current_device_var s) device_list)
    then modify (set_current_device_var "001") else ret tt
  else ret tt.

(** The two radio buttons of the servo section: a click stores the
    button's value in the variable and runs the command of the button. *)
Definition select_servo_target (mode : string) : M state unit :=
  modify (set_servo_target_var mode) ;;
  update_servo_device_list.

(** The two radio buttons of the current section. *)
Definition select_current_target (mode : string) : M state unit :=
  modify (set_current_target_var mode) ;;
  update_current_device_list.

(** The commands that the buttons and timers of the window run through
    [send_command]. *)
Inductive command_action : Type :=
| do_get_status
| do_reinitialize
| do_get_current_status
| do_emergency_shutdown (answer : bool)
| do_set_servo
| do_set_current.

Definition run_command (a : command_action) : M state unit :=
  match a with
  | do_get_status => get_status
  | do_reinitialize => reinitialize
  | do_get_current_status => get_current_status
  | do_emergency_shutdown answer => emergency_shutdown answer
  | do_set_servo => set_servo
  | do_set_current => set_current
  end.

(** The three status attributes that the dispatcher maintains. *)
Definition device_state (s : state) : Z * string * string :=
  (total_devices s, system_state s, ina226_status s).

Definition set_port_var (v : string) (s : state) : state :=
  let 'Build_state x0 x1 x2 x3 x4 x5 x6 x7 x8 x9 x10 x11 x12 x13 x14 x15 x16
      x17 x18 _ x20 x21 x22 x23 x24 x25 x26 := s in
  Build_state x0 x1 x2 x3 x4 x5 x6 x7 x8 x9 x10 x11 x12 x13 x14 x15 x16 x17
      x18 v x20 x21 x22 x23 x24 x25 x26.

Definition set_baud_var (v : string) (s : state) : state :=
  let 'Build_state x0 x1 x2 x3 x4 x5 x6 x7 x8 x9 x10 x11 x12 x13 x14 x15 x16
      x17 x18 x19 _ x21 x22 x23 x24 x25 x26 := s in
  Build_state x0 x1 x2 x3 x4 x5 x6 x7 x8 x9 x10 x11 x12 x13 x14 x15 x16 x17
      x18 x19 v x21 x22 x23 x24 x25 x26.

(** *** The object over time *)

(** What the Tk loop runs on the object: the commands of the buttons,
    radio buttons and check box, the calls that the reader and the demo
    threads hand to [root.after], and the user's edits of the variables
    bound to the entry widgets. *)
Inductive action : Type :=
| do_toggle_connection (opened : result port)
| do_command (c : command_action)
| do_send_command (command : string)
| do_process_serial_data (data : string)
| do_log_message (message : string)
| do_update_device_lists
| do_select_servo_target (mode : string)
| do_select_current_target (mode : string)
| do_set_servo_angle (angle : Z)
| do_set_current_value (current : Z)
| do_click_filter_debug
| do_clear_log
| user_sets_port (text : string)
| user_sets_baud (text : string)
| user_sets_angle (v : result Z)
| user_sets_current (v : result Z)
| user_picks_servo_device (text : string)
| user_picks_current_device (text : string).

Definition step (a : action) : M state unit :=
  match a with
  | do_toggle_connection opened => toggle_connection opened
  | do_command c => run_command c
  | do_send_command command => send_command command
  | do_process_serial_data data => process_serial_data data
  | do_log_message message => log_message message
  | do_update_device_lists => update_device_lists
  | do_select_servo_target mode => select_servo_target mode
  | do_select_current_target mode => select_current_target mode
  | do_set_servo_angle angle => set_servo_angle angle
  | do_set_current_value current => set_current_value current
  | do_click_filter_debug => click_filter_debug
  | do_clear_log => clear_log
  | user_sets_port text => modify (set_port_var text)
  | user_sets_baud text => modify (set_baud_var text)
  | user_sets_angle v => modify (set_servo_angle_var v)
  | user_sets_current v => modify (set_current_value_var v)
  | user_picks_servo_device text => modify (set_servo_device_var text)
  | user_picks_current_device text => modify (set_current_device_var text)
  end.

(** The states that the object can be in.  A method that raises leaves
    the state it had reached (the Tk loop reports the exception and goes
    on). *)
Inductive reachable (clk : nat -> time) : state -> Prop :=
| reachable_init : reachable clk (init clk)
| reachable_step s a : reachable clk s -> reachable clk (exec (step a) s).

(** *** Views of the state *)

(** The connection. *)
Definition link (s : state) : bool * option port :=
  (is_connected s, serial_port s).

(** What the window says of the connection. *)
Definition link_display (s : state) : string * string :=
  (connect_btn s, connection_status s).

(** The three status labels. *)
Definition status_labels (s : state) : string * string * string :=
  (device_count_label s, state_label s, ina226_label s).

(** A connected object has a handle, and the button and the status label
    say what the connection flag says. *)
Definition link_invariant (s : state) : Prop :=
  (is_connected s = true -> serial_port s <> None)
  /\ link_display s = (if is_connected s then ("Disconnect", "Connected")
                       else ("Connect", "Disconnected")).

(** The entries of the two device lists for [n] devices. *)
Definition device_list (n : Z) : list string :=
  "000" :: map (zero_pad 3) (range1 n).

(** The lines with which the device reports its status. *)
Definition is_status_line (data : string) : bool :=
  startswith data "TOTAL:" || startswith data "STATE:"
  || startswith data "INA226:".

(** *** Names for the dialogs that the statements mention *)

(** The error box of [send_command] when there is no connection. *)
Definition not_connected_error : dialog :=
  showerror "Error" "Not connected to device".

(** The error box of [toggle_connection] when no port is chosen. *)
Definition select_port_error : dialog :=
  showerror "Error" "Please select a port".

(** The error box of [toggle_connection] when connecting fails. *)
Definition connection_error (e : exn) : dialog :=
  showerror "Connection Error" ("Failed to connect: " ++ message e).

(** The question of [emergency_shutdown]. *)
Definition shutdown_question : dialog :=
  askyesno "Emergency Shutdown"
           "Are you sure you want to perform emergency shutdown?".

End SOLARGUI.

(* ------------------------------------------------------------------ *)
(** ** V3 variant: class [SolarController] of [SOLAR_GUI_V3.py] *)
(* ------------------------------------------------------------------ *)

Module SolarController.
Import Py.

(** Methods handed to [root.after]. *)
Inductive callback : Type :=
| after_process_queue
| after_auto_request_status
| after_try_auto_connect.

(** Tags of the log text widget. *)
Inductive tag : Type :=
| tag_error
| tag_success
| tag_info.

(** Items of [message_queue]: [('serial', line)], [('error', text)] and
    [('log', (text, tag))]. *)
Inductive queued : Type :=
| q_serial (line : string)
| q_error (text : string)
| q_log (text : string) (tg : option tag).

(** The attributes of the object.  [wire] records what has been written
    to the device; [log_text] is the content of the text widget, one pair
    per [insert]; the combo fields hold the widgets' ['values']. *)
Record state : Type := {
  serial_port : option port;
  is_connected : bool;
  running : bool;
  wire : list string;
  message_queue : list queued;
  port_var : string;
  baud_var : string;
  total_devices : result Z;
  system_state : string;
  connection_status : string;
  servo_target_mode : string;
  servo_device_var : string;
  servo_angle_var : result Z;
  led_device_var : string;
  group_total_var : result Z;
  group_id_var : string;
  current_var : result Z;
  exposure_var : result Z;
  frame_count_var : result Z;
  interframe_delay_var : result Z;
  debug_filter_var : bool;
  log_buffer : list (string * option tag);
  log_text : list (string * option tag);
  connect_button : string;
  servo_device_combo : list string;
  led_device_combo : list string;
  group_id_combo : list string;
  dialogs : list dialog;
  after_queue : list callback;
  clock : nat -> time;
  ticks : nat
}.

Definition set_serial_port (v : option port) (s : state) : state :=
  let 'Build_state _ x1 x2 x3 x4 x5 x6 x7 x8 x9 x10 x11 x12 x13 x14 x15 x16
      x17 x18 x19 x20 x21 x22 x23 x24 x25 x26 x27 x28 x29 x30 := s in
  Build_state v x1 x2 x3 x4 x5 x6 x7 x8 x9 x10 x11 x12 x13 x14 x15 x16 x17 x18
      x19 x20 x21 x22 x23 x24 x25 x26 x27 x28 x29 x30.

Definition set_is_connected (v : bool) (s : state) : state :=
  let 'Build_state x0 _ x2 x3 x4 x5 x6 x7 x8 x9 x10 x11 x12 x13 x14 x15 x16
      x17 x18 x19 x20 x21 x22 x23 x24 x25 x26 x27 x28 x29 x30 := s in
  Build_state x0 v x2 x3 x4 x5 x6 x7 x8 x9 x10 x11 x12 x13 x14 x15 x16 x17 x18
      x19 x20 x21 x22 x23 x24 x25 x26 x27 x28 x29 x30.

Definition set_running (v : bool) (s : state) : state :=
  let 'Build_state x0 x1 _ x3 x4 x5 x6 x7 x8 x9 x10 x11 x12 x13 x14 x15 x16
      x17 x18 x19 x20 x21 x22 x23 x24 x25 x26 x27 x28 x29 x30 := s in
  Build_state x0 x1 v x3 x4 x5 x6 x7 x8 x9 x10 x11 x12 x13 x14 x15 x16 x17 x18
      x19 x20 x21 x22 x23 x24 x25 x26 x27 x28 x29 x30.

Definition set_wire (v : list string) (s : state) : state :=
  let 'Build_state x0 x1 x2 _ x4 x5 x6 x7 x8 x9 x10 x11 x12 x13 x14 x15 x16
      x17 x18 x19 x20 x21 x22 x23 x24 x25 x26 x27 x28 x29 x30 := s in
  Build_state x0 x1 x2 v x4 x5 x6 x7 x8 x9 x10 x11 x12 x13 x14 x15 x16 x17 x18
      x19 x20 x21 x22 x23 x24 x25 x26 x27 x28 x29 x30.

Definition set_message_queue (v : list queued) (s : state) : state :=
  let 'Build_state x0 x1 x2 x3 _ x5 x6 x7 x8 x9 x10 x11 x12 x13 x14 x15 x16
      x17 x18 x19 x20 x21 x22 x23 x24 x25 x26 x27 x28 x29 x30 := s in
  Build_state x0 x1 x2 x3 v x5 x6 x7 x8 x9 x10 x11 x12 x13 x14 x15 x16 x17 x18
      x19 x20 x21 x22 x23 x24 x25 x26 x27 x28 x29 x30.

Definition set_total_devices (v : result Z) (s : state) : state :=
  let 'Build_state x0 x1 x2 x3 x4 x5 x6 _ x8 x9 x10 x11 x12 x13 x14 x15 x16
      x17 x18 x19 x20 x21 x22 x23 x24 x25 x26 x27 x28 x29 x30 := s in
  Build_state x0 x1 x2 x3 x4 x5 x6 v x8 x9 x10 x11 x12 x13 x14 x15 x16 x17 x18
      x19 x20 x21 x22 x23 x24 x25 x26 x27 x28 x29 x30.

Definition set_system_state (v : string) (s : state) : state :=
  let 'Build_state x0 x1 x2 x3 x4 x5 x6 x7 _ x9 x10 x11 x12 x13 x14 x15 x16
      x17 x18 x19 x20 x21 x22 x23 x24 x25 x26 x27 x28 x29 x30 := s in
  Build_state x0 x1 x2 x3 x4 x5 x6 x7 v x9 x10 x11 x12 x13 x14 x15 x16 x17 x18
      x19 x20 x21 x22 x23 x24 x25 x26 x27 x28 x29 x30.

Definition set_connection_status (v : string) (s : state) : state :=
  let 'Build_state x0 x1 x2 x3 x4 x5 x6 x7 x8 _ x10 x11 x12 x13 x14 x15 x16
      x17 x18 x19 x20 x21 x22 x23 x24 x25 x26 x27 x28 x29 x30 := s in
  Build_state x0 x1 x2 x3 x4 x5 x6 x7 x8 v x10 x11 x12 x13 x14 x15 x16 x17 x18
      x19 x20 x21 x22 x23 x24 x25 x26 x27 x28 x29 x30.

Definition set_servo_device_var (v : string) (s : state) : state :=
  let 'Build_state x0 x1 x2 x3 x4 x5 x6 x7 x8 x9 x10 _ x12 x13 x14 x15 x16 x17
      x18 x19 x20 x21 x22 x23 x24 x25 x26 x27 x28 x29 x30 := s in
  Build_state x0 x1 x2 x3 x4 x5 x6 x7 x8 x9 x10 v x12 x13 x14 x15 x16 x17 x18
      x19 x20 x21 x22 x23 x24 x25 x26 x27 x28 x29 x30.

Definition set_servo_angle_var (v : result Z) (s : state) : state :=
  let 'Build_state x0 x1 x2 x3 x4 x5 x6 x7 x8 x9 x10 x11 _ x13 x14 x15 x16 x17
      x18 x19 x20 x21 x22 x23 x24 x25 x26 x27 x28 x29 x30 := s in
  Build_state x0 x1 x2 x3 x4 x5 x6 x7 x8 x9 x10 x11 v x13 x14 x15 x16 x17 x18
      x19 x20 x21 x22 x23 x24 x25 x26 x27 x28 x29 x30.

Definition set_led_device_var (v : string) (s : state) : state :=
  let 'Build_state x0 x1 x2 x3 x4 x5 x6 x7 x8 x9 x10 x11 x12 _ x14 x15 x16 x17
      x18 x19 x20 x21 x22 x23 x24 x25 x26 x27 x28 x29 x30 := s in
  Build_state x0 x1 x2 x3 x4 x5 x6 x7 x8 x9 x10 x11 x12 v x14 x15 x16 x17 x18
      x19 x20 x21 x22 x23 x24 x25 x26 x27 x28 x29 x30.

Definition set_group_total_var (v : result Z) (s : state) : state :=
  let 'Build_state x0 x1 x2 x3 x4 x5 x6 x7 x8 x9 x10 x11 x12 x13 _ x15 x16 x17
      x18 x19 x20 x21 x22 x23 x24 x25 x26 x27 x28 x29 x30 := s in
  Build_state x0 x1 x2 x3 x4 x5 x6 x7 x8 x9 x10 x11 x12 x13 v x15 x16 x17 x18
      x19 x20 x21 x22 x23 x24 x25 x26 x27 x28 x29 x30.

Definition set_group_id_var (v : string) (s : state) : state :=
  let 'Build_state x0 x1 x2 x3 x4 x5 x6 x7 x8 x9 x10 x11 x12 x13 x14 _ x16 x17
      x18 x19 x20 x21 x22 x23 x24 x25 x26 x27 x28 x29 x30 := s in
  Build_state x0 x1 x2 x3 x4 x5 x6 x7 x8 x9 x10 x11 x12 x13 x14 v x16 x17 x18
      x19 x20 x21 x22 x23 x24 x25 x26 x27 x28 x29 x30.

Definition set_frame_count_var (v : result Z) (s : state) : state :=
  let 'Build_state x0 x1 x2 x3 x4 x5 x6 x7 x8 x9 x10 x11 x12 x13 x14 x15 x16
      x17 _ x19 x20 x21 x22 x23 x24 x25 x26 x27 x28 x29 x30 := s in
  Build_state x0 x1 x2 x3 x4 x5 x6 x7 x8 x9 x10 x11 x12 x13 x14 x15 x16 x17 v
      x19 x20 x21 x22 x23 x24 x25 x26 x27 x28 x29 x30.

Definition set_interframe_delay_var (v : result Z) (s : state) : state :=
  let 'Build_state x0 x1 x2 x3 x4 x5 x6 x7 x8 x9 x10 x11 x12 x13 x14 x15 x16
      x17 x18 _ x20 x21 x22 x23 x24 x25 x26 x27 x28 x29 x30 := s in
  Build_state x0 x1 x2 x3 x4 x5 x6 x7 x8 x9 x10 x11 x12 x13 x14 x15 x16 x17
      x18 v x20 x21 x22 x23 x24 x25 x26 x27 x28 x29 x30.

Definition set_debug_filter_var (v : bool) (s : state) : state :=
  let 'Build_state x0 x1 x2 x3 x4 x5 x6 x7 x8 x9 x10 x11 x12 x13 x14 x15 x16
      x17 x18 x19 _ x21 x22 x23 x24 x25 x26 x27 x28 x29 x30 := s in
  Build_state x0 x1 x2 x3 x4 x5 x6 x7 x8 x9 x10 x11 x12 x13 x14 x15 x16 x17
      x18 x19 v x21 x22 x23 x24 x25 x26 x27 x28 x29 x30.

Definition set_log_buffer (v : list (string * option tag)) (s : state) : state :=
  let 'Build_state x0 x1 x2 x3 x4 x5 x6 x7 x8 x9 x10 x11 x12 x13 x14 x15 x16
      x17 x18 x19 x20 _ x22 x23 x24 x25 x26 x27 x28 x29 x30 := s in
  Build_state x0 x1 x2 x3 x4 x5 x6 x7 x8 x9 x10 x11 x12 x13 x14 x15 x16 x17
      x18 x19 x20 v x22 x23 x24 x25 x26 x27 x28 x29 x30.

Definition set_log_text (v : list (string * option tag)) (s : state) : state :=
  let 'Build_state x0 x1 x2 x3 x4 x5 x6 x7 x8 x9 x10 x11 x12 x13 x14 x15 x16
      x17 x18 x19 x20 x21 _ x23 x24 x25 x26 x27 x28 x29 x30 := s in
  Build_state x0 x1 x2 x3 x4 x5 x6 x7 x8 x9 x10 x11 x12 x13 x14 x15 x16 x17
      x18 x19 x20 x21 v x23 x24 x25 x26 x27 x28 x29 x30.

Definition set_connect_button (v : string) (s : state) : state :=
  let 'Build_state x0 x1 x2 x3 x4 x5 x6 x7 x8 x9 x10 x11 x12 x13 x14 x15 x16
      x17 x18 x19 x20 x21 x22 _ x24 x25 x26 x27 x28 x29 x30 := s in
  Build_state x0 x1 x2 x3 x4 x5 x6 x7 x8 x9 x10 x11 x12 x13 x14 x15 x16 x17
      x18 x19 x20 x21 x22 v x24 x25 x26 x27 x28 x29 x30.

Definition set_servo_device_combo (v : list string) (s : state) : state :=
  let 'Build_state x0 x1 x2 x3 x4 x5 x6 x7 x8 x9 x10 x11 x12 x13 x14 x15 x16
      x17 x18 x19 x20 x21 x22 x23 _ x25 x26 x27 x28 x29 x30 := s in
  Build_state x0 x1 x2 x3 x4 x5 x6 x7 x8 x9 x10 x11 x12 x13 x14 x15 x16 x17
      x18 x19 x20 x21 x22 x23 v x25 x26 x27 x28 x29 x30.

Definition set_led_device_combo (v : list string) (s : state) : state :=
  let 'Build_state x0 x1 x2 x3 x4 x5 x6 x7 x8 x9 x10 x11 x12 x13 x14 x15 x16
      x17 x18 x19 x20 x21 x22 x23 x24 _ x26 x27 x28 x29 x30 := s in
  Build_state x0 x1 x2 x3 x4 x5 x6 x7 x8 x9 x10 x11 x12 x13 x14 x15 x16 x17
      x18 x19 x20 x21 x22 x23 x24 v x26 x27 x28 x29 x30.

Definition set_group_id_combo (v : list string) (s : state) : state :=
  let 'Build_state x0 x1 x2 x3 x4 x5 x6 x7 x8 x9 x10 x11 x12 x13 x14 x15 x16
      x17 x18 x19 x20 x21 x22 x23 x24 x25 _ x27 x28 x29 x30 := s in
  Build_state x0 x1 x2 x3 x4 x5 x6 x7 x8 x9 x10 x11 x12 x13 x14 x15 x16 x17
      x18 x19 x20 x21 x22 x23 x24 x25 v x27 x28 x29 x30.

Definition set_dialogs (v : list dialog) (s : state) : state :=
  let 'Build_state x0 x1 x2 x3 x4 x5 x6 x7 x8 x9 x10 x11 x12 x13 x14 x15 x16
      x17 x18 x19 x20 x21 x22 x23 x24 x25 x26 _ x28 x29 x30 := s in
  Build_state x0 x1 x2 x3 x4 x5 x6 x7 x8 x9 x10 x11 x12 x13 x14 x15 x16 x17
      x18 x19 x20 x21 x22 x23 x24 x25 x26 v x28 x29 x30.

Definition set_after_queue (v : list callback) (s : state) : state :=
  let 'Build_state x0 x1 x2 x3 x4 x5 x6 x7 x8 x9 x10 x11 x12 x13 x14 x15 x16
      x17 x18 x19 x20 x21 x22 x23 x24 x25 x26 x27 _ x29 x30 := s in
  Build_state x0 x1 x2 x3 x4 x5 x6 x7 x8 x9 x10 x11 x12 x13 x14 x15 x16 x17
      x18 x19 x20 x21 x22 x23 x24 x25 x26 x27 v x29 x30.

Definition set_ticks (v : nat) (s : state) : state :=
  let 'Build_state x0 x1 x2 x3 x4 x5 x6 x7 x8 x9 x10 x11 x12 x13 x14 x15 x16
      x17 x18 x19 x20 x21 x22 x23 x24 x25 x26 x27 x28 x29 _ := s in
  Build_state x0 x1 x2 x3 x4 x5 x6 x7 x8 x9 x10 x11 x12 x13 x14 x15 x16 x17
      x18 x19 x20 x21 x22 x23 x24 x25 x26 x27 x28 x29 v.

Definition show (d : dialog) : M state unit :=
  modify (fun s => set_dialogs (dialogs s ++ [d]) s).

Definition after (cb : callback) : M state unit :=
  modify (fun s => set_after_queue (after_queue s ++ [cb]) s).

(** [self.serial_port.write(data)]: pyserial refuses a handle that is not
    open with its [PortNotOpenError], a [SerialException]. *)
Definition write (p : port) (data : string) : M state unit :=
  if is_open p && negb (faulty p)
  then modify (fun s => set_wire (wire s ++ [data]) s)
  else raise (SerialException (if is_open p then failure p else port_not_open)).

(** [self.serial_port.close()] *)
Definition close (p : port) : M state unit :=
  if faulty p then raise (SerialException (failure p))
  else modify (set_serial_port (Some {| is_open := false; faulty := faulty p; failure := failure p |})).

(** *** Log methods *)

Definition should_filter_message (s : state) (message : string) : bool :=
  if debug_filter_var s
  then startswith message "DEBUG:" || contains "DEBUG:" message
  else false.

Definition append_to_log (message : string) (tg : option tag) : M state unit :=
  modify (fun s => set_log_text (log_text s ++ [(message ++ nl, tg)]) s).

(** [strftime("[%H:%M:%S]")] of the clock's reading number [t]. *)
Definition stamp_at (clk : nat -> time) (t : nat) : string :=
  "[" ++ strftime_HMS (clk t) ++ "]".

(** [datetime.now().strftime("[%H:%M:%S]")], at the current reading of
    the clock. *)
Definition stamp (s : state) : string := stamp_at (clock s) (ticks s).

Definition log_message (message : string) (tg : option tag) : M state unit :=
  s <- get ;;
  let timestamp := stamp s in
  modify (set_ticks (S (ticks s))) ;;
  let full_message := timestamp ++ " " ++ message in
  modify (fun s => set_log_buffer (log_buffer s ++ [(full_message, tg)]) s) ;;
  s <- get ;;
  if negb (should_filter_message s message)
  then append_to_log full_message tg
  else ret tt.

(** The text after the time stamp, as [refresh_log_display] recovers it. *)
Definition original_msg (message : string) : string :=
  match split_max " " message 1 with
  | _ :: rest :: _ => rest
  | _ => message
  end.

Definition refresh_log_display : M state unit :=
  modify (set_log_text []) ;;
  s <- get ;;
  fold_right
    (fun (entry : string * option tag) (k : M state unit) =>
       let (message, tg) := entry in
       (if negb (should_filter_message s (original_msg message))
        then append_to_log message tg
        else ret tt) ;;
       k)
    (ret tt) (log_buffer s).

Definition clear_log : M state unit :=
  modify (set_log_buffer []) ;;
  modify (set_log_text []).

(** The "Filter DEBUG messages" check box: a click flips the variable and
    then runs the widget's command, [refresh_log_display]. *)
Definition click_debug_filter : M state unit :=
  modify (fun s => set_debug_filter_var (negb (debug_filter_var s)) s) ;;
  refresh_log_display.

(** A sequence of calls of [log_message], one per entry. *)
Fixpoint log_all (entries : list (string * option tag)) : M state unit :=
  match entries with
  | [] => ret tt
  | (message, tg) :: rest => log_message message tg ;; log_all rest
  end.

(** What the widget shows of a buffer under a filter flag, written as a
    function of the two: the entries that the filter does not hide, in
    order, each with its line terminator. *)
Definition visible_entries (flag : bool) (buffer : list (string * option tag))
  : list (string * option tag) :=
  flat_map
    (fun entry : string * option tag =>
       let (message, tg) := entry in
       if flag && contains "DEBUG:" (original_msg message) then []
       else [(message ++ nl, tg)])
    buffer.

(** The buffer entries that [log_all] adds when the clock is read from
    tick [t] on. *)
Fixpoint stamped (clk : nat -> time) (t : nat)
         (entries : list (string * option tag)) : list (string * option tag) :=
  match entries with
  | [] => []
  | (message, tg) :: rest =>
      (stamp_at clk t ++ " " ++ message, tg) :: stamped clk (S t) rest
  end.

(** The widget shows the buffer as the filter flag has it. *)
Definition display_consistent (s : state) : Prop :=
  log_text s = visible_entries (debug_filter_var s) (log_buffer s).

(** A method keeps the widget consistent with the buffer. *)
Definition keeps_display {A} (m : M state A) : Prop :=
  forall s, display_consistent s -> display_consistent (snd (m s)).

(** *** Serial communication *)

Definition send_command (command : string) : M state bool :=
  s <- get ;;
  match is_connected s, serial_port s with
  | true, Some p =>
      try_except
        (write p (command ++ nl) ;;
         log_message (">> " ++ command) (Some tag_info) ;;
         ret true)
        any_exception
        (fun e =>
           log_message ("Send error: " ++ message e) (Some tag_error) ;;
           ret false)
  | _, _ =>
      show (showwarning "Not Connected" "Please connect to a device first") ;;
      ret false
  end.

(** *** UI update methods *)

Definition device_entry (i : Z) : string :=
  zero_pad 3 i ++ " - Device " ++ str i.

Definition update_servo_device_list : M state unit :=
  s <- get ;;
  total <- IntVar_get (total_devices s) ;;
  let devices := "000 - All" :: map device_entry (range1 total) in
  modify (set_servo_device_combo devices) ;;
  if String.eqb (servo_target_mode s) "all"
  then modify (set_servo_device_var "000 - All")
  else ret tt.

Definition update_led_device_list : M state unit :=
  s <- get ;;
  total <- IntVar_get (total_devices s) ;;
  let devices := map device_entry (range1 total) in
  modify (set_led_device_combo devices) ;;
  if 1 <=? total
  then modify (set_led_device_var "001 - Device 1")
  else modify (set_led_device_var "").

Definition update_group_id_list : M state unit :=
  s <- get ;;
  read <- try_except
            (g <- IntVar_get (group_total_var s) ;; ret (Some g))
            is_TclError_or_ValueError
            (fun _ => ret None) ;;
  match read with
  | None => ret tt
  | Some g =>
      let group_total := if g <? 1 then 1 else g in
      let group_ids := map str (range1 group_total) in
      modify (set_group_id_combo group_ids) ;;
      try_except
        (current_group_id <- int (group_id_var s) ;;
         if group_total <? current_group_id
         then modify (set_group_id_var "1")
         else ret tt)
        is_ValueError
        (fun _ => modify (set_group_id_var "1"))
  end.

(** *** The dispatcher *)

Definition handle_serial_message (message : string) : M state unit :=
  log_message ("<< " ++ message) None ;;
  if startswith message "VER:" then
    version <- index (split_max ":" message 1) 1 ;;
    log_message ("Firmware Version: " ++ version) (Some tag_success)
  else if startswith message "TOTAL:" then
    try_except
      (field <- index (split_max ":" message 1) 1 ;;
       total <- int field ;;
       modify (set_total_devices (Ok total)) ;;
       update_servo_device_list ;;
       update_led_device_list)
      is_ValueError
      (fun _ => ret tt)
  else if startswith message "STATE:" then
    state <- index (split_max ":" message 1) 1 ;;
    modify (set_system_state state)
  else if startswith message "GROUP_TOTAL:" then
    try_except
      (field <- index (split_max ":" message 1) 1 ;;
       group_total <- int field ;;
       modify (set_group_total_var (Ok group_total)) ;;
       update_group_id_list)
      is_ValueError
      (fun _ => ret tt)
  else if startswith message "FRAME_COUNT:" then
    try_except
      (field <- index (split_max ":" message 1) 1 ;;
       frame_count <- int field ;;
       modify (set_frame_count_var (Ok frame_count)))
      is_ValueError
      (fun _ => ret tt)
  else if startswith message "INTERFRAME_DELAY:" then
    try_except
      (field <- index (split_max ":" message 1) 1 ;;
       delay <- int field ;;
       modify (set_interframe_delay_var (Ok delay)))
      is_ValueError
      (fun _ => ret tt)
  else if startswith message "EOT" then
    log_message "Command completed successfully" (Some tag_success)
  else if startswith message "PROGRAM_ACK:" then
    log_message "Program execution completed" (Some tag_success)
  else if startswith message "FRAME_SET:" then
    log_message "Frame settings updated" (Some tag_success)
  else if startswith message "ERR:" || startswith message "ERROR:" then
    log_message message (Some tag_error)
  else ret tt.

Definition handle_queued (m : queued) : M state unit :=
  match m with
  | q_serial line => handle_serial_message line
  | q_error text => log_message text (Some tag_error)
  | q_log text tg => log_message text tg
  end.

(** The [while True: get_nowait()] loop, until the queue is empty. *)
Fixpoint drain (q : list queued) : M state unit :=
  match q with
  | [] => ret tt
  | m :: rest =>
      modify (set_message_queue rest) ;;
      handle_queued m ;;
      drain rest
  end.

(** An exception other than [queue.Empty] leaves the method before it
    re-arms itself. *)
Definition process_queue : M state unit :=
  s <- get ;;
  drain (message_queue s) ;;
  after after_process_queue.

(** *** Command methods *)

Definition send_status_command : M state unit :=
  send_command "status" ;; ret tt.

Definition send_reinit_command : M state unit :=
  send_command "reinit" ;; ret tt.

Definition auto_request_status : M state unit :=
  s <- get ;;
  if is_connected s then send_status_command else ret tt.

(** [answer] is what the user replies to the confirmation box. *)
Definition send_emergency_command (answer : bool) : M state unit :=
  show (askyesno "Emergency" "Execute emergency shutdown?") ;;
  if answer then
    send_command "emergency" ;;
    log_message "EMERGENCY SHUTDOWN SENT" (Some tag_error)
  else ret tt.

Definition send_servo_command : M state unit :=
  s <- get ;;
  angle <- IntVar_get (servo_angle_var s) ;;
  if (angle <? 60) || (120 <? angle) then
    show (showerror "Invalid Angle"
                    "Servo angle must be between 60 and 120 degrees")
  else
    device_id <-
      (if String.eqb (servo_target_mode s) "all" then ret "000"
       else index (split " " (servo_device_var s)) 0) ;;
    let command := device_id ++ ",servo," ++ str angle in
    send_command command ;; ret tt.

Definition send_program_command : M state unit :=
  s <- get ;;
  device_id <- index (split " " (led_device_var s)) 0 ;;
  group_id <- int (group_id_var s) ;;
  group_total <- IntVar_get (group_total_var s) ;;
  current <- IntVar_get (current_var s) ;;
  exposure <- IntVar_get (exposure_var s) ;;
  if (current <? 0) || (1500 <? current) then
    show (showerror "Invalid Current" "Current must be between 0 and 1500 mA")
  else if exposure <? 10 then
    show (showerror "Invalid Exposure" "Exposure must be at least 10 ms")
  else if (group_id <? 1) || (group_total <? group_id) then
    show (showerror "Invalid Group"
                    ("Group ID must be between 1 and " ++ str group_total))
  else
    let command :=
      device_id ++ ",program,{" ++ str group_id ++ "," ++ str group_total
                ++ "," ++ str current ++ "," ++ str exposure ++ "}" in
    send_command command ;; ret tt.

Definition send_frame_command : M state unit :=
  s <- get ;;
  frame_count <- IntVar_get (frame_count_var s) ;;
  interframe_delay <- IntVar_get (interframe_delay_var s) ;;
  if (frame_count <? 1) || (1000 <? frame_count) then
    show (showerror "Invalid Frame Count"
                    "Frame count must be between 1 and 1000")
  else if interframe_delay <? 5 then
    show (showerror "Invalid Delay" "Interframe delay must be at least 5 ms")
  else
    let command :=
      "frame," ++ str frame_count ++ "," ++ str interframe_delay in
    send_command command ;; ret tt.

Definition send_start_command (answer : bool) : M state unit :=
  show (askyesno "Execute" "Start program?") ;;
  if answer then send_command "start" ;; ret tt else ret tt.

(** *** Connection *)

(** [opened] is the answer of [serial.Serial].  The reader thread is not
    modelled. *)
Definition connect (opened : result port) : M state unit :=
  s <- get ;;
  let port := port_var s in
  baud <- int (baud_var s) ;;
  if String.eqb port "" then
    show (showerror "Error" "Please select a serial port")
  else
    try_except
      (p <- Serial opened ;;
       modify (set_serial_port (Some p)) ;;
       modify (set_is_connected true) ;;
       modify (set_running true) ;;
       modify (set_connection_status "Connected") ;;
       modify (set_connect_button "Disconnect") ;;
       log_message ("Connected to " ++ port) (Some tag_success) ;;
       after after_auto_request_status)
      is_SerialException
      (fun e =>
         show (showerror "Connection Error" ("Failed to connect: " ++ message e)) ;;
         log_message ("Connection failed: " ++ message e) (Some tag_error)).

(** The join of the reader thread is not modelled. *)
Definition disconnect : M state unit :=
  modify (set_running false) ;;
  s <- get ;;
  match serial_port s with
  | Some p => if is_open p then close p else ret tt
  | None => ret tt
  end ;;
  modify (set_is_connected false) ;;
  modify (set_serial_port None) ;;
  modify (set_connection_status "Disconnected") ;;
  modify (set_connect_button "Connect") ;;
  log_message "Disconnected" (Some tag_info).

Definition toggle_connection (opened : result port) : M state unit :=
  s <- get ;;
  if negb (is_connected s) then connect opened else disconnect.

(** The attribute values that [__init__] and the widget constructors set.
    Port enumeration is left out. *)
Definition init (clk : nat -> time) : state :=
  {| serial_port := None; is_connected := false; running := false;
     wire := []; message_queue := [];
     port_var := ""; baud_var := "115200";
     total_devices := Ok 0; system_state := "Unknown";
     connection_status := "Disconnected";
     servo_target_mode := "all"; servo_device_var := "000 - All";
     servo_angle_var := Ok 90;
     led_device_var := ""; group_total_var := Ok 1; group_id_var := "1";
     current_var := Ok 0; exposure_var := Ok 10;
     frame_count_var := Ok 10; interframe_delay_var := Ok 10;
     debug_filter_var := true; log_buffer := []; log_text := [];
     connect_button := "Connect";
     servo_device_combo := ["000 - All"]; led_device_combo := [];
     group_id_combo := ["1"];
     dialogs := []; after_queue := [after_process_queue; after_try_auto_connect];
     clock := clk; ticks := O |}.

(** Connected, with a handle that is open and works. *)
Definition ready (s : state) : Prop :=
  is_connected s = true
  /\ exists p, serial_port s = Some p /\ is_open p = true /\ faulty p = false.

(** The object once a port has been opened. *)
Definition connected (clk : nat -> time) : state :=
  set_serial_port (Some {| is_open := true; faulty := false; failure := "" |})
    (set_is_connected true (set_running true (init clk))).

(** *** Further methods of the class *)

Definition set_port_var (v : string) (s : state) : state :=
  let 'Build_state x0 x1 x2 x3 x4 _ x6 x7 x8 x9 x10 x11 x12 x13 x14 x15 x16
      x17 x18 x19 x20 x21 x22 x23 x24 x25 x26 x27 x28 x29 x30 := s in
  Build_state x0 x1 x2 x3 x4 v x6 x7 x8 x9 x10 x11 x12 x13 x14 x15 x16 x17 x18
      x19 x20 x21 x22 x23 x24 x25 x26 x27 x28 x29 x30.

Definition set_baud_var (v : string) (s : state) : state :=
  let 'Build_state x0 x1 x2 x3 x4 x5 _ x7 x8 x9 x10 x11 x12 x13 x14 x15 x16
      x17 x18 x19 x20 x21 x22 x23 x24 x25 x26 x27 x28 x29 x30 := s in
  Build_state x0 x1 x2 x3 x4 x5 v x7 x8 x9 x10 x11 x12 x13 x14 x15 x16 x17 x18
      x19 x20 x21 x22 x23 x24 x25 x26 x27 x28 x29 x30.

Definition set_current_var (v : result Z) (s : state) : state :=
  let 'Build_state x0 x1 x2 x3 x4 x5 x6 x7 x8 x9 x10 x11 x12 x13 x14 x15 _ x17
      x18 x19 x20 x21 x22 x23 x24 x25 x26 x27 x28 x29 x30 := s in
  Build_state x0 x1 x2 x3 x4 x5 x6 x7 x8 x9 x10 x11 x12 x13 x14 x15 v x17 x18
      x19 x20 x21 x22 x23 x24 x25 x26 x27 x28 x29 x30.

Definition set_exposure_var (v : result Z) (s : state) : state :=
  let 'Build_state x0 x1 x2 x3 x4 x5 x6 x7 x8 x9 x10 x11 x12 x13 x14 x15 x16 _
      x18 x19 x20 x21 x22 x23 x24 x25 x26 x27 x28 x29 x30 := s in
  Build_state x0 x1 x2 x3 x4 x5 x6 x7 x8 x9 x10 x11 x12 x13 x14 x15 x16 v x18
      x19 x20 x21 x22 x23 x24 x25 x26 x27 x28 x29 x30.

Definition set_servo_target_mode (v : string) (s : state) : state :=
  let 'Build_state x0 x1 x2 x3 x4 x5 x6 x7 x8 x9 _ x11 x12 x13 x14 x15 x16 x17
      x18 x19 x20 x21 x22 x23 x24 x25 x26 x27 x28 x29 x30 := s in
  Build_state x0 x1 x2 x3 x4 x5 x6 x7 x8 x9 v x11 x12 x13 x14 x15 x16 x17 x18
      x19 x20 x21 x22 x23 x24 x25 x26 x27 x28 x29 x30.
(** The state of the combo box (disabled, read-only) is not modelled. *)
Definition update_servo_device_state : M state unit :=
  s <- get ;;
  if String.eqb (servo_target_mode s) "all"
  then modify (set_servo_device_var "000 - All")
  else ret tt.

Definition update_led_device_state : M state unit :=
  s <- get ;;
  total <- IntVar_get (total_devices s) ;;
  if 1 <=? total
  then modify (set_led_device_var "001 - Device 1")
  else modify (set_led_device_var "").

(** The two radio buttons of the servo section: a click stores the
    button's value in the variable and runs the command of the button. *)
Definition select_servo_target (mode : string) : M state unit :=
  modify (set_servo_target_mode mode) ;;
  update_servo_device_state.

(** [opened] is the answer of [serial.Serial] should the method reach it. *)
Definition try_auto_connect (opened : result port) : M state unit :=
  s <- get ;;
  if negb (is_connected s) && negb (String.eqb (port_var s) "")
  then toggle_connection opened
  else ret tt.

(** [port_list] is what [serial.tools.list_ports.comports()] answers.  The
    ['values'] of the port box are not modelled. *)
Definition refresh_ports (port_list : list string) : M state unit :=
  s <- get ;;
  match port_list with
  | first :: _ =>
      if String.eqb (port_var s) "" then modify (set_port_var first) else ret tt
  | [] => ret tt
  end.

(** *** The object as a state machine

    What can happen to the object between two events of the Tk loop: a
    button or a timer runs one of the methods, the reader thread puts a
    message on the queue, the user edits a field.  An edit may leave any
    text in a field, also one that its widget would not offer. *)
Inductive action : Type :=
| do_process_queue
| do_toggle_connection (opened : result port)
| do_auto_request_status
| do_send_status
| do_send_reinit
| do_send_emergency (answer : bool)
| do_send_servo
| do_send_program
| do_send_frame
| do_send_start (answer : bool)
| do_update_group_id_list
| do_click_debug_filter
| do_clear_log
| reader_puts (m : queued)
| user_sets_angle (v : result Z)
| user_sets_group_total (v : result Z)
| user_picks_group_id (text : string)
| do_refresh_ports (port_list : list string)
| do_try_auto_connect (opened : result port)
| do_select_servo_target (mode : string)
| user_sets_port (text : string)
| user_picks_baud (text : string)
| user_picks_servo_device (text : string)
| user_picks_led_device (text : string)
| user_sets_current (v : result Z)
| user_sets_exposure (v : result Z)
| user_sets_frame_count (v : result Z)
| user_sets_interframe_delay (v : result Z).

Definition step (a : action) : M state unit :=
  match a with
  | do_process_queue => process_queue
  | do_toggle_connection opened => toggle_connection opened
  | do_auto_request_status => auto_request_status
  | do_send_status => send_status_command
  | do_send_reinit => send_reinit_command
  | do_send_emergency answer => send_emergency_command answer
  | do_send_servo => send_servo_command
  | do_send_program => send_program_command
  | do_send_frame => send_frame_command
  | do_send_start answer => send_start_command answer
  | do_update_group_id_list => update_group_id_list
  | do_click_debug_filter => click_debug_filter
  | do_clear_log => clear_log
  | reader_puts m =>
      modify (fun s => set_message_queue (message_queue s ++ [m]) s)
  | user_sets_angle v => modify (set_servo_angle_var v)
  | user_sets_group_total v => modify (set_group_total_var v)
  | user_picks_group_id text => modify (set_group_id_var text)
  | do_refresh_ports port_list => refresh_ports port_list
  | do_try_auto_connect opened => try_auto_connect opened
  | do_select_servo_target mode => select_servo_target mode
  | user_sets_port text => modify (set_port_var text)
  | user_picks_baud text => modify (set_baud_var text)
  | user_picks_servo_device text => modify (set_servo_device_var text)
  | user_picks_led_device text => modify (set_led_device_var text)
  | user_sets_current v => modify (set_current_var v)
  | user_sets_exposure v => modify (set_exposure_var v)
  | user_sets_frame_count v => modify (set_frame_count_var v)
  | user_sets_interframe_delay v => modify (set_interframe_delay_var v)
  end.

(** The states that the object can be in.  A method that raises leaves
    the state it had reached (the Tk loop reports the exception and goes
    on). *)
Inductive reachable (clk : nat -> time) : state -> Prop :=
| reachable_init : reachable clk (init clk)
| reachable_step s a : reachable clk s -> reachable clk (exec (step a) s).

(** *** Export *)

(** The successive [f.write(message + "\n")] of [export_log], one per
    buffer entry.  The file dialog, the file and the message boxes of the
    method are not modelled. *)
Definition export_writes (s : state) : list string :=
  map (fun entry : string * option tag => fst entry ++ nl) (log_buffer s).

(** The content of the exported file. *)
Definition export_text (s : state) : string :=
  String.concat "" (export_writes s).

(** *** Views of the state *)

(** The device-state variables that the dispatcher maintains. *)
Definition device_state (s : state)
  : result Z * string * result Z * result Z * result Z :=
  (total_devices s, system_state s, group_total_var s, frame_count_var s,
   interframe_delay_var s).

(** The connection. *)
Definition link (s : state) : bool * option port * bool :=
  (is_connected s, serial_port s, running s).

(** The connection flag and the handle agree, and the reader is asked to
    run only while connected. *)
Definition link_invariant (s : state) : Prop :=
  (is_connected s = true <-> serial_port s <> None)
  /\ (running s = true -> is_connected s = true).

(** The queued messages handled one after the other. *)
Fixpoint handle_all (q : list queued) : M state unit :=
  match q with
  | [] => ret tt
  | m :: rest => handle_queued m ;; handle_all rest
  end.

(** The method neither reads nor writes the message queue: run with
    another queue it does the same, and leaves that queue. *)
Definition ignores_queue {A} (m : M state A) : Prop :=
  forall q s,
    m (set_message_queue q s) = (fst (m s), set_message_queue q (snd (m s))).

(** Started without a connection, the method writes nothing and leaves
    the client without a connection. *)
Definition offline_safe {A} (m : M state A) : Prop :=
  forall s, is_connected s = false ->
            wire (snd (m s)) = wire s /\ is_connected (snd (m s)) = false.

(** The method writes nothing, or one line that ends with a line feed. *)
Definition writes_at_most_one_line {A} (m : M state A) : Prop :=
  forall s, wire (snd (m s)) = wire s
            \/ exists command : string,
                 wire (snd (m s)) = (wire s ++ [(command ++ nl)%string])%list.

(** The method only appends to the log buffer. *)
Definition extends_buffer {A} (m : M state A) : Prop :=
  forall s, exists more, log_buffer (snd (m s)) = (log_buffer s ++ more)%list.

(** The action runs a command method: one that encodes a command and
    hands it to [send_command]. *)
Definition is_command (a : action) : bool :=
  match a with
  | do_send_status | do_send_reinit | do_send_emergency _ | do_send_servo
  | do_send_program | do_send_frame | do_send_start _
  | do_auto_request_status => true
  | _ => false
  end.

(** What a [disconnect] that completes leaves behind. *)
Definition disconnected_from (s s' : state) : Prop :=
  link s' = (false, None, false)
  /\ connection_status s' = "Disconnected"
  /\ connect_button s' = "Connect"
  /\ wire s' = wire s
  /\ dialogs s' = dialogs s
  /\ log_buffer s' =
     (log_buffer s
      ++ [((stamp s ++ " " ++ "Disconnected")%string, Some tag_info)])%list.

(** The confirmation boxes of the emergency and the start command. *)
Definition emergency_question : dialog :=
  askyesno "Emergency" "Execute emergency shutdown?".

Definition start_question : dialog := askyesno "Execute" "Start program?".

(** The two error boxes of [send_frame_command]. *)
Definition frame_rejections : list dialog :=
  [showerror "Invalid Frame Count" "Frame count must be between 1 and 1000";
   showerror "Invalid Delay" "Interframe delay must be at least 5 ms"].

(** The command line that [send_frame_command] builds. *)
Definition frame_text (frame_count interframe_delay : Z) : string :=
  "frame," ++ str frame_count ++ "," ++ str interframe_delay.

(** *** Names for the dialogs and texts that the statements mention *)

(** The warning of [send_command] when there is no connection. *)
Definition not_connected_warning : dialog :=
  showwarning "Not Connected" "Please connect to a device first".

(** The error box of [send_servo_command]. *)
Definition invalid_angle : dialog :=
  showerror "Invalid Angle" "Servo angle must be between 60 and 120 degrees".

(** The three error boxes of [send_program_command]. *)
Definition program_rejections (group_total : Z) : list dialog :=
  [showerror "Invalid Current" "Current must be between 0 and 1500 mA";
   showerror "Invalid Exposure" "Exposure must be at least 10 ms";
   showerror "Invalid Group"
             ("Group ID must be between 1 and " ++ str group_total)].

(** The command line that [send_program_command] builds. *)
Definition program_text (device_id : string) (gid gt ma ex : Z) : string :=
  device_id ++ ",program,{" ++ str gid ++ "," ++ str gt ++ ","
            ++ str ma ++ "," ++ str ex ++ "}".

End SolarController.

(* ------------------------------------------------------------------ *)
(** ** The outbound command grammar of the specification *)
(* ------------------------------------------------------------------ *)

Module Spec.
Import Py.

(** The specification's outbound command grammar, section 6:
    [status], [reinit], [emergency], [start], [<dev>,servo,<angle>],
    [<dev>,current,<ma>], [<dev>,program,{<gid>,<gtotal>,<ma>,<exposure>}]
    and [frame,<count>,<delay>].  A line is split at its commas and the
    fields are matched against the eight shapes. *)
Definition outbound_command (line : string) : bool :=
  match split "," line with
  | [word] =>
      String.eqb word "status" || String.eqb word "reinit"
      || String.eqb word "emergency" || String.eqb word "start"
  | [first; second; _] =>
      String.eqb second "servo" || String.eqb second "current"
      || String.eqb first "frame"
  | [_; second; gid; _; _; exposure] =>
      String.eqb second "program" && startswith gid "{"
      && contains "}" exposure
  | _ => false
  end.

End Spec.

(* ================================================================== *)
(** * Part II: properties *)
(* ================================================================== *)

(** ** Facts about the Python fragment *)

Module PyFacts.
Import Py.

Lemma all_chars_app p a b :
  all_chars p (a ++ b) = all_chars p a && all_chars p b.
Proof.
  induction a as [|c a IH]; simpl; [reflexivity|].
  now rewrite IH, andb_assoc.
Qed.

Lemma all_chars_weaken (p q : ascii -> bool) s :
  (forall c, p c = true -> q c = true) ->
  all_chars p s = true -> all_chars q s = true.
Proof.
  intros Hpq. induction s as [|c r IH]; simpl; [reflexivity|].
  intros H. apply andb_true_iff in H as [Hc Hr].
  now rewrite (Hpq _ Hc), IH.
Qed.

Lemma digits_value_uint_after d acc :
  digits_value (NilEmpty.string_of_uint d) acc true = Some (uint_value d acc).
Proof.
  revert acc. induction d; intros acc; simpl; try reflexivity;
    rewrite <- IHd; reflexivity.
Qed.

Lemma digits_value_uint d :
  digits_value (NilZero.string_of_uint d) 0 false = Some (uint_value d 0).
Proof.
  destruct d; try reflexivity;
    simpl; rewrite <- digits_value_uint_after; reflexivity.
Qed.

Lemma of_uint_acc_value d p :
  Z.pos (Pos.of_uint_acc d p) = uint_value d (Z.pos p).
Proof.
  revert p.
  induction d; intros p; cbn [uint_value];
    unfold Pos.of_uint_acc; fold Pos.of_uint_acc;
    try reflexivity; rewrite IHd; f_equal; lia.
Qed.

Lemma of_uint_value d : Z.of_uint d = uint_value d 0.
Proof.
  unfold Z.of_uint.
  induction d; cbn [uint_value Pos.of_uint Z.of_N];
    try reflexivity; try assumption;
    rewrite of_uint_acc_value; reflexivity.
Qed.

Lemma uint_chars_digits d :
  all_chars is_digit (NilZero.string_of_uint d) = true.
Proof.
  assert (H : forall d, all_chars is_digit (NilEmpty.string_of_uint d) = true)
    by (intros d'; induction d'; simpl; auto).
  destruct d; try reflexivity; apply H.
Qed.

Lemma str_chars n : all_chars numeral_char (str n) = true.
Proof.
  unfold str.
  assert (H : forall d, all_chars numeral_char (NilZero.string_of_uint d) = true).
  { intros d. apply all_chars_weaken with (p := is_digit); [|apply uint_chars_digits].
    intros c Hc. unfold numeral_char. now rewrite Hc. }
  destruct (Z.to_int n) as [d|d]; simpl.
  - apply H.
  - unfold numeral_char at 1. simpl. apply H.
Qed.

Lemma rstrip_no_space s :
  all_chars (fun c => negb (is_space c)) s = true -> rstrip s = s.
Proof.
  induction s as [|c r IH]; simpl; [reflexivity|].
  intros H. apply andb_true_iff in H as [Hc Hr].
  rewrite (IH Hr). apply negb_true_iff in Hc. rewrite Hc.
  destruct r; reflexivity.
Qed.

Lemma lstrip_no_space s :
  all_chars (fun c => negb (is_space c)) s = true -> lstrip s = s.
Proof.
  destruct s as [|c r]; simpl; [reflexivity|].
  intros H. apply andb_true_iff in H as [Hc _].
  apply negb_true_iff in Hc. now rewrite Hc.
Qed.

Lemma strip_no_space s :
  all_chars (fun c => negb (is_space c)) s = true -> strip s = s.
Proof.
  intros H. unfold strip. rewrite (lstrip_no_space _ H). now apply rstrip_no_space.
Qed.

Lemma numeral_char_no_space c : numeral_char c = true -> negb (is_space c) = true.
Proof.
  destruct c as [[|] [|] [|] [|] [|] [|] [|] [|]]; vm_compute; congruence.
Qed.

Lemma strip_str n : strip (str n) = str n.
Proof.
  apply strip_no_space.
  apply all_chars_weaken with (p := numeral_char);
    [apply numeral_char_no_space | apply str_chars].
Qed.

Lemma uint_first_char d :
  exists c r, NilZero.string_of_uint d = String c r /\ is_digit c = true.
Proof.
  destruct d; simpl; eexists; eexists; split; reflexivity.
Qed.

Lemma numeral_char_plain c : numeral_char c = true -> plain c = true.
Proof.
  destruct c as [[|] [|] [|] [|] [|] [|] [|] [|]]; vm_compute; congruence.
Qed.

Lemma chars_plain a r :
  plain a = true -> chars (String a r) = (byte a, String a EmptyString) :: chars r.
Proof.
  unfold plain. intros H. cbn [chars]. cbv zeta.
  assert (E : (byte a <? 128)%N = true) by (apply N.ltb_lt in H; apply N.ltb_lt; lia).
  now rewrite E.
Qed.

(** [int] reads a text of ASCII characters as it stands. *)
Lemma to_ascii_plain s :
  all_chars plain s = true -> to_ascii (chars s) = Some s.
Proof.
  induction s as [|a r IH]; [reflexivity|].
  cbn [all_chars]. intros H. apply andb_true_iff in H as [Ha Hr].
  rewrite (@chars_plain a r Ha). cbn [to_ascii].
  unfold plain in Ha. rewrite Ha. cbv zeta.
  rewrite (IH Hr). cbn [option_map]. unfold byte.
  now rewrite ascii_N_embedding.
Qed.

Lemma parse_int_plain s :
  all_chars plain s = true -> parse_int s = parse_ascii s.
Proof. intros H. unfold parse_int. now rewrite (@to_ascii_plain s H). Qed.

Lemma str_plain n : all_chars plain (str n) = true.
Proof.
  apply all_chars_weaken with (p := numeral_char);
    [apply numeral_char_plain | apply str_chars].
Qed.

Lemma parse_ascii_uint d :
  parse_ascii (NilZero.string_of_uint d) = Some (uint_value d 0).
Proof.
  unfold parse_ascii. rewrite strip_no_space.
  - destruct (uint_first_char d) as (c & r & E & Hc).
    rewrite <- digits_value_uint. rewrite E.
    destruct c as [[|] [|] [|] [|] [|] [|] [|] [|]];
      try discriminate Hc; reflexivity.
  - apply all_chars_weaken with (p := is_digit); [|apply uint_chars_digits].
    intros c Hc. apply numeral_char_no_space. unfold numeral_char. now rewrite Hc.
Qed.

Lemma parse_int_uint d :
  parse_int (NilZero.string_of_uint d) = Some (uint_value d 0).
Proof.
  rewrite parse_int_plain; [apply parse_ascii_uint|].
  apply all_chars_weaken with (p := is_digit); [|apply uint_chars_digits].
  intros c Hc. apply numeral_char_plain. unfold numeral_char. now rewrite Hc.
Qed.

(** [int(str(n)) == n] for every integer. *)
Lemma parse_int_str n : parse_int (str n) = Some n.
Proof.
  rewrite parse_int_plain by apply str_plain.
  rewrite <- (DecimalZ.of_to n) at 2.
  unfold parse_ascii. rewrite strip_str. unfold str.
  destruct (Z.to_int n) as [d|d]; simpl Z.of_int; rewrite of_uint_value.
  - change (NilZero.string_of_int (Decimal.Pos d)) with (NilZero.string_of_uint d).
    pose proof (parse_ascii_uint d) as H. unfold parse_ascii in H.
    rewrite strip_no_space in H; [exact H|].
    apply all_chars_weaken with (p := is_digit); [|apply uint_chars_digits].
    intros c Hc. apply numeral_char_no_space. unfold numeral_char. now rewrite Hc.
  - change (NilZero.string_of_int (Decimal.Neg d))
      with (String "-"%char (NilZero.string_of_uint d)).
    cbv iota beta. rewrite digits_value_uint. reflexivity.
Qed.

(** *** Prefixes and splitting *)

Lemma startswith_split s p :
  startswith s p = true -> exists r, s = (p ++ r)%string.
Proof.
  revert s.
  induction p as [|c p IH]; intros s H; simpl in H.
  - now exists s.
  - destruct s as [|d s]; [discriminate|].
    apply andb_true_iff in H as [Hc Hp].
    apply Ascii.eqb_eq in Hc as ->.
    destruct (IH _ Hp) as [r ->]. now exists r.
Qed.

Lemma contains_absorbs_startswith s p :
  startswith s p || contains p s = contains p s.
Proof.
  destruct s; simpl; destruct (startswith _ p); reflexivity.
Qed.

Lemma split_max_0 sep s : split_max sep s 0 = [s].
Proof. destruct s; reflexivity. Qed.

Lemma split_max_first sep a b :
  all_chars (differs sep) a = true ->
  split_max sep (a ++ String sep b) 1 = [a; b].
Proof.
  induction a as [|c a IH]; simpl; intros H.
  - rewrite Ascii.eqb_refl, split_max_0. reflexivity.
  - apply andb_true_iff in H as [Hc Ha]. apply negb_true_iff in Hc.
    rewrite Hc, (IH Ha). reflexivity.
Qed.

Lemma split_no_sep sep b :
  all_chars (differs sep) b = true -> split sep b = [b].
Proof.
  induction b as [|c b IH]; simpl; intros H; [reflexivity|].
  apply andb_true_iff in H as [Hc Hb]. apply negb_true_iff in Hc.
  rewrite Hc, (IH Hb). reflexivity.
Qed.

Lemma split_first sep a b :
  all_chars (differs sep) a = true ->
  split sep (a ++ String sep b) = a :: split sep b.
Proof.
  induction a as [|c a IH]; simpl; intros H.
  - now rewrite Ascii.eqb_refl.
  - apply andb_true_iff in H as [Hc Ha]. apply negb_true_iff in Hc.
    rewrite Hc, (IH Ha). reflexivity.
Qed.

Lemma split_nonempty sep s : exists h t, split sep s = h :: t.
Proof.
  induction s as [|c r (h & t & E)]; simpl.
  - eauto.
  - destruct (Ascii.eqb c sep); [eauto|]. rewrite E. simpl. eauto.
Qed.

Lemma split_head sep s :
  nth_error (split sep s) 0 = Some (hd EmptyString (split sep s)).
Proof. destruct (split_nonempty sep s) as (h & t & ->). reflexivity. Qed.

(** *** Numerals and time stamps hold no separator *)

Lemma numeral_char_differs sep c :
  numeral_char sep = false -> numeral_char c = true -> differs sep c = true.
Proof.
  intros Hs Hc. unfold differs. apply negb_true_iff.
  destruct (Ascii.eqb_spec c sep) as [->|]; [congruence|reflexivity].
Qed.

Lemma str_no_sep sep n :
  numeral_char sep = false -> all_chars (differs sep) (str n) = true.
Proof.
  intros Hs. apply all_chars_weaken with (p := numeral_char); [|apply str_chars].
  intros c. now apply numeral_char_differs.
Qed.

Lemma zeros_chars k : all_chars numeral_char (zeros k) = true.
Proof. induction k; simpl; auto. Qed.

Lemma zero_pad_chars w n : all_chars numeral_char (zero_pad w n) = true.
Proof.
  unfold zero_pad. destruct (n <? 0).
  - change ("-" ++ zeros (w - 1 - String.length (str (- n))) ++ str (- n))%string
      with (String "-"%char (zeros (w - 1 - String.length (str (- n))) ++ str (- n))).
    cbn [all_chars]. rewrite all_chars_app, zeros_chars, str_chars. reflexivity.
  - now rewrite all_chars_app, zeros_chars, str_chars.
Qed.

Lemma strftime_HMS_no_space t :
  all_chars (differs " "%char) (strftime_HMS t) = true.
Proof.
  assert (H : forall w n, all_chars (differs " "%char) (zero_pad w n) = true).
  { intros w n. apply all_chars_weaken with (p := numeral_char);
      [|apply zero_pad_chars].
    intros c. now apply numeral_char_differs. }
  unfold strftime_HMS. now rewrite !all_chars_app, !H.
Qed.

End PyFacts.

(** ** The V3 variant *)

Module SolarControllerFacts.
Import Py PyFacts SolarController.
Local Open Scope list_scope.
Local Infix "+++" := String.append (right associativity, at level 60).

(** Reduction of projections applied to setters. *)
Ltac psimpl :=
  cbn [serial_port is_connected running wire message_queue port_var baud_var
       total_devices system_state connection_status servo_target_mode
       servo_device_var servo_angle_var led_device_var group_total_var
       group_id_var current_var exposure_var frame_count_var
       interframe_delay_var debug_filter_var log_buffer log_text
       connect_button servo_device_combo led_device_combo group_id_combo
       dialogs after_queue clock ticks set_serial_port set_is_connected
       set_running set_wire set_message_queue set_total_devices
       set_system_state set_connection_status set_servo_device_var
       set_servo_angle_var set_led_device_var set_group_total_var
       set_group_id_var set_frame_count_var set_interframe_delay_var
       set_debug_filter_var set_log_buffer set_log_text set_connect_button
       set_servo_device_combo set_led_device_combo set_group_id_combo
       set_dialogs set_after_queue set_ticks is_open faulty fst snd] in *.

(** Reduction of the monad's plumbing. *)
Ltac mred :=
  cbv [bind get gets modify ret raise try_except exec outcome show after
       IntVar_get index Py.int any_exception is_ValueError
       is_TclError_or_ValueError andb negb orb fst snd] in *.

(** *** The log *)

Lemma log_message_run message tg s :
  log_message message tg s =
  (Ok tt,
   let full := stamp s +++ " " +++ message in
   let s1 := set_log_buffer (log_buffer s ++ [(full, tg)])
                            (set_ticks (S (ticks s)) s) in
   if should_filter_message s message then s1
   else set_log_text (log_text s ++ [(full +++ nl, tg)]) s1).
Proof.
  destruct s as [? ? ? ? ? ? ? ? ? ? ? ? ? ? ? ? ? ? ? ? flag ? ? ? ? ? ? ? ? ? ?].
  unfold log_message, should_filter_message, stamp, append_to_log.
  mred. psimpl.
  destruct flag, (startswith message "DEBUG:"), (contains "DEBUG:" message);
    reflexivity.
Qed.

(** [log_message] touches the buffer, the widget and the clock only. *)
Lemma log_message_frame message tg s :
  exists lb lt,
    snd (log_message message tg s) =
    set_log_text lt (set_log_buffer lb (set_ticks (S (ticks s)) s))
    /\ fst (log_message message tg s) = Ok tt.
Proof.
  rewrite log_message_run. cbv zeta. cbn [fst snd].
  destruct (should_filter_message s message).
  - exists (log_buffer s ++ [(stamp s +++ " " +++ message, tg)]), (log_text s).
    split; reflexivity.
  - eexists; eexists; split; reflexivity.
Qed.

Lemma should_filter_message_contains s message :
  should_filter_message s message =
  debug_filter_var s && contains "DEBUG:" message.
Proof.
  unfold should_filter_message.
  rewrite contains_absorbs_startswith. now destruct (debug_filter_var s).
Qed.

(** *** [send_command] *)

Lemma send_command_not_connected command s :
  is_connected s = false \/ serial_port s = None ->
  send_command command s =
  (Ok false, set_dialogs (dialogs s ++ [not_connected_warning]) s).
Proof.
  intros H. unfold send_command. mred.
  destruct H as [H|H]; rewrite H; [|destruct (is_connected s)]; reflexivity.
Qed.

Lemma send_command_connected command s p :
  is_connected s = true -> serial_port s = Some p ->
  is_open p = true -> faulty p = false ->
  send_command command s =
  (Ok true,
   snd (log_message (">> " +++ command) (Some tag_info)
          (set_wire (wire s ++ [command +++ nl]) s))).
Proof.
  intros Hc Hp Ho Hf. unfold send_command, write. mred.
  rewrite Hc, Hp, Ho, Hf. mred.
  rewrite log_message_run. reflexivity.
Qed.

Lemma send_command_port_error command s p :
  is_connected s = true -> serial_port s = Some p ->
  is_open p && negb (faulty p) = false ->
  send_command command s =
  (Ok false,
   snd (log_message
          ("Send error: " +++ (if is_open p then failure p else port_not_open))
          (Some tag_error) s)).
Proof.
  intros Hc Hp Hbad. unfold send_command, write.
  cbv [bind get try_except any_exception].
  rewrite Hc, Hp, Hbad. cbv [raise message].
  rewrite !log_message_run. reflexivity.
Qed.

Lemma send_command_wire_connected command s p :
  is_connected s = true -> serial_port s = Some p ->
  is_open p = true -> faulty p = false ->
  wire (exec (send_command command) s) = wire s ++ [command +++ nl].
Proof.
  intros Hc Hp Ho Hf. unfold exec.
  rewrite (send_command_connected _ _ Hc Hp Ho Hf). cbn [snd].
  destruct (log_message_frame (">> " +++ command) (Some tag_info)
              (set_wire (wire s ++ [command +++ nl]) s)) as (lb & lt & -> & _).
  reflexivity.
Qed.

Lemma send_command_run_wire_connected command s p :
  is_connected s = true -> serial_port s = Some p ->
  is_open p = true -> faulty p = false ->
  exists s', send_command command s = (Ok true, s')
             /\ wire s' = wire s ++ [command +++ nl]
             /\ dialogs s' = dialogs s.
Proof.
  intros Hc Hp Ho Hf.
  rewrite (send_command_connected _ _ Hc Hp Ho Hf).
  destruct (log_message_frame (">> " +++ command) (Some tag_info)
              (set_wire (wire s ++ [command +++ nl]) s)) as (lb & lt & E & _).
  eexists; split; [reflexivity|]. rewrite E. split; reflexivity.
Qed.

(** *** Servo command *)

Lemma send_servo_command_out_of_range s a :
  servo_angle_var s = Ok a -> a < 60 \/ 120 < a ->
  send_servo_command s =
  (Ok tt, set_dialogs (dialogs s ++ [invalid_angle]) s).
Proof.
  intros Ha Hr. unfold send_servo_command. mred. rewrite Ha.
  destruct (Z.ltb_spec a 60); [reflexivity|].
  destruct (Z.ltb_spec 120 a); [reflexivity|lia].
Qed.

Lemma send_servo_command_in_range s a p :
  servo_angle_var s = Ok a -> 60 <= a <= 120 ->
  is_connected s = true -> serial_port s = Some p ->
  is_open p = true -> faulty p = false ->
  let device_id :=
    if String.eqb (servo_target_mode s) "all" then "000"
    else hd EmptyString (split " " (servo_device_var s)) in
  wire (exec send_servo_command s) =
  wire s ++ [(device_id +++ ",servo," +++ str a) +++ nl]
  /\ dialogs (exec send_servo_command s) = dialogs s.
Proof.
  intros Ha Hr Hc Hp Ho Hf device_id. subst device_id.
  unfold send_servo_command. mred. rewrite Ha.
  destruct (Z.ltb_spec a 60); [lia|].
  destruct (Z.ltb_spec 120 a); [lia|].
  destruct (String.eqb (servo_target_mode s) "all").
  - destruct (send_command_run_wire_connected ("000" +++ ",servo," +++ str a)
                _ Hc Hp Ho Hf) as (s' & E & Hw & Hd).
    rewrite E. cbn [snd]. now rewrite Hw, Hd.
  - rewrite split_head.
    destruct (send_command_run_wire_connected
                (hd EmptyString (split " " (servo_device_var s))
                 +++ ",servo," +++ str a) _ Hc Hp Ho Hf) as (s' & E & Hw & Hd).
    rewrite E. cbn [snd]. now rewrite Hw, Hd.
Qed.

(** *** Program command *)

Lemma send_program_command_rejects s gid gt ma ex :
  parse_int (group_id_var s) = Some gid -> group_total_var s = Ok gt ->
  current_var s = Ok ma -> exposure_var s = Ok ex ->
  ~ (0 <= ma <= 1500 /\ 10 <= ex /\ 1 <= gid <= gt) ->
  exists d, In d (program_rejections gt) /\
    send_program_command s = (Ok tt, set_dialogs (dialogs s ++ [d]) s).
Proof.
  intros Hg Ht Hm He Hbad. unfold send_program_command. mred.
  rewrite split_head, Hg, Ht, Hm, He. unfold program_rejections.
  destruct (Z.ltb_spec ma 0); [eexists; split; [left; reflexivity|reflexivity]|].
  destruct (Z.ltb_spec 1500 ma); [eexists; split; [left; reflexivity|reflexivity]|].
  destruct (Z.ltb_spec ex 10);
    [eexists; split; [right; left; reflexivity|reflexivity]|].
  destruct (Z.ltb_spec gid 1);
    [eexists; split; [right; right; left; reflexivity|reflexivity]|].
  destruct (Z.ltb_spec gt gid);
    [eexists; split; [right; right; left; reflexivity|reflexivity]|].
  lia.
Qed.

Lemma send_program_command_accepts s gid gt ma ex p :
  parse_int (group_id_var s) = Some gid -> group_total_var s = Ok gt ->
  current_var s = Ok ma -> exposure_var s = Ok ex ->
  0 <= ma <= 1500 -> 10 <= ex -> 1 <= gid <= gt ->
  is_connected s = true -> serial_port s = Some p ->
  is_open p = true -> faulty p = false ->
  wire (exec send_program_command s) =
  wire s ++ [program_text (hd EmptyString (split " " (led_device_var s)))
                          gid gt ma ex +++ nl]
  /\ dialogs (exec send_program_command s) = dialogs s.
Proof.
  intros Hg Ht Hm He Rm Re Rg Hc Hp Ho Hf.
  unfold send_program_command. mred.
  rewrite split_head, Hg, Ht, Hm, He.
  destruct (Z.ltb_spec ma 0); [lia|].
  destruct (Z.ltb_spec 1500 ma); [lia|].
  destruct (Z.ltb_spec ex 10); [lia|].
  destruct (Z.ltb_spec gid 1); [lia|].
  destruct (Z.ltb_spec gt gid); [lia|].
  destruct (send_command_run_wire_connected
              (program_text (hd EmptyString (split " " (led_device_var s)))
                            gid gt ma ex) _ Hc Hp Ho Hf) as (s' & E & Hw & Hd).
  unfold program_text in E. rewrite E. cbn [snd]. now rewrite Hw, Hd.
Qed.

(** *** The dispatcher *)

(** Decide the prefix tests on a line whose first characters are known. *)
Ltac prefixes :=
  repeat match goal with
         | |- context [startswith ?s ?p] =>
             let b := eval vm_compute in (startswith s p) in
             match b with
             | true => change (startswith s p) with true
             | false => change (startswith s p) with false
             end
         end.

Lemma payload_after_tag tag_name payload :
  all_chars (differs ":"%char) tag_name = true ->
  split_max ":" (tag_name +++ String ":"%char payload) 1 = [tag_name; payload].
Proof. apply split_max_first. Qed.

Lemma handle_STATE payload s :
  handle_serial_message ("STATE:" +++ payload) s =
  (Ok tt,
   set_system_state payload (snd (log_message ("<< STATE:" +++ payload) None s))).
Proof.
  unfold handle_serial_message. mred. rewrite !log_message_run.
  prefixes.
  change ("STATE:" +++ payload) with ("STATE" +++ String ":"%char payload).
  rewrite payload_after_tag by reflexivity.
  reflexivity.
Qed.

Lemma update_servo_device_list_run s total :
  total_devices s = Ok total ->
  update_servo_device_list s =
  (Ok tt,
   let s1 := set_servo_device_combo
               ("000 - All" :: map device_entry (range1 total)) s in
   if String.eqb (servo_target_mode s) "all"
   then set_servo_device_var "000 - All" s1 else s1).
Proof.
  intros H. unfold update_servo_device_list. mred. rewrite H.
  destruct (String.eqb (servo_target_mode s) "all"); reflexivity.
Qed.

Lemma update_led_device_list_run s total :
  total_devices s = Ok total ->
  update_led_device_list s =
  (Ok tt,
   set_led_device_var (if 1 <=? total then "001 - Device 1" else "")
     (set_led_device_combo (map device_entry (range1 total)) s)).
Proof.
  intros H. unfold update_led_device_list. mred. rewrite H.
  destruct (1 <=? total); reflexivity.
Qed.

(** A numeric payload: the count is stored and the device lists follow. *)
Lemma handle_TOTAL_numeric payload n s :
  parse_int payload = Some n ->
  exists s',
    handle_serial_message ("TOTAL:" +++ payload) s = (Ok tt, s')
    /\ total_devices s' = Ok n
    /\ log_buffer s' = log_buffer s ++ [(stamp s +++ " " +++ "<< TOTAL:" +++ payload, None)]
    /\ wire s' = wire s.
Proof.
  intros Hn. unfold handle_serial_message. mred. rewrite !log_message_run.
  prefixes.
  change ("TOTAL:" +++ payload) with ("TOTAL" +++ String ":"%char payload).
  rewrite payload_after_tag by reflexivity.
  cbn [nth_error]. rewrite Hn.
  match goal with
  | |- context [update_servo_device_list ?st] =>
      rewrite (@update_servo_device_list_run st n) by reflexivity
  end.
  cbv zeta.
  match goal with
  | |- context [update_led_device_list ?st] =>
      rewrite (@update_led_device_list_run st n)
        by (destruct (String.eqb _ _); reflexivity)
  end.
  eexists. split; [reflexivity|].
  cbv zeta.
  destruct (should_filter_message s _), (String.eqb _ _); repeat split; reflexivity.
Qed.

(** A payload that [int] rejects: the line is logged and nothing else
    changes. *)
Lemma handle_TOTAL_rejected payload s :
  parse_int payload = None ->
  handle_serial_message ("TOTAL:" +++ payload) s =
  (Ok tt, snd (log_message ("<< TOTAL:" +++ payload) None s)).
Proof.
  intros Hn. unfold handle_serial_message. mred. rewrite !log_message_run.
  prefixes.
  change ("TOTAL:" +++ payload) with ("TOTAL" +++ String ":"%char payload).
  rewrite payload_after_tag by reflexivity.
  cbn [nth_error]. rewrite Hn. reflexivity.
Qed.

Lemma handle_TOTAL_rejected_total_devices payload s :
  parse_int payload = None ->
  total_devices (exec (handle_serial_message ("TOTAL:" +++ payload)) s)
  = total_devices s
  /\ outcome (handle_serial_message ("TOTAL:" +++ payload)) s = Ok tt.
Proof.
  intros Hn. unfold exec, outcome. rewrite (handle_TOTAL_rejected _ _ Hn).
  destruct (log_message_frame ("<< TOTAL:" +++ payload) None s) as (lb & lt & -> & _).
  split; reflexivity.
Qed.

(** ["TOTAL:<n>"] for an integer [n] printed in decimal. *)
Lemma handle_TOTAL_sets n s :
  total_devices (exec (handle_serial_message ("TOTAL:" +++ str n)) s) = Ok n
  /\ outcome (handle_serial_message ("TOTAL:" +++ str n)) s = Ok tt.
Proof.
  destruct (handle_TOTAL_numeric (str n) s (parse_int_str n))
    as (s' & E & Ht & _).
  unfold exec, outcome. rewrite E. split; [exact Ht|reflexivity].
Qed.

(** Lines that the dispatcher classifies as errors, and emergency lines. *)
Lemma handle_error_line line s :
  startswith line "ERR:" || startswith line "ERROR:" = true ->
  handle_serial_message line s =
  (Ok tt,
   snd (log_message line (Some tag_error)
          (snd (log_message ("<< " +++ line) None s)))).
Proof.
  intros H. unfold handle_serial_message. mred.
  apply orb_true_iff in H as [H|H];
    apply startswith_split in H as [r ->]; prefixes;
    rewrite !log_message_run; reflexivity.
Qed.

Lemma handle_emergency_line line s :
  startswith line "EMERGENCY:" = true ->
  handle_serial_message line s =
  (Ok tt, snd (log_message ("<< " +++ line) None s)).
Proof.
  intros H. unfold handle_serial_message. mred.
  apply startswith_split in H as [r ->]; prefixes;
    rewrite !log_message_run; reflexivity.
Qed.

Lemma contains_DEBUG_inbound line :
  contains "DEBUG:" ("<< " +++ line) = contains "DEBUG:" line.
Proof. reflexivity. Qed.

Lemma log_message_log_text message tg s :
  log_text (snd (log_message message tg s)) =
  log_text s ++
  (if debug_filter_var s && contains "DEBUG:" message then []
   else [((stamp s +++ " " +++ message) +++ nl, tg)]).
Proof.
  rewrite log_message_run. cbv zeta. cbn [snd].
  rewrite should_filter_message_contains.
  destruct (debug_filter_var s && contains "DEBUG:" message); psimpl;
    [now rewrite app_nil_r|reflexivity].
Qed.

Lemma log_message_log_buffer message tg s :
  log_buffer (snd (log_message message tg s)) =
  log_buffer s ++ [(stamp s +++ " " +++ message, tg)].
Proof.
  rewrite log_message_run. cbv zeta. cbn [snd].
  destruct (should_filter_message s message); reflexivity.
Qed.

Lemma log_message_flag_clock message tg s :
  debug_filter_var (snd (log_message message tg s)) = debug_filter_var s
  /\ clock (snd (log_message message tg s)) = clock s
  /\ ticks (snd (log_message message tg s)) = S (ticks s).
Proof.
  destruct (log_message_frame message tg s) as (lb & lt & -> & _).
  repeat split; reflexivity.
Qed.

(** *** Disconnect *)

Lemma disconnect_keeps_device_state s :
  let s' := exec disconnect s in
  total_devices s' = total_devices s
  /\ system_state s' = system_state s
  /\ group_total_var s' = group_total_var s
  /\ frame_count_var s' = frame_count_var s
  /\ interframe_delay_var s' = interframe_delay_var s.
Proof.
  cbv zeta. destruct s. unfold disconnect, close. mred. psimpl.
  match goal with
  | |- context [match ?x with Some _ => _ | None => _ end] =>
      destruct x as [[[] []]|]
  end;
    psimpl; try rewrite log_message_run; cbv zeta; cbn [snd];
    try match goal with
        | |- context [should_filter_message ?st ?m] =>
            destruct (should_filter_message st m)
        end; repeat split; reflexivity.
Qed.

(** *** Group identifiers *)

Lemma update_group_id_list_unreadable s e :
  group_total_var s = Raise e ->
  update_group_id_list s
  = (if is_TclError_or_ValueError e then Ok tt else Raise e, s).
Proof.
  intros H. unfold update_group_id_list. mred. rewrite H.
  destruct e; reflexivity.
Qed.

Lemma update_group_id_list_run s g :
  group_total_var s = Ok g ->
  update_group_id_list s =
  (Ok tt,
   let s1 := set_group_id_combo (map str (range1 (Z.max g 1))) s in
   match parse_int (group_id_var s) with
   | Some i => if Z.max g 1 <? i then set_group_id_var "1" s1 else s1
   | None => set_group_id_var "1" s1
   end).
Proof.
  intros H. unfold update_group_id_list. mred. rewrite H.
  assert (E : (if g <? 1 then 1 else g) = Z.max g 1)
    by (destruct (Z.ltb_spec g 1); lia).
  rewrite E.
  destruct (parse_int (group_id_var s)) as [i|]; [|reflexivity].
  destruct (Z.max g 1 <? i); reflexivity.
Qed.

(** The dispatcher returns normally on every line: no inbound text makes
    it raise, so the queue loop that calls it always re-arms itself. *)
Lemma handle_serial_message_returns message s :
  fst (handle_serial_message message s) = Ok tt.
Proof.
  destruct (startswith message "VER:") eqn:E1.
  { apply startswith_split in E1 as [r ->].
    unfold handle_serial_message. mred. prefixes.
    change ("VER:" +++ r) with ("VER" +++ String ":"%char r).
    rewrite payload_after_tag by reflexivity.
    rewrite log_message_run. cbn [nth_error].
    rewrite log_message_run. reflexivity. }
  destruct (startswith message "TOTAL:") eqn:E2.
  { apply startswith_split in E2 as [r ->].
    destruct (parse_int r) eqn:P.
    - destruct (handle_TOTAL_numeric r s P) as (s' & -> & _). reflexivity.
    - now rewrite handle_TOTAL_rejected. }
  destruct (startswith message "STATE:") eqn:E3.
  { apply startswith_split in E3 as [r ->]. now rewrite handle_STATE. }
  destruct (startswith message "GROUP_TOTAL:") eqn:E4.
  { apply startswith_split in E4 as [r ->].
    unfold handle_serial_message. mred. prefixes.
    change ("GROUP_TOTAL:" +++ r) with ("GROUP_TOTAL" +++ String ":"%char r).
    rewrite payload_after_tag by reflexivity.
    rewrite !log_message_run. cbn [nth_error].
    destruct (parse_int r); [|reflexivity].
    match goal with
    | |- context [update_group_id_list ?st] =>
        rewrite (@update_group_id_list_run st z) by reflexivity
    end.
    reflexivity. }
  destruct (startswith message "FRAME_COUNT:") eqn:E5.
  { apply startswith_split in E5 as [r ->].
    unfold handle_serial_message. mred. prefixes.
    change ("FRAME_COUNT:" +++ r) with ("FRAME_COUNT" +++ String ":"%char r).
    rewrite payload_after_tag by reflexivity.
    rewrite !log_message_run. cbn [nth_error].
    destruct (parse_int r); reflexivity. }
  destruct (startswith message "INTERFRAME_DELAY:") eqn:E6.
  { apply startswith_split in E6 as [r ->].
    unfold handle_serial_message. mred. prefixes.
    change ("INTERFRAME_DELAY:" +++ r)
      with ("INTERFRAME_DELAY" +++ String ":"%char r).
    rewrite payload_after_tag by reflexivity.
    rewrite !log_message_run. cbn [nth_error].
    destruct (parse_int r); reflexivity. }
  unfold handle_serial_message. mred.
  rewrite E1, E2, E3, E4, E5, E6.
  rewrite log_message_run.
  repeat match goal with
         | |- context [if startswith message ?p then _ else _] =>
             destruct (startswith message p)
         end;
    try rewrite log_message_run; reflexivity.
Qed.

(** *** The DEBUG filter *)

Lemma stamp_at_no_space clk i :
  all_chars (differs " "%char) (stamp_at clk i) = true.
Proof.
  unfold stamp_at.
  change ("[" +++ strftime_HMS (clk i) +++ "]")
    with (String "["%char (strftime_HMS (clk i) +++ "]")).
  cbn [all_chars]. rewrite all_chars_app, strftime_HMS_no_space. reflexivity.
Qed.

(** The replay recovers the text that was logged. *)
Lemma original_msg_full clk i message :
  original_msg (stamp_at clk i +++ " " +++ message) = message.
Proof.
  unfold original_msg.
  change (stamp_at clk i +++ " " +++ message)
    with (stamp_at clk i +++ String " "%char message).
  rewrite split_max_first by apply stamp_at_no_space. reflexivity.
Qed.

Lemma visible_entries_app flag a b :
  visible_entries flag (a ++ b) = visible_entries flag a ++ visible_entries flag b.
Proof. unfold visible_entries. apply flat_map_app. Qed.

Lemma visible_entries_off buffer :
  visible_entries false buffer = map (fun e => (fst e +++ nl, snd e)) buffer.
Proof.
  induction buffer as [|[m tg] r IH]; [reflexivity|].
  cbn [visible_entries flat_map andb map fst snd app].
  f_equal. exact IH.
Qed.

Lemma replay_run s buffer :
  forall s0,
    fold_right
      (fun (entry : string * option tag) (k : M state unit) =>
         let (message, tg) := entry in
         (if negb (should_filter_message s (original_msg message))
          then append_to_log message tg
          else ret tt) ;;
         k)
      (ret tt) buffer s0
    = (Ok tt,
       set_log_text
         (log_text s0 ++ visible_entries (debug_filter_var s) buffer) s0).
Proof.
  induction buffer as [|[m tg] r IH]; intros s0.
  - cbn [fold_right visible_entries flat_map]. rewrite app_nil_r. reflexivity.
  - cbn [fold_right]. unfold bind at 1.
    rewrite should_filter_message_contains.
    change (visible_entries (debug_filter_var s) ((m, tg) :: r))
      with ((if debug_filter_var s && contains "DEBUG:" (original_msg m)
             then [] else [(m +++ nl, tg)])
            ++ visible_entries (debug_filter_var s) r).
    destruct (debug_filter_var s && contains "DEBUG:" (original_msg m));
      cbn [negb]; unfold append_to_log, modify, ret; rewrite IH.
    + reflexivity.
    + psimpl. rewrite <- app_assoc. reflexivity.
Qed.

Lemma refresh_log_display_run s :
  refresh_log_display s =
  (Ok tt,
   set_log_text (visible_entries (debug_filter_var s) (log_buffer s)) s).
Proof.
  unfold refresh_log_display. unfold bind at 1 2. unfold modify, get.
  rewrite (replay_run (set_log_text [] s) (log_buffer (set_log_text [] s))).
  reflexivity.
Qed.

Lemma click_debug_filter_run s :
  click_debug_filter s =
  (Ok tt,
   set_log_text
     (visible_entries (negb (debug_filter_var s)) (log_buffer s))
     (set_debug_filter_var (negb (debug_filter_var s)) s)).
Proof.
  unfold click_debug_filter. unfold bind, modify.
  rewrite refresh_log_display_run. reflexivity.
Qed.

(** The filter never touches the buffer. *)
Lemma click_debug_filter_log_buffer s :
  log_buffer (exec click_debug_filter s) = log_buffer s.
Proof. unfold exec. rewrite click_debug_filter_run. reflexivity. Qed.

Lemma refresh_log_display_log_buffer s :
  log_buffer (exec refresh_log_display s) = log_buffer s.
Proof. unfold exec. rewrite refresh_log_display_run. reflexivity. Qed.

Lemma visible_entries_cons flag clk i message tg rest :
  visible_entries flag ((stamp_at clk i +++ " " +++ message, tg) :: rest) =
  (if flag && contains "DEBUG:" message then []
   else [((stamp_at clk i +++ " " +++ message) +++ nl, tg)])
  ++ visible_entries flag rest.
Proof.
  unfold visible_entries. cbn [flat_map].
  rewrite original_msg_full. reflexivity.
Qed.

Lemma log_all_run entries :
  forall s,
    log_all entries s =
    (Ok tt,
     let new := stamped (clock s) (ticks s) entries in
     set_log_text (log_text s ++ visible_entries (debug_filter_var s) new)
       (set_log_buffer (log_buffer s ++ new)
          (set_ticks (ticks s + List.length entries) s))).
Proof.
  induction entries as [|[m tg] r IH]; intros s.
  - cbn [log_all stamped List.length visible_entries flat_map]. unfold ret.
    rewrite !app_nil_r, Nat.add_0_r. reflexivity.
  - cbn [log_all]. unfold bind. rewrite log_message_run. cbv zeta.
    rewrite IH. cbv zeta. cbn [stamped List.length].
    rewrite visible_entries_cons, should_filter_message_contains.
    rewrite Nat.add_succ_r. unfold stamp.
    destruct (debug_filter_var s && contains "DEBUG:" m) eqn:E;
      destruct s; psimpl; rewrite <- !app_assoc; reflexivity.
Qed.

(** Logging keeps the widget consistent with the buffer. *)
Lemma log_message_consistent message tg s :
  display_consistent s -> display_consistent (snd (log_message message tg s)).
Proof.
  unfold display_consistent. intros H.
  rewrite log_message_log_text, log_message_log_buffer.
  destruct (log_message_flag_clock message tg s) as (-> & _ & _).
  rewrite visible_entries_app, <- H. unfold stamp.
  rewrite visible_entries_cons.
  cbn [visible_entries flat_map]. now rewrite app_nil_r.
Qed.

Lemma click_debug_filter_consistent s :
  display_consistent (exec click_debug_filter s).
Proof.
  unfold display_consistent, exec. rewrite click_debug_filter_run. reflexivity.
Qed.

Lemma clear_log_consistent s : display_consistent (exec clear_log s).
Proof. reflexivity. Qed.

Lemma init_consistent clk : display_consistent (init clk).
Proof. reflexivity. Qed.

(** Filter off, log, filter on: the same state as logging with the filter
    on throughout. *)
Lemma toggle_off_on_same entries s :
  display_consistent s -> debug_filter_var s = true ->
  exec (click_debug_filter ;; log_all entries ;; click_debug_filter) s
  = exec (log_all entries) s.
Proof.
  unfold display_consistent, exec. intros Hc Hf.
  unfold bind. rewrite click_debug_filter_run. rewrite log_all_run. cbv zeta.
  rewrite click_debug_filter_run, log_all_run. cbv zeta.
  destruct s. psimpl. subst. cbn [negb].
  rewrite visible_entries_app. reflexivity.
Qed.

(** *** The display invariant

    The widget shows the buffer as the filter flag has it, initially and
    after every method: the log is reached through [log_message],
    [refresh_log_display] and [clear_log] only. *)

Lemma kd_ret {A} (a : A) : keeps_display (ret a).
Proof. intros s H. exact H. Qed.

Lemma kd_raise {A} e : keeps_display (@raise state A e).
Proof. intros s H. exact H. Qed.

Lemma kd_get : keeps_display (@get state).
Proof. intros s H. exact H. Qed.

Lemma kd_bind {A B} (m : M state A) (k : A -> M state B) :
  keeps_display m -> (forall a, keeps_display (k a)) -> keeps_display (bind m k).
Proof.
  intros Hm Hk s H. unfold bind. specialize (Hm s H).
  destruct (m s) as [[a|e] s']; cbn [snd] in *; [now apply Hk|exact Hm].
Qed.

Lemma kd_bind_get {B} (k : state -> M state B) :
  (forall s0, keeps_display (k s0)) -> keeps_display (bind get k).
Proof. intros Hk. apply kd_bind; [apply kd_get|exact Hk]. Qed.

Lemma kd_try {A} (body : M state A) catches handler :
  keeps_display body -> (forall e, keeps_display (handler e)) ->
  keeps_display (try_except body catches handler).
Proof.
  intros Hb Hh s H. unfold try_except. specialize (Hb s H).
  destruct (body s) as [[a|e] s']; cbn [snd] in *; [exact Hb|].
  destruct (catches e); [now apply Hh|exact Hb].
Qed.

Lemma kd_modify (f : state -> state) :
  (forall s, display_consistent s -> display_consistent (f s)) ->
  keeps_display (modify f).
Proof. intros Hf s H. now apply Hf. Qed.

Lemma kd_log_message message tg : keeps_display (log_message message tg).
Proof. intros s H. now apply log_message_consistent. Qed.

Lemma kd_refresh_log_display : keeps_display refresh_log_display.
Proof.
  intros s _. unfold display_consistent. rewrite refresh_log_display_run.
  reflexivity.
Qed.

Lemma kd_click_debug_filter : keeps_display click_debug_filter.
Proof. intros s _. apply click_debug_filter_consistent. Qed.

Lemma kd_clear_log : keeps_display clear_log.
Proof. intros s _. reflexivity. Qed.

Lemma kd_IntVar_get v : keeps_display (@IntVar_get state v).
Proof. intros s H. destruct v; exact H. Qed.

Lemma kd_int text : keeps_display (@Py.int state text).
Proof. intros s H. unfold Py.int. destruct (parse_int text); exact H. Qed.

Lemma kd_index {A} (l : list A) i : keeps_display (@index state A l i).
Proof. intros s H. unfold index. destruct (nth_error l i); exact H. Qed.

(** Compositional proofs of [keeps_display]: the hint database [display]
    follows the structure of the code. *)
Create HintDb display discriminated.

#[local] Hint Resolve kd_log_message kd_IntVar_get kd_int kd_index kd_ret
  kd_raise kd_get kd_refresh_log_display kd_clear_log : display.
#[local] Hint Resolve kd_bind kd_try | 3 : display.
#[local] Hint Extern 1 (keeps_display (modify _)) =>
  apply kd_modify; let s := fresh "s" in let H := fresh "H" in
                   intros s H; exact H : display.
#[local] Hint Extern 2 (keeps_display (if ?b then _ else _)) =>
  destruct b : display.
#[local] Hint Extern 2 (keeps_display (match ?x with _ => _ end)) =>
  destruct x : display.

Ltac kd := auto 40 with display.

Lemma kd_send_command command : keeps_display (send_command command).
Proof. unfold send_command, write, show. kd. Qed.
#[local] Hint Resolve kd_send_command : display.

Lemma kd_update_servo_device_list : keeps_display update_servo_device_list.
Proof. unfold update_servo_device_list. kd. Qed.

Lemma kd_update_led_device_list : keeps_display update_led_device_list.
Proof. unfold update_led_device_list. kd. Qed.

Lemma kd_update_group_id_list : keeps_display update_group_id_list.
Proof. unfold update_group_id_list. kd. Qed.
#[local] Hint Resolve kd_update_servo_device_list kd_update_led_device_list
  kd_update_group_id_list : display.

Lemma kd_handle_serial_message message :
  keeps_display (handle_serial_message message).
Proof. unfold handle_serial_message. kd. Qed.
#[local] Hint Resolve kd_handle_serial_message : display.

Lemma kd_drain q : keeps_display (drain q).
Proof.
  induction q as [|m r IH]; cbn [drain]; [kd|].
  unfold handle_queued. kd.
Qed.
#[local] Hint Resolve kd_drain : display.

Lemma kd_process_queue : keeps_display process_queue.
Proof. unfold process_queue, after. kd. Qed.

Lemma kd_send_servo_command : keeps_display send_servo_command.
Proof. unfold send_servo_command, show. kd. Qed.

Lemma kd_send_program_command : keeps_display send_program_command.
Proof. unfold send_program_command, show. kd. Qed.

Lemma kd_send_frame_command : keeps_display send_frame_command.
Proof. unfold send_frame_command, show. kd. Qed.

Lemma kd_send_emergency_command answer :
  keeps_display (send_emergency_command answer).
Proof. unfold send_emergency_command, show. kd. Qed.

Lemma kd_disconnect : keeps_display disconnect.
Proof. unfold disconnect, close. kd. Qed.

Lemma kd_connect opened : keeps_display (connect opened).
Proof. unfold connect, Serial, show, after. kd. Qed.
#[local] Hint Resolve kd_click_debug_filter kd_process_queue
  kd_send_servo_command kd_send_program_command kd_send_frame_command
  kd_send_emergency_command kd_disconnect kd_connect : display.

Lemma kd_step a : keeps_display (step a).
Proof.
  destruct a; cbn [step];
    unfold try_auto_connect, refresh_ports, select_servo_target,
      update_servo_device_state, toggle_connection, auto_request_status,
      send_status_command, send_reinit_command, send_start_command, show;
    kd.
Qed.

(** In every state that the object can be in, the widget shows the buffer
    as the filter flag has it. *)
Lemma reachable_display_consistent clk s :
  reachable clk s -> display_consistent s.
Proof.
  induction 1 as [|s a _ IH]; [apply init_consistent|].
  now apply kd_step.
Qed.

End SolarControllerFacts.

(** ** The first variant *)

Module SOLARGUIFacts.
Import Py PyFacts SOLARGUI.
Local Open Scope list_scope.
Local Infix "+++" := String.append (right associativity, at level 60).

(** Reduction of projections applied to setters. *)
Ltac psimpl :=
  cbn [serial_port is_connected wire total_devices system_state
       ina226_status servo_target_var servo_device_var servo_angle_var
       current_target_var current_device_var current_value_var
       filter_debug_var log_text device_count_label state_label
       ina226_label connect_btn connection_status port_var baud_var
       servo_device_combo current_device_combo dialogs after_queue clock
       ticks set_serial_port set_is_connected set_wire set_total_devices
       set_system_state set_ina226_status set_servo_device_var
       set_servo_angle_var set_current_device_var set_current_value_var
       set_filter_debug_var set_log_text set_device_count_label
       set_state_label set_ina226_label set_connect_btn
       set_connection_status set_servo_device_combo
       set_current_device_combo set_dialogs set_after_queue set_ticks
       is_open faulty fst snd] in *.

(** Reduction of the monad's plumbing. *)
Ltac mred :=
  cbv [bind get gets modify ret raise try_except exec outcome show after
       IntVar_get index Py.int any_exception fst snd] in *.

(** Decide the prefix tests on a line whose first characters are known. *)
Ltac prefixes :=
  repeat match goal with
         | |- context [startswith ?s ?p] =>
             let b := eval vm_compute in (startswith s p) in
             match b with
             | true => change (startswith s p) with true
             | false => change (startswith s p) with false
             end
         end;
  rewrite ?andb_false_r; cbn [andb orb negb].

(** *** Log and [send_command] *)

Lemma log_message_appends message s :
  log_message message s =
  (Ok tt,
   set_log_text (log_text s ++ [("[" +++ stamp s +++ "] " +++ message +++ nl)])
     (set_ticks (S (ticks s)) s)).
Proof. reflexivity. Qed.

Lemma send_command_offline command s :
  is_connected s = false \/ serial_port s = None ->
  send_command command s =
  (Ok tt, set_dialogs (dialogs s ++ [not_connected_error]) s).
Proof.
  intros H. unfold send_command. mred.
  destruct H as [H|H]; rewrite H; [|destruct (is_connected s)]; reflexivity.
Qed.

Lemma send_command_online command s p :
  is_connected s = true -> serial_port s = Some p ->
  is_open p = true -> faulty p = false ->
  send_command command s =
  (Ok tt,
   snd (log_message ("→ " +++ command)
          (set_wire (wire s ++ [command +++ nl]) s))).
Proof.
  intros Hc Hp Ho Hf. unfold send_command, write. mred.
  rewrite Hc, Hp, Ho, Hf. reflexivity.
Qed.

Lemma send_command_write_fails command s p :
  is_connected s = true -> serial_port s = Some p ->
  is_open p && negb (faulty p) = false ->
  send_command command s =
  (Ok tt,
   snd (log_message
          ("❌ Send error: " +++ (if is_open p then failure p else port_not_open))
          s)).
Proof.
  intros Hc Hp Hbad. unfold send_command, write. mred.
  rewrite Hc, Hp, Hbad. reflexivity.
Qed.

Lemma send_command_wire_online command s p :
  is_connected s = true -> serial_port s = Some p ->
  is_open p = true -> faulty p = false ->
  wire (exec (send_command command) s) = wire s ++ [command +++ nl].
Proof.
  intros Hc Hp Ho Hf. unfold exec.
  rewrite (send_command_online _ _ Hc Hp Ho Hf). reflexivity.
Qed.

(** [set_servo] checks no range: whatever integer the angle variable holds
    is encoded and sent. *)
Lemma set_servo_sends s a p :
  servo_angle_var s = Ok a ->
  is_connected s = true -> serial_port s = Some p ->
  is_open p = true -> faulty p = false ->
  let device :=
    if String.eqb (servo_target_var s) "all" then "000"
    else servo_device_var s in
  wire (exec set_servo s) = wire s ++ [(device +++ ",servo," +++ str a) +++ nl].
Proof.
  intros Ha Hc Hp Ho Hf device. subst device.
  unfold set_servo. mred. rewrite Ha.
  rewrite (send_command_online _ _ Hc Hp Ho Hf). reflexivity.
Qed.

Lemma get_current_status_sends s p :
  is_connected s = true -> serial_port s = Some p ->
  is_open p = true -> faulty p = false ->
  wire (exec get_current_status s) = wire s ++ ["current" +++ nl].
Proof. apply send_command_wire_online. Qed.

(** *** The dispatcher *)

(** With the filter on, a line that starts with the marker is dropped:
    nothing of it is kept anywhere. *)
Lemma process_DEBUG_dropped rest s :
  filter_debug_var s = true ->
  process_serial_data ("DEBUG:" +++ rest) s = (Ok tt, s).
Proof.
  intros H. unfold process_serial_data. mred. rewrite H. reflexivity.
Qed.

(** The field that [data.split(":")[1]] selects from the text after the
    tag: what comes before the next colon. *)
Lemma second_field tag_name payload :
  all_chars (differs ":"%char) tag_name = true ->
  nth_error (split ":" (tag_name +++ String ":"%char payload)) 1
  = Some (hd EmptyString (split ":" payload)).
Proof.
  intros H. rewrite split_first by exact H.
  destruct (split_nonempty ":"%char payload) as (h & t & ->). reflexivity.
Qed.

Lemma process_TOTAL payload s :
  process_serial_data ("TOTAL:" +++ payload) s =
  match parse_int (hd EmptyString (split ":" payload)) with
  | Some total =>
      (Ok tt,
       set_after_queue (after_queue s ++ [after_update_device_lists])
         (set_device_count_label (str total) (set_total_devices total s)))
  | None =>
      (Raise (ValueError (invalid_literal (hd EmptyString (split ":" payload)))),
       s)
  end.
Proof.
  unfold process_serial_data. mred. prefixes.
  change ("TOTAL:" +++ payload) with ("TOTAL" +++ String ":"%char payload).
  rewrite second_field by reflexivity.
  destruct (parse_int _); reflexivity.
Qed.

Lemma process_STATE payload s :
  process_serial_data ("STATE:" +++ payload) s =
  (Ok tt,
   let field := hd EmptyString (split ":" payload) in
   set_state_label field (set_system_state field s)).
Proof.
  unfold process_serial_data. mred. prefixes.
  change ("STATE:" +++ payload) with ("STATE" +++ String ":"%char payload).
  rewrite second_field by reflexivity. reflexivity.
Qed.

Lemma process_TOTAL_sets n s :
  total_devices (exec (process_serial_data ("TOTAL:" +++ str n)) s) = n.
Proof.
  unfold exec. rewrite process_TOTAL.
  rewrite split_no_sep by (apply str_no_sep; reflexivity).
  cbn [hd]. rewrite parse_int_str. reflexivity.
Qed.

(** A field that [int] rejects: [ValueError] leaves the method, with the
    state as it was. *)
Lemma process_TOTAL_rejected payload s :
  all_chars (differs ":"%char) payload = true ->
  parse_int payload = None ->
  process_serial_data ("TOTAL:" +++ payload) s
  = (Raise (ValueError (invalid_literal payload)), s).
Proof.
  intros Hc Hn. rewrite process_TOTAL, split_no_sep by exact Hc.
  cbn [hd]. now rewrite Hn.
Qed.

(** Error and emergency lines reach the log whatever the filter flag. *)
Lemma process_error_line line s :
  startswith line "ERR:" || startswith line "ERROR:"
  || startswith line "EMERGENCY:" = true ->
  exists decoration,
    process_serial_data line s =
    (Ok tt, snd (log_message (decoration +++ line) s)).
Proof.
  intros H. unfold process_serial_data, is_current_detail. mred.
  apply orb_true_iff in H as [H|H]; [apply orb_true_iff in H as [H|H]|];
    apply startswith_split in H as [r ->]; prefixes.
  - now exists "❌ Error: ".
  - now exists "".
  - now exists "🚨 ".
Qed.

(** *** Disconnect *)

(** The disconnect branch never assigns the three status attributes. *)
Lemma toggle_connection_keeps_attributes opened s :
  is_connected s = true ->
  let s' := exec (toggle_connection opened) s in
  total_devices s' = total_devices s
  /\ system_state s' = system_state s
  /\ ina226_status s' = ina226_status s.
Proof.
  intros Hc. cbv zeta. unfold toggle_connection, close. mred. rewrite Hc.
  cbn [negb].
  destruct (serial_port s) as [p|]; [destruct (faulty p)|];
    repeat split; reflexivity.
Qed.

(** When the handle closes without an error, the three status labels go
    back to their initial text. *)
Lemma toggle_connection_resets_labels opened s :
  is_connected s = true ->
  (forall p, serial_port s = Some p -> faulty p = false) ->
  let s' := exec (toggle_connection opened) s in
  is_connected s' = false
  /\ device_count_label s' = "0"
  /\ state_label s' = "Unknown"
  /\ ina226_label s' = "Unknown".
Proof.
  intros Hc Hp. cbv zeta. unfold toggle_connection, close. mred. rewrite Hc.
  cbn [negb].
  destruct (serial_port s) as [p|]; [rewrite (Hp p eq_refl)|];
    repeat split; reflexivity.
Qed.

(** *** The DEBUG filter *)

(** A click changes the flag and nothing else: what the widget shows stays
    as it is. *)
Lemma click_filter_debug_run s :
  click_filter_debug s =
  (Ok tt, set_filter_debug_var (negb (filter_debug_var s)) s).
Proof. reflexivity. Qed.

End SOLARGUIFacts.

(** ** The model at work on small inputs *)

Module Examples.
Import Py.
Local Open Scope list_scope.
Local Infix "+++" := String.append (right associativity, at level 60).

Example int_of_numerals :
  map parse_int ["12"; " 1_000 "; "-7"; "+5"; "007"]
  = [Some 12; Some 1000; Some (-7); Some 5; Some 7].
Proof. reflexivity. Qed.

Example int_rejects :
  map parse_int ["abc"; ""; "5:abc"; "1__0"; "_1"; "1_"; "+ 5"; "1.0"; "0x10"]
  = [None; None; None; None; None; None; None; None; None].
Proof. reflexivity. Qed.

(** Digits and white space above ASCII, as [int] reads them: an
    Arabic-Indic three, full-width digits, a numeral between no-break
    spaces. *)
Example int_of_numerals_above_ascii :
  map parse_int ["٣"; "４２"; " 7 "; "١٢٣"; "३x"; "½"; "�"]
  = [Some 3; Some 42; Some 7; Some 123; None; None; None].
Proof. reflexivity. Qed.

Example text_of_value_errors :
  map invalid_literal ["abc"; "it's"; "1.0"; ""]
  = ["invalid literal for int() with base 10: 'abc'";
     "invalid literal for int() with base 10: " +++ repr "it's";
     "invalid literal for int() with base 10: '1.0'";
     "invalid literal for int() with base 10: ''"]
  /\ String.length (repr "it's") = 6%nat
  /\ String.length (invalid_literal (String.concat "" (repeat "ab" 150)))
     = (40 + 200)%nat.
Proof. repeat split. Qed.

Example str_and_padding :
  (str 0, str 15, str (-3), zero_pad 3 7, zero_pad 3 1234, zero_pad 3 (-5))
  = ("0", "15", "-3", "007", "1234", "-05").
Proof. reflexivity. Qed.

Example split_with_and_without_maxsplit :
  (split ":" "TOTAL:5:abc", split_max ":" "TOTAL:5:abc" 1, split ":" "",
   split ":" "a::b", split " " "001 - Device 1")
  = (["TOTAL"; "5"; "abc"], ["TOTAL"; "5:abc"], [""],
     ["a"; ""; "b"], ["001"; "-"; "Device"; "1"]).
Proof. reflexivity. Qed.

(** The specification's round trip: [SetCurrent] of 750 mA to all devices
    goes out as ["000,current,750"]. *)
Example set_current_750 :
  SOLARGUI.wire
    (exec SOLARGUI.set_current
       (SOLARGUI.set_current_value_var (Ok 750) (SOLARGUI.connected noon)))
  = ["000,current,750" +++ nl].
Proof. reflexivity. Qed.

(** The status reply of a chain of three devices, drained from the queue:
    eight entries reach the buffer, the DEBUG line is not shown. *)
Example status_reply :
  let s0 := SolarController.set_message_queue
              [SolarController.q_serial "VER:3.0.5";
               SolarController.q_serial "TOTAL:3";
               SolarController.q_serial "STATE:READY";
               SolarController.q_serial "GROUP_TOTAL:4";
               SolarController.q_serial "DEBUG: tick";
               SolarController.q_serial "EOT"]
              (SolarController.connected noon) in
  let s := exec SolarController.process_queue s0 in
  SolarController.total_devices s = Ok 3
  /\ SolarController.system_state s = "READY"
  /\ SolarController.group_total_var s = Ok 4
  /\ SolarController.group_id_combo s = ["1"; "2"; "3"; "4"]
  /\ SolarController.led_device_combo s
     = ["001 - Device 1"; "002 - Device 2"; "003 - Device 3"]
  /\ SolarController.message_queue s = []
  /\ List.length (SolarController.log_buffer s) = 8%nat
  /\ List.length (SolarController.log_text s) = 7%nat
  /\ SolarController.after_queue s
     = SolarController.after_queue s0 ++ [SolarController.after_process_queue].
Proof. vm_compute. repeat split. Qed.

Example frame_command_defaults :
  SolarController.wire
    (exec SolarController.send_frame_command (SolarController.connected noon))
  = ["frame,10,10" +++ nl].
Proof. reflexivity. Qed.

Example log_line_shape :
  SolarController.log_buffer
    (exec (SolarController.log_message "hello" None) (SolarController.init noon))
  = [("[12:00:00] hello", None)].
Proof. reflexivity. Qed.

Example disconnect_then_send :
  let s := exec (SolarController.disconnect ;; SolarController.send_status_command)
             (SolarController.connected noon) in
  SolarController.wire s = []
  /\ SolarController.serial_port s = None
  /\ SolarController.dialogs s = [SolarController.not_connected_warning].
Proof. repeat split. Qed.

(** Group 5 was selected when the total drops to 3: the selection goes
    back to 1 and the list offers 1..3. *)
Example group_total_drops :
  let s := exec SolarController.update_group_id_list
             (SolarController.set_group_total_var (Ok 3)
                (SolarController.set_group_id_var "5" (SolarController.init noon))) in
  SolarController.group_id_var s = "1"
  /\ SolarController.group_id_combo s = ["1"; "2"; "3"].
Proof. repeat split. Qed.

(** The first variant's Current Status button, and the grammar of the
    specification on the commands of both variants. *)
Example grammar_on_commands :
  map Spec.outbound_command
      ["status"; "reinit"; "emergency"; "start"; "000,servo,90";
       "000,current,750"; "001,program,{3,3,0,10}"; "frame,10,10"; "current"]
  = [true; true; true; true; true; true; true; true; false].
Proof. reflexivity. Qed.

End Examples.

(** ** The properties of the specification *)

Local Open Scope list_scope.
Local Infix "+++" := String.append (right associativity, at level 60).

(** *** Servo angle range *)




(** *** TOTAL lines *)

(** C2, at the inputs where the first variant departs from it.  The payload
    ["5:abc"] is not a number, [int] rejects it, and yet the first variant
    stores 5, because it parses the text between the first and the second
    colon only; on the payload ["abc"] its [int] raises [ValueError] and no
    handler in the method catches it (the count is unchanged).  The V3
    variant returns normally on both lines and leaves the count as it
    was. *)
Theorem total_colon_payload_changes_count :
  Py.parse_int "5:abc" = None
  /\ Py.parse_int "abc" = None
  /\ (forall s : SOLARGUI.state,
        SOLARGUI.total_devices
          (Py.exec (SOLARGUI.process_serial_data "TOTAL:5:abc") s) = 5)
  /\ (forall s : SOLARGUI.state,
        SOLARGUI.process_serial_data "TOTAL:abc" s
        = (Py.Raise
             (Py.ValueError "invalid literal for int() with base 10: 'abc'"),
           s))
  /\ (forall s : SolarController.state,
        SolarController.total_devices
          (Py.exec (SolarController.handle_serial_message "TOTAL:5:abc") s)
        = SolarController.total_devices s
        /\ Py.outcome (SolarController.handle_serial_message "TOTAL:5:abc") s
           = Py.Ok tt)
  /\ (forall s : SolarController.state,
        SolarController.total_devices
          (Py.exec (SolarController.handle_serial_message "TOTAL:abc") s)
        = SolarController.total_devices s
        /\ Py.outcome (SolarController.handle_serial_message "TOTAL:abc") s
           = Py.Ok tt).
Proof.
  split; [reflexivity|split; [reflexivity|split; [|split; [|split]]]].
  - intros s. unfold Py.exec.
    change "TOTAL:5:abc" with ("TOTAL:" +++ "5:abc").
    rewrite SOLARGUIFacts.process_TOTAL. reflexivity.
  - intros s. change "TOTAL:abc" with ("TOTAL:" +++ "abc").
    now apply SOLARGUIFacts.process_TOTAL_rejected.
  - intros s. change "TOTAL:5:abc" with ("TOTAL:" +++ "5:abc").
    now apply SolarControllerFacts.handle_TOTAL_rejected_total_devices.
  - intros s. change "TOTAL:abc" with ("TOTAL:" +++ "abc").
    now apply SolarControllerFacts.handle_TOTAL_rejected_total_devices.
Qed.

(** What C2 says holds of the V3 dispatcher: a decimal numeral sets the
    count, a payload that [int] rejects leaves it, and the method returns
    normally in both cases. *)
Lemma handle_TOTAL_as_specified (s : SolarController.state) :
  (forall n, 0 <= n ->
     SolarController.total_devices
       (Py.exec (SolarController.handle_serial_message ("TOTAL:" +++ Py.str n)) s)
     = Py.Ok n)
  /\ (forall payload, Py.parse_int payload = None ->
        SolarController.total_devices
          (Py.exec (SolarController.handle_serial_message ("TOTAL:" +++ payload)) s)
        = SolarController.total_devices s)
  /\ (forall line,
        Py.outcome (SolarController.handle_serial_message line) s = Py.Ok tt).
Proof.
  split; [|split].
  - intros n _. apply SolarControllerFacts.handle_TOTAL_sets.
  - intros payload H.
    now apply SolarControllerFacts.handle_TOTAL_rejected_total_devices.
  - intros line. apply SolarControllerFacts.handle_serial_message_returns.
Qed.

(** The first variant stores the count of a decimal numeral as well. *)
Lemma process_TOTAL_numeral (n : Z) (s : SOLARGUI.state) :
  SOLARGUI.total_devices
    (Py.exec (SOLARGUI.process_serial_data ("TOTAL:" +++ Py.str n)) s) = n.
Proof. apply SOLARGUIFacts.process_TOTAL_sets. Qed.

(** *** STATE lines *)

(** C7, at the input where the first variant departs from it: for the line
    ["STATE:RUN:3"] the text after the first colon is ["RUN:3"]; the first
    variant keeps ["RUN"] only, the V3 variant keeps all of it. *)
Theorem state_colon_payload_truncated :
  (forall s : SOLARGUI.state,
     SOLARGUI.system_state
       (Py.exec (SOLARGUI.process_serial_data "STATE:RUN:3") s) = "RUN")
  /\ (forall s : SolarController.state,
        SolarController.system_state
          (Py.exec (SolarController.handle_serial_message "STATE:RUN:3") s)
        = "RUN:3").
Proof.
  split; intros s; unfold Py.exec.
  - change "STATE:RUN:3" with ("STATE:" +++ "RUN:3").
    rewrite SOLARGUIFacts.process_STATE. reflexivity.
  - change "STATE:RUN:3" with ("STATE:" +++ "RUN:3").
    rewrite SolarControllerFacts.handle_STATE. reflexivity.
Qed.

(** The V3 dispatcher does what C7 says, for every payload. *)
Lemma handle_STATE_sets_raw_payload (payload : string) (s : SolarController.state) :
  SolarController.system_state
    (Py.exec (SolarController.handle_serial_message ("STATE:" +++ payload)) s)
  = payload.
Proof.
  unfold Py.exec. rewrite SolarControllerFacts.handle_STATE. reflexivity.
Qed.

(** *** The DEBUG filter *)

(** C3, as the first variant falsifies it: there the filter acts when a
    line arrives and keeps no buffer.  A DEBUG line that arrives while the
    filter is off is still shown after the filter is switched on again,
    whereas with the filter on throughout the same line shows nothing; and
    a DEBUG line that arrives while the filter is on is not brought back by
    switching the filter off. *)
Lemma debug_line_outlives_toggle :
  let s := SOLARGUI.init Py.noon in
  let line := "DEBUG: boot" in
  SOLARGUI.filter_debug_var s = true
  /\ SOLARGUI.log_text
       (Py.exec (SOLARGUI.click_filter_debug ;;
                 SOLARGUI.process_serial_data line ;;
                 SOLARGUI.click_filter_debug) s)
     = ["[12:00:00] DEBUG: boot" +++ Py.nl]
  /\ SOLARGUI.log_text (Py.exec (SOLARGUI.process_serial_data line) s) = []
  /\ SOLARGUI.log_text
       (Py.exec (SOLARGUI.process_serial_data line ;;
                 SOLARGUI.click_filter_debug) s) = [].
Proof. repeat split. Qed.

(** C3, amended: in the V3 variant the filter is a display-time predicate
    over the retained buffer.  From a state whose widget shows the buffer as
    the flag has it, with the filter on, switching the filter off, logging
    any sequence of lines and switching it on again ends in the very state
    that logging the same lines with the filter on throughout ends in; and
    a click on the filter leaves the buffer as it is.  In the first variant
    there is no buffer: with the filter on, a line that starts with
    ["DEBUG:"] is dropped on arrival and the state does not change, and a
    click on the filter changes nothing of what is shown. *)
Theorem debug_filter_toggle
        (entries : list (string * option SolarController.tag))
        (s3 : SolarController.state) (rest : string) (s1 : SOLARGUI.state) :
  SolarController.display_consistent s3 ->
  SolarController.debug_filter_var s3 = true ->
  SOLARGUI.filter_debug_var s1 = true ->
  Py.exec (SolarController.click_debug_filter ;;
           SolarController.log_all entries ;;
           SolarController.click_debug_filter) s3
  = Py.exec (SolarController.log_all entries) s3
  /\ SolarController.log_buffer (Py.exec SolarController.click_debug_filter s3)
     = SolarController.log_buffer s3
  /\ SolarController.log_text (Py.exec SolarController.click_debug_filter s3)
     = SolarController.visible_entries false (SolarController.log_buffer s3)
  /\ SOLARGUI.process_serial_data ("DEBUG:" +++ rest) s1 = (Py.Ok tt, s1)
  /\ SOLARGUI.log_text (Py.exec SOLARGUI.click_filter_debug s1)
     = SOLARGUI.log_text s1.
Proof.
  intros Hc H3 H1. repeat split.
  - now apply SolarControllerFacts.toggle_off_on_same.
  - apply SolarControllerFacts.click_debug_filter_log_buffer.
  - unfold Py.exec. rewrite SolarControllerFacts.click_debug_filter_run.
    cbn [snd]. rewrite H3. reflexivity.
  - now apply SOLARGUIFacts.process_DEBUG_dropped.
Qed.

Lemma debug_filter_toggle_witness :
  let entries := [("DEBUG: tick", None); ("READY", Some SolarController.tag_info)] in
  SolarController.log_text
    (Py.exec (SolarController.click_debug_filter ;;
              SolarController.log_all entries ;;
              SolarController.click_debug_filter)
       (SolarController.init Py.noon))
  = SolarController.log_text
      (Py.exec (SolarController.log_all entries) (SolarController.init Py.noon)).
Proof.
  intros entries.
  destruct (@debug_filter_toggle entries (SolarController.init Py.noon) "x"
              (SOLARGUI.init Py.noon) eq_refl eq_refl eq_refl) as (H & _).
  now rewrite H.
Defined.

(** *** Error and emergency lines under the filter *)

(** C4, as the V3 variant falsifies it: with the filter on (its initial
    setting), the error line ["ERR: DEBUG: sensor"] is kept in the buffer
    but nothing of it is shown. *)
Lemma error_line_with_marker_hidden :
  let s := SolarController.init Py.noon in
  let line := "ERR: DEBUG: sensor" in
  Py.startswith line "ERR:" = true
  /\ SolarController.debug_filter_var s = true
  /\ SolarController.log_text
       (Py.exec (SolarController.handle_serial_message line) s) = []
  /\ List.length
       (SolarController.log_buffer
          (Py.exec (SolarController.handle_serial_message line) s)) = 2%nat.
Proof. repeat split. Qed.

(** C4, amended: in the first variant a line with prefix ["ERR:"],
    ["ERROR:"] or ["EMERGENCY:"] always reaches the visible log, whatever
    the filter flag and whatever text follows the prefix.  In the V3
    variant such a line is always kept in the buffer; it is shown unless
    the filter is on and the line contains ["DEBUG:"], in which case
    nothing of it is shown. *)
Theorem error_lines_and_filter
        (line : string) (s1 : SOLARGUI.state) (s3 : SolarController.state) :
  Py.startswith line "ERR:" || Py.startswith line "ERROR:"
  || Py.startswith line "EMERGENCY:" = true ->
  let s1' := Py.exec (SOLARGUI.process_serial_data line) s1 in
  let s3' := Py.exec (SolarController.handle_serial_message line) s3 in
  let inbound := SolarController.stamp s3 +++ " " +++ "<< " +++ line in
  (exists decoration,
      SOLARGUI.log_text s1' =
      SOLARGUI.log_text s1
      ++ ["[" +++ SOLARGUI.stamp s1 +++ "] " +++ (decoration +++ line) +++ Py.nl])
  /\ (exists more,
         SolarController.log_buffer s3' =
         SolarController.log_buffer s3 ++ (inbound, None) :: more)
  /\ (SolarController.debug_filter_var s3 && Py.contains "DEBUG:" line = true ->
      SolarController.log_text s3' = SolarController.log_text s3)
  /\ (SolarController.debug_filter_var s3 && Py.contains "DEBUG:" line = false ->
      exists more,
        SolarController.log_text s3' =
        SolarController.log_text s3 ++ (inbound +++ Py.nl, None) :: more).
Proof.
  intros H s1' s3' inbound. subst s1' s3' inbound. unfold Py.exec. split.
  - destruct (SOLARGUIFacts.process_error_line line s1 H) as [d ->].
    now exists d.
  - destruct (Py.startswith line "EMERGENCY:") eqn:E.
    + rewrite SolarControllerFacts.handle_emergency_line by exact E. cbn [snd].
      rewrite SolarControllerFacts.log_message_log_buffer,
        SolarControllerFacts.log_message_log_text.
      rewrite SolarControllerFacts.contains_DEBUG_inbound.
      split; [now exists []|split]; intros ->;
        [now rewrite app_nil_r|now exists []].
    + rewrite orb_false_r in H.
      rewrite SolarControllerFacts.handle_error_line by exact H. cbn [snd].
      rewrite !SolarControllerFacts.log_message_log_buffer,
        !SolarControllerFacts.log_message_log_text.
      destruct (SolarControllerFacts.log_message_flag_clock ("<< " +++ line) None s3)
        as (-> & _ & _).
      rewrite SolarControllerFacts.contains_DEBUG_inbound.
      split; [|split]; [|intros ->|intros ->].
      * rewrite <- app_assoc. eexists. reflexivity.
      * now rewrite !app_nil_r.
      * rewrite <- app_assoc. eexists. reflexivity.
Qed.

Lemma error_lines_and_filter_witness :
  exists decoration,
    SOLARGUI.log_text
      (Py.exec (SOLARGUI.process_serial_data "ERR: DEBUG: sensor")
         (SOLARGUI.init Py.noon))
    = SOLARGUI.log_text (SOLARGUI.init Py.noon)
      ++ ["[" +++ SOLARGUI.stamp (SOLARGUI.init Py.noon) +++ "] "
          +++ (decoration +++ "ERR: DEBUG: sensor") +++ Py.nl].
Proof.
  exact (proj1 (@error_lines_and_filter "ERR: DEBUG: sensor"
                  (SOLARGUI.init Py.noon) (SolarController.init Py.noon) eq_refl)).
Defined.

(** *** Program intent *)

(** C5: for every Program intent, that is, a state whose group-id text
    reads as the integer [gid] and whose group total, current and exposure
    variables hold [gt], [ma] and [ex], [send_program_command] accepts if
    and only if [0 <= ma <= 1500], [10 <= ex] and [1 <= gid <= gt].  When it
    accepts and the connection is up, the line written is
    ["<device>,program,{<gid>,<gt>,<ma>,<ex>}"] followed by a line feed.
    When it rejects, it shows one error box and changes nothing else:
    nothing is written. *)
Theorem program_intent_validation
        (s : SolarController.state) (gid gt ma ex : Z) :
  Py.parse_int (SolarController.group_id_var s) = Some gid ->
  SolarController.group_total_var s = Py.Ok gt ->
  SolarController.current_var s = Py.Ok ma ->
  SolarController.exposure_var s = Py.Ok ex ->
  let valid := 0 <= ma <= 1500 /\ 10 <= ex /\ 1 <= gid <= gt in
  let device := hd EmptyString (Py.split " " (SolarController.led_device_var s)) in
  let s' := Py.exec SolarController.send_program_command s in
  (~ valid ->
   exists d, In d (SolarController.program_rejections gt)
             /\ SolarController.send_program_command s =
                (Py.Ok tt,
                 SolarController.set_dialogs (SolarController.dialogs s ++ [d]) s))
  /\ (valid -> SolarController.ready s ->
      SolarController.wire s' =
      SolarController.wire s
      ++ [SolarController.program_text device gid gt ma ex +++ Py.nl]
      /\ SolarController.dialogs s' = SolarController.dialogs s)
  /\ (SolarController.ready s ->
      (SolarController.wire s' <> SolarController.wire s <-> valid)).
Proof.
  intros Hg Ht Hm He valid device s'. subst valid device s'.
  assert (Hrej := @SolarControllerFacts.send_program_command_rejects s gid gt ma ex Hg Ht Hm He).
  split; [exact Hrej|]. split.
  - intros (Rm & Re & Rg) (Hc & p & Hp & Ho & Hf).
    now apply SolarControllerFacts.send_program_command_accepts with (p := p).
  - intros (Hc & p & Hp & Ho & Hf). split.
    + intros Hw.
      assert (D : (0 <= ma <= 1500 /\ 10 <= ex /\ 1 <= gid <= gt)
                  \/ ~ (0 <= ma <= 1500 /\ 10 <= ex /\ 1 <= gid <= gt)) by lia.
      destruct D as [D|D]; [exact D|].
      destruct (Hrej D) as (d & _ & E). exfalso. apply Hw.
      unfold Py.exec. rewrite E. reflexivity.
    + intros (Rm & Re & Rg).
      destruct (@SolarControllerFacts.send_program_command_accepts
                  s gid gt ma ex p Hg Ht Hm He Rm Re Rg Hc Hp Ho Hf) as (-> & _).
      intros Habs. apply (f_equal (@List.length string)) in Habs.
      rewrite length_app in Habs. cbn [List.length] in Habs. lia.
Qed.

(** The two instances that the specification names: group 3 of 3 is
    accepted and written, group 5 of 3 is rejected and nothing is written. *)
Lemma program_intent_validation_witness :
  let s33 := SolarController.set_group_total_var (Py.Ok 3)
               (SolarController.set_group_id_var "3"
                  (SolarController.set_led_device_var "001 - Device 1"
                     (SolarController.connected Py.noon))) in
  let s53 := SolarController.set_group_id_var "5" s33 in
  SolarController.wire (Py.exec SolarController.send_program_command s33)
  = ["001,program,{3,3,0,10}" +++ Py.nl]
  /\ SolarController.wire (Py.exec SolarController.send_program_command s53) = [].
Proof.
  intros s33 s53. split.
  - destruct (@program_intent_validation s33 3 3 0 10 eq_refl eq_refl eq_refl eq_refl)
      as (_ & H & _).
    apply H; [lia|].
    split; [reflexivity|].
    exists {| Py.is_open := true; Py.faulty := false; Py.failure := "" |}. repeat split.
  - destruct (@program_intent_validation s53 5 3 0 10 eq_refl eq_refl eq_refl eq_refl)
      as (H & _ & _).
    destruct H as (d & _ & E); [lia|].
    unfold Py.exec. rewrite E. reflexivity.
Defined.

(** *** Disconnect *)

(** C6, as the V3 variant falsifies it: after a disconnect that completes,
    the device count is still 5 and the system state still ["READY"]. *)
Lemma disconnect_keeps_total_devices :
  let s := SolarController.set_total_devices (Py.Ok 5)
             (SolarController.set_system_state "READY"
                (SolarController.connected Py.noon)) in
  Py.outcome SolarController.disconnect s = Py.Ok tt
  /\ SolarController.is_connected (Py.exec SolarController.disconnect s) = false
  /\ SolarController.total_devices (Py.exec SolarController.disconnect s) = Py.Ok 5
  /\ SolarController.system_state (Py.exec SolarController.disconnect s) = "READY".
Proof. repeat split. Qed.

(** C6, amended: no variant resets the device-state attributes on
    disconnect.  The V3 [disconnect] leaves the device count, the system
    state, the group total, the frame count and the interframe delay as
    they were.  The disconnect branch of the first variant leaves
    [total_devices], [system_state] and [ina226_status] as they were; when
    the handle closes without an error it sets the three status labels of
    the window to ["0"], ["Unknown"] and ["Unknown"]. *)
Theorem disconnect_device_state
        (s3 : SolarController.state) (s1 : SOLARGUI.state)
        (opened : Py.result Py.port) :
  SOLARGUI.is_connected s1 = true ->
  let s3' := Py.exec SolarController.disconnect s3 in
  let s1' := Py.exec (SOLARGUI.toggle_connection opened) s1 in
  (SolarController.total_devices s3' = SolarController.total_devices s3
   /\ SolarController.system_state s3' = SolarController.system_state s3
   /\ SolarController.group_total_var s3' = SolarController.group_total_var s3
   /\ SolarController.frame_count_var s3' = SolarController.frame_count_var s3
   /\ SolarController.interframe_delay_var s3'
      = SolarController.interframe_delay_var s3)
  /\ (SOLARGUI.total_devices s1' = SOLARGUI.total_devices s1
      /\ SOLARGUI.system_state s1' = SOLARGUI.system_state s1
      /\ SOLARGUI.ina226_status s1' = SOLARGUI.ina226_status s1)
  /\ ((forall p, SOLARGUI.serial_port s1 = Some p -> Py.faulty p = false) ->
      SOLARGUI.is_connected s1' = false
      /\ SOLARGUI.device_count_label s1' = "0"
      /\ SOLARGUI.state_label s1' = "Unknown"
      /\ SOLARGUI.ina226_label s1' = "Unknown").
Proof.
  intros Hc s3' s1'. split; [|split].
  - apply SolarControllerFacts.disconnect_keeps_device_state.
  - now apply SOLARGUIFacts.toggle_connection_keeps_attributes.
  - intros Hp. now apply SOLARGUIFacts.toggle_connection_resets_labels.
Qed.

Lemma disconnect_device_state_witness :
  let s1 := SOLARGUI.set_total_devices 4 (SOLARGUI.connected Py.noon) in
  SOLARGUI.total_devices
    (Py.exec (SOLARGUI.toggle_connection (Py.Raise (Py.SerialException "could not open port"))) s1) = 4
  /\ SOLARGUI.device_count_label
       (Py.exec (SOLARGUI.toggle_connection (Py.Raise (Py.SerialException "could not open port"))) s1) = "0".
Proof.
  intros s1.
  destruct (@disconnect_device_state (SolarController.connected Py.noon) s1
              (Py.Raise (Py.SerialException "could not open port")) eq_refl) as (_ & (H & _) & L).
  split; [exact H|].
  apply L. intros p [= <-]. reflexivity.
Defined.

(** *** Sending without a connection *)

(** C8: for every command string, when the client is not connected
    ([is_connected] false, or no serial handle), [send_command] shows its
    message box and changes nothing else: nothing is written, nothing is
    added to the log; the V3 method answers [False]. *)
Theorem send_command_without_connection
        (command : string) (s1 : SOLARGUI.state) (s3 : SolarController.state) :
  SOLARGUI.is_connected s1 = false \/ SOLARGUI.serial_port s1 = None ->
  SolarController.is_connected s3 = false \/ SolarController.serial_port s3 = None ->
  let r1 := SOLARGUI.send_command command s1 in
  let r3 := SolarController.send_command command s3 in
  r1 = (Py.Ok tt,
        SOLARGUI.set_dialogs
          (SOLARGUI.dialogs s1 ++ [SOLARGUI.not_connected_error]) s1)
  /\ SOLARGUI.wire (snd r1) = SOLARGUI.wire s1
  /\ SOLARGUI.log_text (snd r1) = SOLARGUI.log_text s1
  /\ r3 = (Py.Ok false,
           SolarController.set_dialogs
             (SolarController.dialogs s3 ++ [SolarController.not_connected_warning])
             s3)
  /\ SolarController.wire (snd r3) = SolarController.wire s3
  /\ SolarController.log_buffer (snd r3) = SolarController.log_buffer s3
  /\ SolarController.log_text (snd r3) = SolarController.log_text s3.
Proof.
  intros H1 H3 r1 r3. subst r1 r3.
  rewrite (SOLARGUIFacts.send_command_offline command s1 H1).
  rewrite (SolarControllerFacts.send_command_not_connected command s3 H3).
  repeat split.
Qed.

Lemma send_command_without_connection_witness :
  SOLARGUI.wire
    (snd (SOLARGUI.send_command "status" (SOLARGUI.init Py.noon))) = []
  /\ fst (SolarController.send_command "status" (SolarController.init Py.noon))
     = Py.Ok false.
Proof.
  destruct (@send_command_without_connection "status"
              (SOLARGUI.init Py.noon) (SolarController.init Py.noon)
              (or_introl eq_refl) (or_introl eq_refl))
    as (_ & W & _ & R & _).
  split; [exact W|]. now rewrite R.
Defined.

(** *** Group identifiers *)

(** C9, as the code falsifies it: the device reports a group total of 0;
    the dispatcher stores it and calls [update_group_id_list], after which
    the selected group id is still 1, above the group total 0.  And when the
    group-total variable does not read as an integer, a group-id text that
    does not parse is not reset. *)
Lemma group_id_above_zero_total :
  let s := Py.exec (SolarController.handle_serial_message "GROUP_TOTAL:0")
             (SolarController.init Py.noon) in
  let u := SolarController.set_group_id_var "abc"
             (SolarController.set_group_total_var
                (Py.Raise (Py.TclError "expected floating-point number"))
                (SolarController.init Py.noon)) in
  SolarController.group_total_var s = Py.Ok 0
  /\ Py.exec SolarController.update_group_id_list s = s
  /\ Py.parse_int (SolarController.group_id_var s) = Some 1
  /\ ~ (1 <= 0)
  /\ SolarController.group_id_var
       (Py.exec SolarController.update_group_id_list u) = "abc".
Proof. repeat split. lia. Qed.

(** C9, amended.  When the group-total variable reads as an integer [g],
    [update_group_id_list] returns; the selectable list becomes [1..t] for
    [t] the total clamped from below to 1; the stored group-id text is
    reset to ["1"] when it does not read as an integer or reads as one
    greater than [t], and kept otherwise; so afterwards the selected group
    id reads as an integer that does not exceed [t], hence not the group
    total itself unless that is below 1.  When reading the variable raises
    [TclError] or [ValueError] (its text is no number), the method returns
    at once and changes nothing.  Any other exception of the read, the
    [OverflowError] of an infinity, leaves the method, and nothing is
    changed either. *)
Theorem group_id_within_total (s : SolarController.state) :
  let r := SolarController.update_group_id_list s in
  let s' := snd r in
  match SolarController.group_total_var s with
  | Py.Raise e =>
      r = (if Py.is_TclError_or_ValueError e then Py.Ok tt else Py.Raise e, s)
  | Py.Ok g =>
      let t := Z.max g 1 in
      fst r = Py.Ok tt
      /\ SolarController.group_id_combo s' = map Py.str (Py.range1 t)
      /\ SolarController.group_total_var s' = Py.Ok g
      /\ SolarController.group_id_var s' =
         match Py.parse_int (SolarController.group_id_var s) with
         | Some i => if t <? i then "1" else SolarController.group_id_var s
         | None => "1"
         end
      /\ exists i, Py.parse_int (SolarController.group_id_var s') = Some i
                   /\ i <= t /\ (1 <= g -> i <= g)
  end.
Proof.
  cbv zeta.
  destruct (SolarController.group_total_var s) as [g|e] eqn:Hg.
  - rewrite (SolarControllerFacts.update_group_id_list_run s Hg). cbv zeta.
    cbn [fst snd]. split; [reflexivity|].
    destruct (Py.parse_int (SolarController.group_id_var s)) as [i|] eqn:Hi.
    + destruct (Z.ltb_spec (Z.max g 1) i).
      * repeat split; try exact Hg. exists 1. repeat split; lia.
      * repeat split; try exact Hg. exists i. repeat split; [exact Hi|lia|lia].
    + repeat split; try exact Hg. exists 1. repeat split; lia.
  - apply (SolarControllerFacts.update_group_id_list_unreadable s Hg).
Qed.

(** *** The Current Status action *)

(** C10: in the first variant, connected, the Current Status action writes
    exactly ["current"] followed by one line feed; ["current"] is none of
    the commands of the specification's outbound grammar. *)
Theorem current_status_line (s : SOLARGUI.state) :
  SOLARGUI.ready s ->
  SOLARGUI.wire (Py.exec SOLARGUI.get_current_status s)
  = SOLARGUI.wire s ++ ["current" +++ Py.nl]
  /\ Spec.outbound_command "current" = false.
Proof.
  intros (Hc & p & Hp & Ho & Hf). split; [|reflexivity].
  now apply SOLARGUIFacts.get_current_status_sends with (p := p).
Qed.

Lemma current_status_line_witness :
  SOLARGUI.wire (Py.exec SOLARGUI.get_current_status (SOLARGUI.connected Py.noon))
  = ["current" +++ Py.nl].
Proof.
  apply (@current_status_line (SOLARGUI.connected Py.noon)).
  split; [reflexivity|].
  exists {| Py.is_open := true; Py.faulty := false; Py.failure := "" |}. repeat split.
Defined.

(** ** Further properties of the code *)

(** *** Frames and exceptions, for any state *)

Module Frames.
Import Py.

Section Preserves.
Context {St X : Type} (f : St -> X).

Lemma pres_ret {A} (a : A) : preserves f (@ret St A a).
Proof. intros s. reflexivity. Qed.

Lemma pres_raise {A} e : preserves f (@raise St A e).
Proof. intros s. reflexivity. Qed.

Lemma pres_get : preserves f (@get St).
Proof. intros s. reflexivity. Qed.

Lemma pres_bind {A B} (m : M St A) (k : A -> M St B) :
  preserves f m -> (forall a, preserves f (k a)) -> preserves f (bind m k).
Proof.
  intros Hm Hk s. unfold bind. specialize (Hm s).
  destruct (m s) as [[a|e] s']; cbn [snd] in *; [|exact Hm].
  now rewrite Hk.
Qed.

Lemma pres_try {A} (body : M St A) catches handler :
  preserves f body -> (forall e, preserves f (handler e)) ->
  preserves f (try_except body catches handler).
Proof.
  intros Hb Hh s. unfold try_except. specialize (Hb s).
  destruct (body s) as [[a|e] s']; cbn [snd] in *; [exact Hb|].
  destruct (catches e); [|exact Hb]. now rewrite Hh.
Qed.

Lemma pres_modify (g : St -> St) :
  (forall s, f (g s) = f s) -> preserves f (modify g).
Proof. intros H s. apply H. Qed.

Lemma pres_IntVar_get v : preserves f (@IntVar_get St v).
Proof. intros s. destruct v; reflexivity. Qed.

Lemma pres_int text : preserves f (@Py.int St text).
Proof. intros s. unfold Py.int. destruct (parse_int text); reflexivity. Qed.

Lemma pres_index {A} (l : list A) i : preserves f (@index St A l i).
Proof. intros s. unfold index. destruct (nth_error l i); reflexivity. Qed.

Lemma pres_Serial opened : preserves f (@Serial St opened).
Proof. intros s. destruct opened; reflexivity. Qed.

End Preserves.

Section Returns.
Context {St : Type}.

Lemma returns_ret {A} (a : A) : returns (@ret St A a).
Proof. intros s. now exists a. Qed.

Lemma returns_get : returns (@get St).
Proof. intros s. now exists s. Qed.

Lemma returns_modify (g : St -> St) : returns (modify g).
Proof. intros s. now exists tt. Qed.

Lemma returns_bind {A B} (m : M St A) (k : A -> M St B) :
  returns m -> (forall a, returns (k a)) -> returns (bind m k).
Proof.
  intros Hm Hk s. unfold bind. destruct (Hm s) as [a Ha].
  destruct (m s) as [[a'|e] s']; cbn [fst] in Ha; [|discriminate].
  apply Hk.
Qed.

(** A handler that catches everything and returns makes the whole
    statement return. *)
Lemma returns_try_any {A} (body : M St A) handler :
  (forall e, returns (handler e)) ->
  returns (try_except body any_exception handler).
Proof.
  intros Hh s. unfold try_except.
  destruct (body s) as [[a|e] s']; [now exists a|].
  cbn [any_exception]. apply Hh.
Qed.

End Returns.

Create HintDb frame discriminated.

#[export] Hint Resolve pres_ret pres_raise pres_get pres_IntVar_get pres_int
  pres_index pres_Serial : frame.
#[export] Hint Resolve pres_bind pres_try | 3 : frame.
#[export] Hint Extern 1 (preserves _ (modify _)) =>
  apply pres_modify; intro; reflexivity : frame.
#[export] Hint Extern 2 (preserves _ (if ?b then _ else _)) =>
  destruct b : frame.
#[export] Hint Extern 2 (preserves _ (match ?x with _ => _ end)) =>
  destruct x : frame.

Create HintDb returns discriminated.

#[export] Hint Resolve returns_ret returns_get returns_modify : returns.
#[export] Hint Resolve returns_bind returns_try_any | 3 : returns.
#[export] Hint Extern 2 (returns (if ?b then _ else _)) => destruct b : returns.
#[export] Hint Extern 2 (returns (match ?x with _ => _ end)) =>
  destruct x : returns.

End Frames.

(** *** More on strings *)

Module StringFacts.
Import Py PyFacts.
Local Open Scope list_scope.
Local Infix "+++" := String.append (right associativity, at level 60).

Lemma append_nil_r s : s +++ "" = s.
Proof. induction s as [|c s IH]; simpl; [reflexivity|now rewrite IH]. Qed.

Lemma append_assoc a b c : (a +++ b) +++ c = a +++ b +++ c.
Proof. induction a as [|x a IH]; simpl; [reflexivity|now rewrite IH]. Qed.

Lemma append_inv_head a b c : a +++ b = a +++ c -> b = c.
Proof. induction a as [|x a IH]; simpl; [trivial|]. intros [= H]. auto. Qed.

Lemma concat_cons x xs :
  String.concat "" (x :: xs) = x +++ String.concat "" xs.
Proof.
  destruct xs; cbn [String.concat]; [now rewrite append_nil_r|reflexivity].
Qed.

(** A text without the separator, closed by another character, is
    recovered from what follows it. *)
Lemma append_sep_inj sep a a' b b' :
  all_chars (differs sep) a = true -> all_chars (differs sep) a' = true ->
  a +++ String sep b = a' +++ String sep b' -> a = a' /\ b = b'.
Proof.
  revert a'. induction a as [|x a IH]; intros [|x' a'] Ha Ha'; simpl in *.
  - intros [= ->]. now split.
  - intros [= <- _]. apply andb_true_iff in Ha' as [Hx _].
    unfold differs in Hx. now rewrite Ascii.eqb_refl in Hx.
  - intros [= -> _]. apply andb_true_iff in Ha as [Hx _].
    unfold differs in Hx. now rewrite Ascii.eqb_refl in Hx.
  - intros [= -> H]. apply andb_true_iff in Ha as [_ Ha].
    apply andb_true_iff in Ha' as [_ Ha'].
    destruct (IH a' Ha Ha' H) as [-> ->]. now split.
Qed.

Lemma str_inj n m : str n = str m -> n = m.
Proof.
  intros H. apply (f_equal parse_int) in H.
  rewrite !parse_int_str in H. now injection H.
Qed.

Lemma zero_pad_no_sep sep w n :
  numeral_char sep = false -> all_chars (differs sep) (zero_pad w n) = true.
Proof.
  intros Hs. apply all_chars_weaken with (p := numeral_char);
    [|apply zero_pad_chars].
  intros c. now apply numeral_char_differs.
Qed.

End StringFacts.

(** *** The V3 variant: frames *)

Module SolarControllerMore.
Import Py PyFacts StringFacts SolarController SolarControllerFacts Frames.
Local Open Scope list_scope.
Local Infix "+++" := String.append (right associativity, at level 60).

(** [log_message] leaves any view that does not look at the log or the
    clock's tick. *)
Lemma pres_log_message {X} (f : state -> X) message tg :
  (forall lb lt t s, f (set_log_text lt (set_log_buffer lb (set_ticks t s))) = f s) ->
  preserves f (log_message message tg).
Proof.
  intros H s. destruct (log_message_frame message tg s) as (lb & lt & -> & _).
  apply H.
Qed.

Lemma pres_refresh_log_display {X} (f : state -> X) :
  (forall lt s, f (set_log_text lt s) = f s) ->
  preserves f refresh_log_display.
Proof. intros H s. rewrite refresh_log_display_run. apply H. Qed.

#[local] Hint Extern 1 (preserves _ (log_message _ _)) =>
  apply pres_log_message; intros; reflexivity : frame.
#[local] Hint Extern 1 (preserves _ refresh_log_display) =>
  apply pres_refresh_log_display; intros; reflexivity : frame.

(** Unfold the methods down to the monad and [log_message]. *)
Ltac methods :=
  unfold step, try_auto_connect, select_servo_target, toggle_connection,
    connect, disconnect,
    auto_request_status, send_status_command, send_reinit_command,
    send_emergency_command, send_start_command, send_servo_command,
    send_program_command, send_frame_command, send_command, process_queue,
    handle_queued, handle_serial_message, update_servo_device_list,
    update_led_device_list, update_group_id_list, update_servo_device_state,
    update_led_device_state, refresh_ports, click_debug_filter, clear_log,
    show, after, write, close.

Ltac frame := methods; auto 80 with frame.

Lemma pres_handle_serial_message_world line :
  preserves (fun s => (wire s, link s, dialogs s, message_queue s, after_queue s))
            (handle_serial_message line).
Proof. frame. Qed.

Lemma pres_send_command_device_state command :
  preserves device_state (send_command command).
Proof. frame. Qed.

(** An inbound line never makes the client transmit, never touches the
    connection and never opens a dialog, whatever the line is. *)
Theorem dispatcher_touches_no_transport line s :
  let s' := exec (handle_serial_message line) s in
  wire s' = wire s
  /\ link s' = link s
  /\ dialogs s' = dialogs s
  /\ outcome (handle_serial_message line) s = Ok tt.
Proof.
  cbv zeta. unfold exec, outcome.
  assert (Hw : preserves wire (handle_serial_message line)) by frame.
  assert (Hl : preserves link (handle_serial_message line)) by frame.
  assert (Hd : preserves dialogs (handle_serial_message line)) by frame.
  repeat split; [apply Hw|apply Hl|apply Hd|apply handle_serial_message_returns].
Qed.

(** The command methods never assign the device-state variables: these
    are written by the dispatcher only. *)
Theorem commands_keep_device_state a s :
  is_command a = true ->
  device_state (exec (step a) s) = device_state s.
Proof.
  intros H. unfold exec.
  assert (P : preserves device_state (step a)); [|apply P].
  destruct a; try discriminate H; frame.
Qed.

Lemma commands_keep_device_state_witness :
  device_state
    (exec (step do_send_program)
       (set_total_devices (Ok 3) (connected noon)))
  = (Ok 3, "Unknown", Ok 1, Ok 10, Ok 10).
Proof.
  exact (@commands_keep_device_state do_send_program
           (set_total_devices (Ok 3) (connected noon)) eq_refl).
Defined.

(** *** The queue loop *)

Lemma pres_drain {X} (f : state -> X) q :
  (forall v s, f (set_message_queue v s) = f s) ->
  (forall m, preserves f (handle_queued m)) ->
  preserves f (drain q).
Proof.
  intros Hq Hh. induction q as [|m r IH]; cbn [drain]; [apply pres_ret|].
  apply pres_bind; [apply pres_modify; intro; apply Hq|intro].
  apply pres_bind; [apply Hh|intro; exact IH].
Qed.

Lemma returns_handle_queued m : returns (handle_queued m).
Proof.
  intros s. exists tt. destruct m; cbn [handle_queued].
  - apply handle_serial_message_returns.
  - now rewrite log_message_run.
  - now rewrite log_message_run.
Qed.

Lemma pres_handle_queued_queues m :
  preserves (fun s => (message_queue s, after_queue s)) (handle_queued m).
Proof. frame. Qed.

Lemma drain_cons m r s :
  drain (m :: r) s =
  match handle_queued m (set_message_queue r s) with
  | (Ok _, s1) => drain r s1
  | (Raise e, s1) => (Raise e, s1)
  end.
Proof. reflexivity. Qed.

Lemma drain_empties q :
  forall s, fst (drain q s) = Ok tt
            /\ message_queue (snd (drain q s)) =
               match q with [] => message_queue s | _ => [] end
            /\ after_queue (snd (drain q s)) = after_queue s.
Proof.
  induction q as [|m r IH]; intros s; [repeat split|].
  rewrite drain_cons.
  destruct (returns_handle_queued m (set_message_queue r s)) as [[] Hr].
  pose proof (pres_handle_queued_queues m (set_message_queue r s)) as Hp.
  cbv beta in Hp.
  destruct (handle_queued m (set_message_queue r s)) as [[[]|e] s1];
    cbn [fst snd] in *; [|discriminate].
  injection Hp as Hq Ha.
  destruct (IH s1) as (Ho & Hm & Haq).
  split; [exact Ho|split].
  - rewrite Hm. destruct r; [exact Hq|reflexivity].
  - rewrite Haq. exact Ha.
Qed.

(** The handlers never look at the queue. *)
Lemma iq_ret {A} (a : A) : ignores_queue (ret a).
Proof. intros q s. reflexivity. Qed.

Lemma iq_raise {A} e : ignores_queue (@raise state A e).
Proof. intros q s. reflexivity. Qed.

Lemma iq_modify (f : state -> state) :
  (forall q s, f (set_message_queue q s) = set_message_queue q (f s)) ->
  ignores_queue (modify f).
Proof. intros H q s. unfold modify. cbn [fst snd]. now rewrite H. Qed.

Lemma iq_bind {A B} (m : M state A) (k : A -> M state B) :
  ignores_queue m -> (forall a, ignores_queue (k a)) ->
  ignores_queue (bind m k).
Proof.
  intros Hm Hk q s. unfold bind. rewrite Hm.
  destruct (m s) as [[a|e] s1]; cbn [fst snd]; [apply Hk|reflexivity].
Qed.

Lemma iq_bind_get {B} (k : state -> M state B) :
  (forall q s, k (set_message_queue q s) = k s) ->
  (forall s0, ignores_queue (k s0)) ->
  ignores_queue (bind get k).
Proof.
  intros Hq Hk q s. unfold bind, get. rewrite Hq. apply Hk.
Qed.

Lemma iq_try {A} (body : M state A) catches handler :
  ignores_queue body -> (forall e, ignores_queue (handler e)) ->
  ignores_queue (try_except body catches handler).
Proof.
  intros Hb Hh q s. unfold try_except. rewrite Hb.
  destruct (body s) as [[a|e] s1]; cbn [fst snd]; [reflexivity|].
  destruct (catches e); [apply Hh|reflexivity].
Qed.

Lemma iq_IntVar_get v : ignores_queue (@IntVar_get state v).
Proof. intros q s. destruct v; reflexivity. Qed.

Lemma iq_int text : ignores_queue (@Py.int state text).
Proof. intros q s. unfold Py.int. destruct (parse_int text); reflexivity. Qed.

Lemma iq_index {A} (l : list A) i : ignores_queue (@index state A l i).
Proof. intros q s. unfold index. destruct (nth_error l i); reflexivity. Qed.

Create HintDb queue discriminated.
#[local] Hint Resolve iq_ret iq_raise iq_IntVar_get iq_int iq_index : queue.
#[local] Hint Extern 1 (ignores_queue (bind get _)) =>
  apply iq_bind_get; [intros; reflexivity|intro] : queue.
#[local] Hint Resolve iq_bind iq_try | 3 : queue.
#[local] Hint Extern 1 (ignores_queue (modify _)) =>
  apply iq_modify; intros; reflexivity : queue.
#[local] Hint Extern 2 (ignores_queue (if ?b then _ else _)) =>
  destruct b : queue.
#[local] Hint Extern 2 (ignores_queue (match ?x with _ => _ end)) =>
  destruct x : queue.

Lemma iq_handle_queued m : ignores_queue (handle_queued m).
Proof.
  unfold handle_queued, handle_serial_message, update_servo_device_list,
    update_led_device_list, update_group_id_list, log_message, append_to_log.
  auto 80 with queue.
Qed.

Lemma iq_handle_all q : ignores_queue (handle_all q).
Proof.
  induction q as [|m r IH]; cbn [handle_all]; [apply iq_ret|].
  apply iq_bind; [apply iq_handle_queued|intro; exact IH].
Qed.

Lemma handle_all_cons m r s :
  handle_all (m :: r) s = handle_all r (snd (handle_queued m s)).
Proof.
  cbn [handle_all]. unfold bind.
  destruct (returns_handle_queued m s) as [[] Hr].
  destruct (handle_queued m s) as [[[]|e] s1]; cbn [fst snd] in *;
    [reflexivity|discriminate].
Qed.

(** The loop does what handling the messages in their order does, and
    leaves the queue empty. *)
Lemma drain_handles q s :
  q <> [] ->
  snd (drain q s) = set_message_queue [] (snd (handle_all q s)).
Proof.
  revert s. induction q as [|m r IH]; intros s Hq; [now elim Hq|].
  rewrite drain_cons, handle_all_cons, iq_handle_queued.
  destruct (returns_handle_queued m s) as [[] Hr]. rewrite Hr.
  destruct r as [|m' r'].
  - reflexivity.
  - rewrite IH by discriminate. rewrite iq_handle_all. reflexivity.
Qed.

(** [process_queue] always returns.  It handles every queued message, in
    the order of the queue: its final state is the one that handling the
    messages one after the other leads to, with the queue empty and the
    method re-armed exactly once.  It writes nothing and leaves the
    connection alone. *)
Theorem process_queue_drains s :
  let s' := exec process_queue s in
  outcome process_queue s = Ok tt
  /\ s' = exec (after after_process_queue)
               (set_message_queue [] (exec (handle_all (message_queue s)) s))
  /\ message_queue s' = []
  /\ after_queue s' = after_queue s ++ [after_process_queue]
  /\ wire s' = wire s
  /\ link s' = link s.
Proof.
  cbv zeta. unfold exec, outcome.
  assert (W : forall X (f : state -> X),
             (forall v s, f (set_message_queue v s) = f s) ->
             (forall v s, f (set_after_queue v s) = f s) ->
             (forall m, preserves f (handle_queued m)) ->
             preserves f process_queue).
  { intros X f H1 H2 H3. unfold process_queue, after.
    apply pres_bind; [apply pres_get|intro].
    apply pres_bind; [|intro; apply pres_modify; intro; apply H2].
    now apply pres_drain. }
  assert (Hw : preserves wire process_queue)
    by (apply W; [reflexivity|reflexivity|intro; frame]).
  assert (Hl : preserves link process_queue)
    by (apply W; [reflexivity|reflexivity|intro; frame]).
  specialize (Hw s). specialize (Hl s). clear W.
  assert (Hd : snd (drain (message_queue s) s)
               = set_message_queue [] (snd (handle_all (message_queue s) s))).
  { destruct (message_queue s) as [|m r] eqn:Hq.
    - cbn [drain handle_all ret snd]. rewrite <- Hq. reflexivity.
    - apply drain_handles. discriminate. }
  unfold process_queue, after, bind, get, modify in *.
  destruct (drain_empties (message_queue s) s) as (Ho & Hm & Ha).
  destruct (drain (message_queue s) s) as [[[]|e] s1];
    cbn [fst snd] in *; [|discriminate].
  repeat split; try assumption.
  - rewrite <- Hd. reflexivity.
  - transitivity (message_queue s1); [reflexivity|].
    rewrite Hm. now destruct (message_queue s).
  - transitivity (after_queue s1 ++ [after_process_queue]); [reflexivity|].
    now rewrite Ha.
Qed.

Lemma process_queue_handles_in_order :
  let s := exec (step (reader_puts (q_serial "STATE:READY")))
             (exec (step (reader_puts (q_serial "STATE:BOOT"))) (init noon)) in
  system_state (exec process_queue s) = "READY"
  /\ List.length (log_buffer (exec process_queue s)) = 2%nat.
Proof. split; reflexivity. Qed.

(** *** Nothing is written without a connection *)

Lemma os_pres {A} (m : M state A) :
  preserves (fun s => (wire s, is_connected s)) m -> offline_safe m.
Proof.
  intros H s Hc. specialize (H s). cbv beta in H. injection H as -> ->.
  now split.
Qed.

Lemma os_bind {A B} (m : M state A) (k : A -> M state B) :
  offline_safe m -> (forall a, offline_safe (k a)) -> offline_safe (bind m k).
Proof.
  intros Hm Hk s Hc. unfold bind. destruct (Hm s Hc) as [Hw Hi].
  destruct (m s) as [[a|e] s']; cbn [snd] in *; [|now split].
  destruct (Hk a s' Hi) as [Hw' Hi']. split; [now rewrite Hw'|exact Hi'].
Qed.

Lemma os_send_command command : offline_safe (send_command command).
Proof.
  intros s Hc. rewrite send_command_not_connected by now left.
  now split.
Qed.

Create HintDb offline discriminated.
#[local] Hint Resolve os_send_command : offline.
#[local] Hint Resolve os_bind | 3 : offline.
#[local] Hint Extern 2 (offline_safe (if ?b then _ else _)) =>
  destruct b : offline.
#[local] Hint Extern 2 (offline_safe (match ?x with _ => _ end)) =>
  destruct x : offline.
#[local] Hint Extern 5 (offline_safe _) =>
  apply os_pres; solve [auto 20 with frame] : offline.

Lemma pres_process_queue {X} (f : state -> X) :
  (forall v s, f (set_message_queue v s) = f s) ->
  (forall v s, f (set_after_queue v s) = f s) ->
  (forall m, preserves f (handle_queued m)) ->
  preserves f process_queue.
Proof.
  intros H1 H2 H3. unfold process_queue, after.
  apply pres_bind; [apply pres_get|intro].
  apply pres_bind; [|intro; apply pres_modify; intro; apply H2].
  now apply pres_drain.
Qed.

(** Whatever the user or the Tk loop does while there is no connection,
    nothing is written to the device. *)
Theorem offline_never_writes a s :
  is_connected s = false -> wire (exec (step a) s) = wire s.
Proof.
  intros Hc. unfold exec.
  destruct a; cbn [step];
    try solve [match goal with
               | |- wire (snd (?m s)) = wire s =>
                   assert (O : offline_safe m)
                     by (unfold auto_request_status, send_status_command,
                           send_reinit_command, send_emergency_command,
                           send_start_command, send_servo_command,
                           send_program_command, send_frame_command, show;
                         auto 40 with offline);
                   apply (O s Hc)
               end];
    try solve [match goal with
               | |- wire (snd (?m s)) = wire s =>
                   assert (Q : preserves wire m) by frame; apply Q
               end];
    try solve [apply (@pres_process_queue _ wire);
               [reflexivity|reflexivity|intro; frame]].
Qed.

Lemma offline_never_writes_witness :
  wire (exec (step do_send_servo) (init noon)) = [].
Proof. exact (@offline_never_writes do_send_servo (init noon) eq_refl). Defined.

(** *** At most one line per action *)

Lemma w1_pres {A} (m : M state A) :
  preserves wire m -> writes_at_most_one_line m.
Proof. intros H s. left. apply H. Qed.

Lemma w1_bind_left {A B} (m : M state A) (k : A -> M state B) :
  preserves wire m -> (forall a, writes_at_most_one_line (k a)) ->
  writes_at_most_one_line (bind m k).
Proof.
  intros Hm Hk s. unfold bind. specialize (Hm s).
  destruct (m s) as [[a|e] s']; cbn [snd] in *; [|now left].
  destruct (Hk a s') as [H|[c H]]; [left|right; exists c]; congruence.
Qed.

Lemma w1_bind_right {A B} (m : M state A) (k : A -> M state B) :
  writes_at_most_one_line m -> (forall a, preserves wire (k a)) ->
  writes_at_most_one_line (bind m k).
Proof.
  intros Hm Hk s. unfold bind. specialize (Hm s).
  destruct (m s) as [[a|e] s']; cbn [snd] in *; [|exact Hm].
  specialize (Hk a s').
  destruct Hm as [H|[c H]]; [left|right; exists c]; congruence.
Qed.

Lemma w1_send_command command : writes_at_most_one_line (send_command command).
Proof.
  intros s.
  destruct (is_connected s) eqn:Hc;
    [|left; now rewrite send_command_not_connected by now left].
  destruct (serial_port s) as [p|] eqn:Hp;
    [|left; now rewrite send_command_not_connected by now right].
  destruct (is_open p && negb (faulty p)) eqn:Hok.
  - apply andb_true_iff in Hok as [Ho Hf]. apply negb_true_iff in Hf.
    right. exists command.
    destruct (send_command_run_wire_connected command s Hc Hp Ho Hf)
      as (s' & -> & Hw & _).
    exact Hw.
  - left. rewrite (send_command_port_error command s Hc Hp Hok). cbn [snd].
    match goal with
    | |- context [log_message ?m ?tg s] =>
        destruct (log_message_frame m tg s) as (lb & lt & -> & _)
    end.
    reflexivity.
Qed.

Create HintDb oneline discriminated.
#[local] Hint Resolve w1_send_command : oneline.
#[local] Hint Resolve w1_bind_left w1_bind_right | 3 : oneline.
#[local] Hint Extern 2 (writes_at_most_one_line (if ?b then _ else _)) =>
  destruct b : oneline.
#[local] Hint Extern 2 (writes_at_most_one_line (match ?x with _ => _ end)) =>
  destruct x : oneline.
#[local] Hint Extern 5 (writes_at_most_one_line _) =>
  apply w1_pres; solve [auto 20 with frame] : oneline.


(** *** The log buffer is append-only *)

Lemma eb_pres {A} (m : M state A) : preserves log_buffer m -> extends_buffer m.
Proof. intros H s. exists []. now rewrite H, app_nil_r. Qed.

Lemma eb_bind {A B} (m : M state A) (k : A -> M state B) :
  extends_buffer m -> (forall a, extends_buffer (k a)) ->
  extends_buffer (bind m k).
Proof.
  intros Hm Hk s. unfold bind. destruct (Hm s) as [more Hmore].
  destruct (m s) as [[a|e] s']; cbn [snd] in *; [|now exists more].
  destruct (Hk a s') as [more' Hmore'].
  exists (more ++ more'). now rewrite Hmore', Hmore, app_assoc.
Qed.

Lemma eb_try {A} (body : M state A) catches handler :
  extends_buffer body -> (forall e, extends_buffer (handler e)) ->
  extends_buffer (try_except body catches handler).
Proof.
  intros Hb Hh s. unfold try_except. destruct (Hb s) as [more Hmore].
  destruct (body s) as [[a|e] s']; cbn [snd] in *; [now exists more|].
  destruct (catches e); [|now exists more].
  destruct (Hh e s') as [more' Hmore'].
  exists (more ++ more'). now rewrite Hmore', Hmore, app_assoc.
Qed.

Lemma eb_log_message message tg : extends_buffer (log_message message tg).
Proof. intros s. eexists. apply log_message_log_buffer. Qed.

Lemma eb_refresh_log_display : extends_buffer refresh_log_display.
Proof. apply eb_pres. intros s. now rewrite refresh_log_display_run. Qed.

Create HintDb buffer discriminated.
#[local] Hint Resolve eb_log_message eb_refresh_log_display : buffer.
#[local] Hint Resolve eb_bind eb_try | 3 : buffer.
#[local] Hint Extern 2 (extends_buffer (if ?b then _ else _)) =>
  destruct b : buffer.
#[local] Hint Extern 2 (extends_buffer (match ?x with _ => _ end)) =>
  destruct x : buffer.
#[local] Hint Extern 5 (extends_buffer _) =>
  apply eb_pres; solve [auto 20 with frame] : buffer.

Lemma eb_handle_queued m : extends_buffer (handle_queued m).
Proof. methods. auto 80 with buffer. Qed.

Lemma eb_drain q : extends_buffer (drain q).
Proof.
  induction q as [|m r IH]; cbn [drain]; [apply eb_pres, pres_ret|].
  apply eb_bind; [apply eb_pres, pres_modify; intro; reflexivity|intro].
  apply eb_bind; [apply eb_handle_queued|intro; exact IH].
Qed.

(** The log buffer is append-only: every action but Clear Log keeps what
    the buffer holds and at most adds entries at its end; Clear Log empties
    the buffer and the widget. *)
Theorem buffer_append_only a s :
  match a with
  | do_clear_log =>
      log_buffer (exec (step a) s) = [] /\ log_text (exec (step a) s) = []
  | _ => exists more, log_buffer (exec (step a) s) = log_buffer s ++ more
  end.
Proof.
  unfold exec.
  destruct a; cbn [step]; try (split; reflexivity);
    match goal with
    | |- exists more, log_buffer (snd (?m s)) = _ =>
        assert (E : extends_buffer m); [|apply E]
    end;
    try solve [methods; auto 80 with buffer].
  unfold process_queue, after.
  apply eb_bind; [apply eb_pres, pres_get|intro].
  apply eb_bind; [apply eb_drain|intro].
  apply eb_pres, pres_modify. intro. reflexivity.
Qed.

(** *** Connecting and disconnecting *)

Lemma connect_cases opened s :
  let r := connect opened s in
  match parse_int (baud_var s) with
  | None => r = (Raise (ValueError (invalid_literal (baud_var s))), s)
  | Some baud =>
      if String.eqb (port_var s) "" then
        r = (Ok tt,
             set_dialogs
               (dialogs s ++ [showerror "Error" "Please select a serial port"]) s)
      else
        match opened with
        | Ok p =>
            fst r = Ok tt
            /\ link (snd r) = (true, Some p, true)
            /\ connection_status (snd r) = "Connected"
            /\ wire (snd r) = wire s
            /\ dialogs (snd r) = dialogs s
            /\ after_queue (snd r) = after_queue s ++ [after_auto_request_status]
            /\ log_buffer (snd r) =
               log_buffer s
               ++ [(stamp s +++ " " +++ "Connected to " +++ port_var s,
                    Some tag_success)]
        | Raise e =>
            if is_SerialException e then
              fst r = Ok tt
              /\ link (snd r) = link s
              /\ connection_status (snd r) = connection_status s
              /\ wire (snd r) = wire s
              /\ after_queue (snd r) = after_queue s
              /\ dialogs (snd r) =
                 dialogs s
                 ++ [showerror "Connection Error"
                       ("Failed to connect: " +++ message e)]
              /\ log_buffer (snd r) =
                 log_buffer s
                 ++ [(stamp s +++ " " +++ "Connection failed: " +++ message e,
                      Some tag_error)]
            else r = (Raise e, s)
        end
  end.
Proof.
  cbv zeta. unfold connect, Serial, show, after. mred.
  destruct (parse_int (baud_var s)) as [baud|]; [|reflexivity].
  destruct (String.eqb (port_var s) ""); [reflexivity|].
  destruct opened as [p|[]]; try reflexivity.
  - rewrite log_message_run. cbv zeta. cbn [fst snd].
    match goal with
    | |- context [should_filter_message ?st ?m] =>
        destruct (should_filter_message st m)
    end; repeat split.
  - cbn [is_SerialException message].
    rewrite log_message_run. cbv zeta. cbn [fst snd].
    match goal with
    | |- context [should_filter_message ?st ?m] =>
        destruct (should_filter_message st m)
    end; repeat split.
Qed.

(** [connect]: with no port chosen it only shows an error box; when the
    port opens, the client is connected, nothing is written yet and the
    status request is scheduled; when the port fails to open with a
    [SerialException], the client stays as disconnected as it was, and it
    shows an error box and logs the failure, both with the text of the
    exception; any other exception, and the [ValueError] of a baud text
    that is not a number, leave the method with the state unchanged. *)
Theorem connect_outcomes opened s :
  let r := connect opened s in
  match parse_int (baud_var s) with
  | None => r = (Raise (ValueError (invalid_literal (baud_var s))), s)
  | Some baud =>
      if String.eqb (port_var s) "" then
        r = (Ok tt,
             set_dialogs
               (dialogs s ++ [showerror "Error" "Please select a serial port"]) s)
      else
        match opened with
        | Ok p =>
            fst r = Ok tt
            /\ link (snd r) = (true, Some p, true)
            /\ connection_status (snd r) = "Connected"
            /\ wire (snd r) = wire s
            /\ dialogs (snd r) = dialogs s
            /\ after_queue (snd r) = after_queue s ++ [after_auto_request_status]
            /\ log_buffer (snd r) =
               log_buffer s
               ++ [(stamp s +++ " " +++ "Connected to " +++ port_var s,
                    Some tag_success)]
        | Raise e =>
            if is_SerialException e then
              fst r = Ok tt
              /\ link (snd r) = link s
              /\ connection_status (snd r) = connection_status s
              /\ wire (snd r) = wire s
              /\ after_queue (snd r) = after_queue s
              /\ dialogs (snd r) =
                 dialogs s
                 ++ [showerror "Connection Error"
                       ("Failed to connect: " +++ message e)]
              /\ log_buffer (snd r) =
                 log_buffer s
                 ++ [(stamp s +++ " " +++ "Connection failed: " +++ message e,
                      Some tag_error)]
            else r = (Raise e, s)
        end
  end.
Proof. apply connect_cases. Qed.

Lemma disconnect_cases s :
  let r := disconnect s in
  match serial_port s with
  | Some p =>
      if is_open p && faulty p
      then r = (Raise (SerialException (failure p)), set_running false s)
      else fst r = Ok tt /\ disconnected_from s (snd r)
  | None => fst r = Ok tt /\ disconnected_from s (snd r)
  end.
Proof.
  cbv zeta. unfold disconnect, close, disconnected_from. mred.
  destruct s. psimpl.
  match goal with
  | |- match ?x with Some _ => _ | None => _ end => destruct x as [[[] []]|]
  end; psimpl; try reflexivity;
    rewrite log_message_run; cbv zeta; cbn [fst snd];
    match goal with
    | |- context [should_filter_message ?st ?m] =>
        destruct (should_filter_message st m)
    end; repeat split.
Qed.

(** [disconnect] completes unless closing the handle raises: then the
    client is disconnected, has no handle, has written nothing and has
    logged the disconnect.  When closing an open handle raises, the
    exception leaves the method: the reader has been told to stop but the
    client still counts as connected and keeps its handle. *)
Theorem disconnect_outcomes s :
  let r := disconnect s in
  match serial_port s with
  | Some p =>
      if is_open p && faulty p
      then r = (Raise (SerialException (failure p)), set_running false s)
      else fst r = Ok tt /\ disconnected_from s (snd r)
  | None => fst r = Ok tt /\ disconnected_from s (snd r)
  end.
Proof. apply disconnect_cases. Qed.

(** *** Invariants of the reachable states *)

Lemma link_invariant_of_link s s' :
  link s' = link s -> link_invariant s -> link_invariant s'.
Proof.
  unfold link, link_invariant. intros [= -> -> ->]. trivial.
Qed.

Lemma toggle_connection_link_invariant opened s :
  link_invariant s -> link_invariant (snd (toggle_connection opened s)).
Proof.
  intros Hinv. unfold toggle_connection, bind, get.
  destruct (is_connected s) eqn:Hc; cbn [negb].
  - pose proof (disconnect_cases s) as H. cbv zeta in H.
    destruct (serial_port s) as [p|] eqn:Hp.
    + destruct (is_open p && faulty p).
      * rewrite H. cbn [snd]. destruct Hinv as [Hi _].
        split; [exact Hi|intros Hr; discriminate Hr].
      * destruct H as (_ & Hl & _). unfold link in Hl.
        injection Hl as H1 H2 H3. unfold link_invariant. rewrite H1, H2, H3.
        split; [split; [discriminate|congruence]|discriminate].
    + destruct H as (_ & Hl & _). unfold link in Hl.
      injection Hl as H1 H2 H3. unfold link_invariant. rewrite H1, H2, H3.
      split; [split; [discriminate|congruence]|discriminate].
  - pose proof (connect_cases opened s) as H. cbv zeta in H.
    destruct (parse_int (baud_var s)); [|now rewrite H].
    destruct (String.eqb (port_var s) ""); [now rewrite H|].
    destruct opened as [p|[]]; try (now rewrite H).
    + destruct H as (_ & Hl & _). unfold link in Hl.
      injection Hl as H1 H2 H3. unfold link_invariant. rewrite H1, H2, H3.
      split; [split; [discriminate|reflexivity]|reflexivity].
    + destruct H as (_ & Hl & _).
      now apply link_invariant_of_link with (s := s).
Qed.

Lemma step_link_invariant a s :
  link_invariant s -> link_invariant (exec (step a) s).
Proof.
  intros Hinv. unfold exec.
  destruct a; cbn [step];
    try solve [apply toggle_connection_link_invariant; exact Hinv];
    try solve [unfold try_auto_connect, bind, get;
               match goal with
               | |- context [if ?b then _ else _] => destruct b
               end;
               [apply toggle_connection_link_invariant|]; exact Hinv];
    try solve [match goal with
               | |- link_invariant (snd (?m s)) =>
                   assert (Q : preserves link m) by frame;
                   apply link_invariant_of_link with (s := s);
                   [apply Q|exact Hinv]
               end];
    try solve [apply link_invariant_of_link with (s := s); [|exact Hinv];
               apply (@pres_process_queue _ link);
               [reflexivity|reflexivity|intro; frame]].
Qed.

(** In every state that the client can reach, it counts as connected
    exactly when it holds a serial handle, and the reader thread is asked
    to run only while it is connected. *)
Theorem reachable_link_invariant clk s :
  reachable clk s -> link_invariant s.
Proof.
  induction 1 as [|s a _ IH].
  - split; [split; [discriminate|intros H; now elim H]|discriminate].
  - now apply step_link_invariant.
Qed.

Lemma reachable_link_invariant_witness :
  let s := exec (step (do_toggle_connection
                         (Ok {| is_open := true; faulty := false;
                                failure := "" |})))
             (exec (step (do_refresh_ports ["/dev/ttyUSB0"])) (init noon)) in
  link s = (true, Some {| is_open := true; faulty := false; failure := "" |},
            true)
  /\ link_invariant s.
Proof.
  split; [reflexivity|].
  apply (@reachable_link_invariant noon).
  apply reachable_step, reachable_step, reachable_init.
Defined.

(** In every state that the client can reach, the log widget shows
    exactly the entries of the buffer that the filter flag does not hide,
    in order. *)
Theorem reachable_display_matches_buffer clk s :
  reachable clk s ->
  log_text s = visible_entries (debug_filter_var s) (log_buffer s).
Proof. apply reachable_display_consistent. Qed.

Lemma reachable_display_matches_buffer_witness :
  let s := exec (step do_process_queue)
             (exec (step (reader_puts (q_serial "STATE:READY")))
                (exec (step (reader_puts (q_serial "DEBUG: tick")))
                   (exec (step (do_toggle_connection
                                  (Ok {| is_open := true; faulty := false;
                                         failure := "" |})))
                      (exec (step (user_sets_port "COM3")) (init noon))))) in
  is_connected s = true
  /\ map fst (log_buffer s)
     = ["[12:00:00] Connected to COM3"; "[12:00:00] << DEBUG: tick";
        "[12:00:00] << STATE:READY"]
  /\ map fst (log_text s)
     = ["[12:00:00] Connected to COM3" +++ nl;
        "[12:00:00] << STATE:READY" +++ nl]
  /\ log_text s = visible_entries (debug_filter_var s) (log_buffer s).
Proof.
  split; [reflexivity|]. split; [reflexivity|]. split; [reflexivity|].
  apply (@reachable_display_matches_buffer noon).
  do 5 apply reachable_step. apply reachable_init.
Defined.

(** *** Frame command *)

Lemma send_frame_command_rejects s c d :
  frame_count_var s = Ok c -> interframe_delay_var s = Ok d ->
  ~ (1 <= c <= 1000 /\ 5 <= d) ->
  exists box, In box frame_rejections /\
    send_frame_command s = (Ok tt, set_dialogs (dialogs s ++ [box]) s).
Proof.
  intros Hc Hd Hbad. unfold send_frame_command, frame_rejections, show. mred.
  rewrite Hc, Hd.
  destruct (Z.ltb_spec c 1); [eexists; split; [left; reflexivity|reflexivity]|].
  destruct (Z.ltb_spec 1000 c); [eexists; split; [left; reflexivity|reflexivity]|].
  destruct (Z.ltb_spec d 5);
    [eexists; split; [right; left; reflexivity|reflexivity]|].
  lia.
Qed.

Lemma send_frame_command_accepts s c d p :
  frame_count_var s = Ok c -> interframe_delay_var s = Ok d ->
  1 <= c <= 1000 -> 5 <= d ->
  is_connected s = true -> serial_port s = Some p ->
  is_open p = true -> faulty p = false ->
  wire (exec send_frame_command s) = wire s ++ [frame_text c d +++ nl]
  /\ dialogs (exec send_frame_command s) = dialogs s.
Proof.
  intros Hc Hd Rc Rd Hi Hp Ho Hf. unfold send_frame_command, show. mred.
  rewrite Hc, Hd.
  destruct (Z.ltb_spec c 1); [lia|].
  destruct (Z.ltb_spec 1000 c); [lia|].
  destruct (Z.ltb_spec d 5); [lia|].
  destruct (send_command_run_wire_connected (frame_text c d) _ Hi Hp Ho Hf)
    as (s' & E & Hw & Hdl).
  unfold frame_text in E. rewrite E. cbn [snd]. now rewrite Hw, Hdl.
Qed.

(** [send_frame_command] accepts exactly the frame counts 1..1000 with a
    delay of at least 5 ms, although the two entry fields allow values up
    to 1000000.  Accepted and connected, it writes
    ["frame,<count>,<delay>"] and a line feed; rejected, it shows one error
    box and changes nothing else. *)
Theorem frame_command_validation s c d :
  frame_count_var s = Ok c -> interframe_delay_var s = Ok d ->
  let valid := 1 <= c <= 1000 /\ 5 <= d in
  (~ valid ->
   exists box, In box frame_rejections /\
     send_frame_command s = (Ok tt, set_dialogs (dialogs s ++ [box]) s))
  /\ (valid -> ready s ->
      wire (exec send_frame_command s) = wire s ++ [frame_text c d +++ nl]
      /\ dialogs (exec send_frame_command s) = dialogs s).
Proof.
  intros Hc Hd valid. subst valid. split.
  - now apply send_frame_command_rejects.
  - intros [Rc Rd] (Hi & p & Hp & Ho & Hf).
    now apply send_frame_command_accepts with (p := p).
Qed.

Lemma frame_command_validation_witness :
  wire (exec send_frame_command
          (set_frame_count_var (Ok 1000) (connected noon)))
  = ["frame,1000,10" +++ nl]
  /\ wire (exec send_frame_command
             (set_frame_count_var (Ok 1001) (connected noon))) = [].
Proof.
  split.
  - destruct (@frame_command_validation
                (set_frame_count_var (Ok 1000) (connected noon)) 1000 10
                eq_refl eq_refl) as (_ & H).
    apply H; [lia|].
    split; [reflexivity|].
    exists {| is_open := true; faulty := false; failure := "" |}. repeat split.
  - destruct (@frame_command_validation
                (set_frame_count_var (Ok 1001) (connected noon)) 1001 10
                eq_refl eq_refl) as (H & _).
    destruct H as (box & _ & E); [lia|].
    unfold exec. rewrite E. reflexivity.
Defined.

(** *** Numeric acknowledgments *)

Lemma handle_GROUP_TOTAL payload s :
  handle_serial_message ("GROUP_TOTAL:" +++ payload) s =
  match parse_int payload with
  | Some n =>
      update_group_id_list
        (set_group_total_var (Ok n)
           (snd (log_message ("<< GROUP_TOTAL:" +++ payload) None s)))
  | None => (Ok tt, snd (log_message ("<< GROUP_TOTAL:" +++ payload) None s))
  end.
Proof.
  unfold handle_serial_message. mred. rewrite !log_message_run. prefixes.
  change ("GROUP_TOTAL:" +++ payload)
    with ("GROUP_TOTAL" +++ String ":"%char payload).
  rewrite payload_after_tag by reflexivity. cbn [nth_error].
  destruct (parse_int payload) as [n|]; [|reflexivity].
  repeat match goal with
         | |- context [update_group_id_list ?st] =>
             rewrite (@update_group_id_list_run st n) by reflexivity
         end.
  reflexivity.
Qed.

Lemma handle_FRAME_COUNT payload s :
  handle_serial_message ("FRAME_COUNT:" +++ payload) s =
  (Ok tt,
   let s1 := snd (log_message ("<< FRAME_COUNT:" +++ payload) None s) in
   match parse_int payload with
   | Some n => set_frame_count_var (Ok n) s1
   | None => s1
   end).
Proof.
  unfold handle_serial_message. mred. rewrite !log_message_run. prefixes.
  change ("FRAME_COUNT:" +++ payload)
    with ("FRAME_COUNT" +++ String ":"%char payload).
  rewrite payload_after_tag by reflexivity. cbn [nth_error].
  destruct (parse_int payload); reflexivity.
Qed.

Lemma handle_INTERFRAME_DELAY payload s :
  handle_serial_message ("INTERFRAME_DELAY:" +++ payload) s =
  (Ok tt,
   let s1 := snd (log_message ("<< INTERFRAME_DELAY:" +++ payload) None s) in
   match parse_int payload with
   | Some n => set_interframe_delay_var (Ok n) s1
   | None => s1
   end).
Proof.
  unfold handle_serial_message. mred. rewrite !log_message_run. prefixes.
  change ("INTERFRAME_DELAY:" +++ payload)
    with ("INTERFRAME_DELAY" +++ String ":"%char payload).
  rewrite payload_after_tag by reflexivity. cbn [nth_error].
  destruct (parse_int payload); reflexivity.
Qed.

(** The three numeric acknowledgments store the number that their payload
    reads as, without any range check; a payload that is not a number
    leaves the device state, the group list and the selected group as they
    were.  A group total also rebuilds the list of group ids. *)
Theorem numeric_acknowledgments payload s :
  let g := exec (handle_serial_message ("GROUP_TOTAL:" +++ payload)) s in
  let f := exec (handle_serial_message ("FRAME_COUNT:" +++ payload)) s in
  let d := exec (handle_serial_message ("INTERFRAME_DELAY:" +++ payload)) s in
  match parse_int payload with
  | Some n =>
      group_total_var g = Ok n
      /\ group_id_combo g = map str (range1 (Z.max n 1))
      /\ frame_count_var f = Ok n
      /\ interframe_delay_var d = Ok n
  | None =>
      device_state g = device_state s
      /\ group_id_combo g = group_id_combo s
      /\ group_id_var g = group_id_var s
      /\ device_state f = device_state s
      /\ device_state d = device_state s
  end.
Proof.
  cbv zeta. unfold exec.
  rewrite handle_GROUP_TOTAL, handle_FRAME_COUNT, handle_INTERFRAME_DELAY.
  cbv zeta.
  destruct (log_message_frame ("<< GROUP_TOTAL:" +++ payload) None s)
    as (lb1 & lt1 & -> & _).
  destruct (log_message_frame ("<< FRAME_COUNT:" +++ payload) None s)
    as (lb2 & lt2 & -> & _).
  destruct (log_message_frame ("<< INTERFRAME_DELAY:" +++ payload) None s)
    as (lb3 & lt3 & -> & _).
  destruct (parse_int payload) as [n|]; [|repeat split].
  match goal with
  | |- context [update_group_id_list ?st] =>
      rewrite (@update_group_id_list_run st n) by reflexivity
  end.
  cbv zeta. cbn [snd].
  match goal with
  | |- context [match ?x with Some _ => _ | None => _ end] =>
      destruct x as [i|]; [destruct (Z.max n 1 <? i)|]
  end; repeat split.
Qed.

(** *** Device entries *)

Lemma device_id_of_entry i :
  hd EmptyString (split " " (device_entry i)) = zero_pad 3 i.
Proof.
  unfold device_entry.
  change (zero_pad 3 i +++ " - Device " +++ str i)
    with (zero_pad 3 i +++ String " "%char ("- Device " +++ str i)).
  rewrite split_first by (apply zero_pad_no_sep; reflexivity).
  reflexivity.
Qed.

Lemma handle_TOTAL_run payload n s :
  parse_int payload = Some n ->
  handle_serial_message ("TOTAL:" +++ payload) s =
  (Ok tt,
   let s1 := snd (log_message ("<< TOTAL:" +++ payload) None s) in
   let s2 := set_servo_device_combo
               ("000 - All" :: map device_entry (range1 n))
               (set_total_devices (Ok n) s1) in
   let s3 := if String.eqb (servo_target_mode s) "all"
             then set_servo_device_var "000 - All" s2 else s2 in
   set_led_device_var (if 1 <=? n then "001 - Device 1" else "")
     (set_led_device_combo (map device_entry (range1 n)) s3)).
Proof.
  intros Hn. unfold handle_serial_message. mred. rewrite !log_message_run.
  prefixes.
  change ("TOTAL:" +++ payload) with ("TOTAL" +++ String ":"%char payload).
  rewrite payload_after_tag by reflexivity.
  cbn [nth_error]. rewrite Hn.
  match goal with
  | |- context [update_servo_device_list ?st] =>
      rewrite (@update_servo_device_list_run st n) by reflexivity
  end.
  cbv zeta.
  match goal with
  | |- context [update_led_device_list ?st] =>
      rewrite (@update_led_device_list_run st n)
        by (destruct (String.eqb _ _); reflexivity)
  end.
  cbv zeta.
  destruct (should_filter_message s _); reflexivity.
Qed.

(** After ["TOTAL:<n>"] the two device lists offer one entry per device
    1..n (the servo list after its entry for all devices), the LED
    selection is the first device if there is one and empty otherwise,
    and the device id that the command methods cut from any offered entry
    is the three-digit index of a device in 1..n. *)
Theorem device_lists_follow_total n s :
  let s' := exec (handle_serial_message ("TOTAL:" +++ str n)) s in
  servo_device_combo s' = "000 - All" :: map device_entry (range1 n)
  /\ led_device_combo s' = map device_entry (range1 n)
  /\ led_device_var s' = (if 1 <=? n then "001 - Device 1" else "")
  /\ List.length (led_device_combo s') = Z.to_nat n
  /\ forall entry, In entry (led_device_combo s') ->
       exists i, 1 <= i <= n
                 /\ entry = device_entry i
                 /\ hd EmptyString (split " " entry) = zero_pad 3 i.
Proof.
  cbv zeta. unfold exec.
  rewrite (handle_TOTAL_run (str n) s (parse_int_str n)). cbv zeta. cbn [snd].
  destruct (log_message_frame ("<< TOTAL:" +++ str n) None s)
    as (lb & lt & -> & _).
  assert (E : forall b (x y : state), led_device_combo
                (set_led_device_var b
                   (set_led_device_combo (map device_entry (range1 n)) x))
              = map device_entry (range1 n)) by reflexivity.
  destruct (String.eqb (servo_target_mode s) "all");
    (split; [reflexivity|split; [reflexivity|split; [reflexivity|]]]);
    psimpl;
    (split; [unfold range1; now rewrite !length_map, length_seq|]);
    intros entry Hin; apply in_map_iff in Hin as (i & <- & Hi);
    unfold range1 in Hi; apply in_map_iff in Hi as (k & <- & Hk);
    apply in_seq in Hk; exists (Z.of_nat k);
    (split; [lia|split; [reflexivity|apply device_id_of_entry]]).
Qed.

(** In individual mode, with an entry of the device list selected, the
    servo command is addressed to the three-digit index of that device. *)
Theorem servo_command_to_one_device s i a :
  String.eqb (servo_target_mode s) "all" = false ->
  servo_device_var s = device_entry i ->
  servo_angle_var s = Ok a -> 60 <= a <= 120 -> ready s ->
  wire (exec send_servo_command s)
  = wire s ++ [(zero_pad 3 i +++ ",servo," +++ str a) +++ nl].
Proof.
  intros Hm Hd Ha Hr (Hc & p & Hp & Ho & Hf).
  destruct (@send_servo_command_in_range s a p Ha Hr Hc Hp Ho Hf) as [H _].
  rewrite H, Hm, Hd, device_id_of_entry. reflexivity.
Qed.


Lemma servo_command_to_one_device_witness :
  wire (exec (select_servo_target "individual" ;;
              modify (set_servo_device_var (device_entry 12)) ;;
              send_servo_command) (connected noon))
  = ["012,servo,90" +++ nl].
Proof.
  apply (@servo_command_to_one_device
           (set_servo_device_var (device_entry 12)
              (exec (select_servo_target "individual") (connected noon)))
           12 90 eq_refl eq_refl eq_refl); [lia|].
  split; [reflexivity|].
  exists {| is_open := true; faulty := false; failure := "" |}. repeat split.
Defined.

(** *** Commands that ask first *)

(** The emergency and the start command ask first.  Declined, they write
    nothing and log nothing: the question is all that happens.  Confirmed
    and connected, they write ["emergency"] or ["start"] and a line feed.
    A confirmed emergency logs ["EMERGENCY SHUTDOWN SENT"] as an error
    entry even when there is no connection and nothing was written. *)
Theorem confirmation_before_sending s :
  send_emergency_command false s
  = (Ok tt, set_dialogs (dialogs s ++ [emergency_question]) s)
  /\ send_start_command false s
     = (Ok tt, set_dialogs (dialogs s ++ [start_question]) s)
  /\ (ready s ->
      wire (exec (send_emergency_command true) s) = wire s ++ ["emergency" +++ nl]
      /\ wire (exec (send_start_command true) s) = wire s ++ ["start" +++ nl])
  /\ (is_connected s = false ->
      let s' := exec (send_emergency_command true) s in
      wire s' = wire s
      /\ dialogs s' = dialogs s ++ [emergency_question; not_connected_warning]
      /\ log_buffer s' =
         log_buffer s
         ++ [(stamp s +++ " " +++ "EMERGENCY SHUTDOWN SENT", Some tag_error)]).
Proof.
  split; [reflexivity|split; [reflexivity|split]].
  - intros (Hc & p & Hp & Ho & Hf).
    unfold send_emergency_command, send_start_command, show, exec, bind, modify.
    destruct (send_command_run_wire_connected "emergency"
                (set_dialogs (dialogs s ++ [askyesno "Emergency" "Execute emergency shutdown?"]) s)
                Hc Hp Ho Hf) as (s1 & E1 & W1 & _).
    destruct (send_command_run_wire_connected "start"
                (set_dialogs (dialogs s ++ [askyesno "Execute" "Start program?"]) s)
                Hc Hp Ho Hf) as (s2 & E2 & W2 & _).
    rewrite E1, E2. cbn [snd]. split; [|exact W2].
    destruct (log_message_frame "EMERGENCY SHUTDOWN SENT" (Some tag_error) s1)
      as (lb & lt & E & _).
    rewrite E. exact W1.
  - intros Hc. cbv zeta.
    unfold send_emergency_command, show, exec, bind, modify.
    rewrite send_command_not_connected by (left; exact Hc).
    rewrite log_message_run. cbv zeta. cbn [snd].
    match goal with
    | |- context [should_filter_message ?st ?m] =>
        destruct (should_filter_message st m)
    end; psimpl; rewrite <- ?app_assoc; repeat split.
Qed.

Lemma confirmation_before_sending_witness :
  wire (exec (send_emergency_command true) (connected noon))
  = ["emergency" +++ nl]
  /\ log_buffer (exec (send_emergency_command true) (init noon))
     = [("[12:00:00] EMERGENCY SHUTDOWN SENT", Some tag_error)].
Proof.
  split.
  - destruct (confirmation_before_sending (connected noon)) as (_ & _ & H & _).
    apply H. split; [reflexivity|].
    exists {| is_open := true; faulty := false; failure := "" |}. repeat split.
  - destruct (confirmation_before_sending (init noon)) as (_ & _ & _ & H).
    apply (H eq_refl).
Defined.

(** *** Acknowledged frame settings come back in the frame command *)

(** The frame count and the interframe delay that the device acknowledges
    are what the next frame command carries: decoding the two
    acknowledgments and encoding the command gives back the numbers, when
    they pass the range check of the command. *)
Theorem acknowledged_frame_settings_are_sent c d s :
  1 <= c <= 1000 -> 5 <= d -> ready s ->
  wire (exec (handle_serial_message ("FRAME_COUNT:" +++ str c) ;;
              handle_serial_message ("INTERFRAME_DELAY:" +++ str d) ;;
              send_frame_command) s)
  = wire s ++ [frame_text c d +++ nl].
Proof.
  intros Rc Rd (Hc & p & Hp & Ho & Hf). unfold exec, bind.
  rewrite handle_FRAME_COUNT, parse_int_str. cbv zeta.
  rewrite handle_INTERFRAME_DELAY, parse_int_str. cbv zeta.
  destruct (log_message_frame ("<< FRAME_COUNT:" +++ str c) None s)
    as (lb1 & lt1 & -> & _).
  match goal with
  | |- context [log_message ?m None ?st] =>
      destruct (log_message_frame m None st) as (lb2 & lt2 & -> & _)
  end.
  match goal with
  | |- wire (snd (send_frame_command ?st)) = _ =>
      destruct (@send_frame_command_accepts st c d p eq_refl eq_refl Rc Rd
                  Hc Hp Ho Hf) as [H _]
  end.
  exact H.
Qed.

Lemma acknowledged_frame_settings_are_sent_witness :
  wire (exec (handle_serial_message "FRAME_COUNT:25" ;;
              handle_serial_message "INTERFRAME_DELAY:40" ;;
              send_frame_command) (connected noon))
  = ["frame,25,40" +++ nl].
Proof.
  apply (@acknowledged_frame_settings_are_sent 25 40 (connected noon));
    [lia|lia|].
  split; [reflexivity|].
  exists {| is_open := true; faulty := false; failure := "" |}. repeat split.
Defined.

(** *** The program line determines its parameters *)

Lemma split_program_text device_id gid gt ma ex :
  all_chars (differs ","%char) device_id = true ->
  split "," (program_text device_id gid gt ma ex)
  = [device_id; "program"; "{" +++ str gid; str gt; str ma; str ex +++ "}"].
Proof.
  intros Hd. unfold program_text.
  change (device_id +++ ",program,{" +++ str gid +++ "," +++ str gt +++ ","
          +++ str ma +++ "," +++ str ex +++ "}")
    with (device_id +++ String ","%char
            ("program" +++ String ","%char
               (("{" +++ str gid) +++ String ","%char
                  (str gt +++ String ","%char
                     (str ma +++ String ","%char (str ex +++ "}")))))).
  rewrite split_first by exact Hd.
  rewrite split_first by reflexivity.
  rewrite split_first
    by (change ("{" +++ str gid) with (String "{"%char (str gid));
        cbn [all_chars]; rewrite str_no_sep by reflexivity; reflexivity).
  rewrite split_first by (apply str_no_sep; reflexivity).
  rewrite split_first by (apply str_no_sep; reflexivity).
  rewrite split_no_sep
    by (rewrite all_chars_app, str_no_sep by reflexivity; reflexivity).
  reflexivity.
Qed.

(** Cut at its commas, the program line gives back the device id and the
    four numbers: two program commands that put the same line on the wire
    address the same device with the same group, total, current and
    exposure. *)
Theorem program_line_determines_parameters
        device_id gid gt ma ex device_id' gid' gt' ma' ex' :
  all_chars (differs ","%char) device_id = true ->
  all_chars (differs ","%char) device_id' = true ->
  program_text device_id gid gt ma ex = program_text device_id' gid' gt' ma' ex' ->
  device_id = device_id' /\ gid = gid' /\ gt = gt' /\ ma = ma' /\ ex = ex'.
Proof.
  intros Hd Hd' H. apply (f_equal (split ","%char)) in H.
  rewrite !split_program_text in H by assumption.
  injection H as H1 H2 H3 H4 H5.
  apply str_inj in H3, H4.
  apply str_inj in H2.
  assert (E : ex = ex').
  { change (str ex +++ "}") with (str ex +++ String "}"%char "") in H5.
    change (str ex' +++ "}") with (str ex' +++ String "}"%char "") in H5.
    apply append_sep_inj in H5 as [H5 _];
      try (apply str_no_sep; reflexivity).
    now apply str_inj. }
  repeat split; assumption.
Qed.

Lemma program_line_determines_parameters_witness :
  program_text "001" 3 3 0 10 = "001,program,{3,3,0,10}"
  /\ ("001" = "001" /\ 3 = 3 /\ 3 = 3 /\ 0 = 0 /\ 10 = 10).
Proof.
  split; [reflexivity|].
  apply (@program_line_determines_parameters "001" 3 3 0 10 "001" 3 3 0 10
           eq_refl eq_refl eq_refl).
Defined.

(** *** Export *)

Lemma visible_entries_unfiltered buffer :
  map fst (visible_entries false buffer)
  = map (fun entry : string * option tag => fst entry +++ nl) buffer.
Proof.
  induction buffer as [|[m tg] b IH]; [reflexivity|].
  cbn [visible_entries flat_map andb map fst app].
  f_equal. exact IH.
Qed.

Lemma visible_entries_incl flag buffer line :
  In line (map fst (visible_entries flag buffer)) ->
  In line (map (fun entry : string * option tag => fst entry +++ nl) buffer).
Proof.
  induction buffer as [|[m tg] b IH]; [intros []|].
  cbn [visible_entries flat_map map fst].
  fold (visible_entries flag b).
  destruct (flag && contains "DEBUG:" (original_msg m)).
  - intros H. right. apply IH. exact H.
  - cbn [app map fst]. intros [H|H]; [left; exact H|right; apply IH; exact H].
Qed.

(** The export writes the whole buffer, also what the filter hides from
    the display.  In every state the client can reach: every displayed
    line is an exported line; with the filter off the exported lines are
    exactly the displayed ones; clicking the filter does not change what
    an export would write. *)
Theorem export_writes_whole_buffer clk s :
  reachable clk s ->
  (forall line, In line (map fst (log_text s)) -> In line (export_writes s))
  /\ (debug_filter_var s = false -> map fst (log_text s) = export_writes s)
  /\ export_writes (exec click_debug_filter s) = export_writes s.
Proof.
  intros R. apply reachable_display_consistent in R.
  unfold display_consistent in R. unfold export_writes.
  split; [|split].
  - intros line. rewrite R. apply visible_entries_incl.
  - intros F. rewrite R, F. apply visible_entries_unfiltered.
  - unfold exec. rewrite click_debug_filter_run. reflexivity.
Qed.

Lemma export_writes_whole_buffer_witness :
  let s := exec (step do_process_queue)
             (exec (step (reader_puts (q_serial "DEBUG: tick")))
                (exec (step (do_toggle_connection
                               (Ok {| is_open := true; faulty := false;
                                      failure := "" |})))
                   (exec (step (user_sets_port "COM3")) (init noon)))) in
  is_connected s = true
  /\ map fst (log_text s) = ["[12:00:00] Connected to COM3" +++ nl]
  /\ export_writes s
     = ["[12:00:00] Connected to COM3" +++ nl;
        "[12:00:00] << DEBUG: tick" +++ nl]
  /\ export_writes (exec click_debug_filter s) = export_writes s.
Proof.
  split; [reflexivity|]. split; [reflexivity|]. split; [reflexivity|].
  apply (@export_writes_whole_buffer noon).
  do 4 apply reachable_step. apply reachable_init.
Defined.

Lemma split_lines messages :
  Forall (fun m => all_chars (differs "010"%char) m = true) messages ->
  split "010"%char (String.concat "" (map (fun m => m +++ nl) messages))
  = messages ++ [""].
Proof.
  induction 1 as [|m ms Hm _ IH]; [reflexivity|].
  cbn [map]. rewrite concat_cons.
  unfold nl at 1. rewrite append_assoc.
  change (String "010"%char "" +++ ?x) with (String "010"%char x).
  rewrite split_first by exact Hm. rewrite IH. reflexivity.
Qed.

(** The exported file read back: cut at its line feeds, the text that
    [export_log] writes gives the messages of the buffer, in order, and
    an empty string after the last line feed, when no message holds a
    line feed of its own. *)
Theorem export_read_back s :
  Forall (fun m => all_chars (differs "010"%char) m = true)
         (map fst (log_buffer s)) ->
  split "010"%char (export_text s) = map fst (log_buffer s) ++ [""].
Proof.
  intros H. unfold export_text, export_writes.
  rewrite <- (split_lines H). rewrite map_map. reflexivity.
Qed.

Lemma export_read_back_witness :
  split "010"%char
        (export_text (exec (log_message "one" None ;; log_message "two" None)
                           (init noon)))
  = ["[12:00:00] one"; "[12:00:00] two"; ""].
Proof.
  apply (@export_read_back
           (exec (log_message "one" None ;; log_message "two" None) (init noon))).
  repeat constructor.
Defined.

End SolarControllerMore.

(** *** The V1 variant *)

Module SOLARGUIMore.
Import Py PyFacts StringFacts SOLARGUI SOLARGUIFacts Frames.
Local Open Scope list_scope.
Local Infix "+++" := String.append (right associativity, at level 60).

(** Reduction of projections applied to setters. *)
Ltac psimpl' :=
  cbn [serial_port is_connected wire total_devices system_state
       ina226_status servo_target_var servo_device_var servo_angle_var
       current_target_var current_device_var current_value_var
       filter_debug_var log_text device_count_label state_label
       ina226_label connect_btn connection_status port_var baud_var
       servo_device_combo current_device_combo dialogs after_queue clock
       ticks set_serial_port set_is_connected set_wire set_total_devices
       set_system_state set_ina226_status set_servo_device_var
       set_servo_angle_var set_current_device_var set_current_value_var
       set_filter_debug_var set_log_text set_device_count_label
       set_state_label set_ina226_label set_connect_btn
       set_connection_status set_servo_device_combo
       set_current_device_combo set_dialogs set_after_queue set_ticks
       set_servo_target_var set_current_target_var set_port_var set_baud_var
       is_open faulty fst snd] in *.

(** Unfold the methods down to the monad. *)
Ltac methods :=
  unfold step, run_command, toggle_connection, get_status, reinitialize,
    get_current_status, emergency_shutdown, set_servo, set_current,
    set_servo_angle, set_current_value, send_command, process_serial_data,
    update_device_lists, select_servo_target, select_current_target,
    update_servo_device_list, update_current_device_list, click_filter_debug,
    clear_log, log_message, show, after, write, close.

Ltac frame := methods; auto 80 with frame.

(** *** What an inbound line can change *)

Lemma process_INA226 payload s :
  process_serial_data ("INA226:" +++ payload) s =
  (Ok tt,
   let field := hd EmptyString (split ":" payload) in
   set_ina226_label field (set_ina226_status field s)).
Proof.
  unfold process_serial_data. mred. prefixes.
  change ("INA226:" +++ payload) with ("INA226" +++ String ":"%char payload).
  rewrite second_field by reflexivity. reflexivity.
Qed.

(** An inbound line never makes the client transmit, never touches the
    connection or what the window says of it, and never opens a dialog,
    whatever the line is and also when the method raises. *)
Theorem inbound_line_touches_no_transport data s :
  let s' := exec (process_serial_data data) s in
  wire s' = wire s
  /\ link s' = link s
  /\ link_display s' = link_display s
  /\ dialogs s' = dialogs s.
Proof.
  cbv zeta. unfold exec.
  assert (Hw : preserves wire (process_serial_data data)) by frame.
  assert (Hl : preserves link (process_serial_data data)) by frame.
  assert (Hb : preserves link_display (process_serial_data data)) by frame.
  assert (Hd : preserves dialogs (process_serial_data data)) by frame.
  repeat split; [apply Hw|apply Hl|apply Hb|apply Hd].
Qed.

(** The status lines of the device ([TOTAL:], [STATE:], [INA226:]) are
    decoded and never logged: the log stays as it was, also when the
    total does not read as a number and [int] raises. *)
Theorem status_lines_are_not_logged data s :
  is_status_line data = true ->
  log_text (exec (process_serial_data data) s) = log_text s.
Proof.
  unfold is_status_line. intros H. unfold exec.
  apply orb_true_iff in H as [H|H]; [apply orb_true_iff in H as [H|H]|];
    apply startswith_split in H as [r ->].
  - change (String.append "TOTAL:" r) with ("TOTAL:" +++ r).
    rewrite process_TOTAL. destruct (parse_int _); reflexivity.
  - change (String.append "STATE:" r) with ("STATE:" +++ r).
    rewrite process_STATE. reflexivity.
  - change (String.append "INA226:" r) with ("INA226:" +++ r).
    rewrite process_INA226. reflexivity.
Qed.

Lemma status_lines_are_not_logged_witness :
  log_text (exec (process_serial_data "TOTAL:abc") (init noon)) = []
  /\ outcome (process_serial_data "TOTAL:abc") (init noon)
     = Raise (ValueError "invalid literal for int() with base 10: 'abc'").
Proof.
  split; [|reflexivity].
  apply (@status_lines_are_not_logged "TOTAL:abc" (init noon) eq_refl).
Defined.



(** *** Commands *)

(** The command methods, and [send_command] with any text, never assign
    the status attributes or the status labels and never touch the
    connection or what the window says of it. *)
Theorem commands_change_no_status a s :
  (exists c, a = do_command c) \/ (exists command, a = do_send_command command) ->
  let s' := exec (step a) s in
  device_state s' = device_state s
  /\ status_labels s' = status_labels s
  /\ link s' = link s
  /\ link_display s' = link_display s.
Proof.
  intros H. cbv zeta. unfold exec.
  assert (P1 : preserves device_state (step a))
    by (destruct H as [[[] ->]|[c ->]]; frame).
  assert (P2 : preserves status_labels (step a))
    by (destruct H as [[[] ->]|[c ->]]; frame).
  assert (P3 : preserves link (step a))
    by (destruct H as [[[] ->]|[c ->]]; frame).
  assert (P4 : preserves link_display (step a))
    by (destruct H as [[[] ->]|[c ->]]; frame).
  repeat split; [apply P1|apply P2|apply P3|apply P4].
Qed.

Lemma commands_change_no_status_witness :
  device_state (exec (step (do_command do_reinitialize))
                  (set_total_devices 4 (connected noon)))
  = (4, "Unknown", "Unknown").
Proof.
  apply (@commands_change_no_status (do_command do_reinitialize)
           (set_total_devices 4 (connected noon))).
  left. now exists do_reinitialize.
Defined.

Lemma send_command_offline_frame command s :
  is_connected s = false \/ serial_port s = None ->
  let s' := snd (send_command command s) in
  wire s' = wire s /\ log_text s' = log_text s
  /\ dialogs s' = dialogs s ++ [not_connected_error].
Proof.
  intros H. cbv zeta. rewrite (send_command_offline _ _ H). repeat split.
Qed.

(** Without a connection no command writes to the device or to the log:
    the command methods, and [send_command] with any text, leave the wire
    and the log as they were. *)
Theorem commands_without_connection a s :
  (exists c, a = do_command c) \/ (exists command, a = do_send_command command) ->
  is_connected s = false \/ serial_port s = None ->
  let s' := exec (step a) s in
  wire s' = wire s /\ log_text s' = log_text s.
Proof.
  intros Ha H. cbv zeta. unfold exec.
  destruct Ha as [[c ->]|[command ->]]; cbn [step];
    [|destruct (send_command_offline_frame command s H) as (? & ? & _);
      now split].
  destruct c as [| | |answer| |]; cbn [run_command];
    unfold get_status, reinitialize, get_current_status, emergency_shutdown,
      set_servo, set_current.
  - destruct (send_command_offline_frame "status" s H) as (? & ? & _); now split.
  - destruct (send_command_offline_frame "reinit" s H) as (? & ? & _); now split.
  - destruct (send_command_offline_frame "current" s H) as (? & ? & _); now split.
  - unfold show, bind, modify. destruct answer; [|now split].
    match goal with
    | |- context [send_command ?c ?st] =>
        destruct (send_command_offline_frame c st H) as (? & ? & _)
    end.
    now split.
  - unfold bind, get. destruct (servo_angle_var s) as [v|]; [|now split].
    cbn [IntVar_get ret].
    match goal with
    | |- context [send_command ?c s] =>
        destruct (send_command_offline_frame c s H) as (? & ? & _)
    end.
    now split.
  - unfold bind, get. destruct (current_value_var s) as [v|]; [|now split].
    cbn [IntVar_get ret].
    match goal with
    | |- context [send_command ?c s] =>
        destruct (send_command_offline_frame c s H) as (? & ? & _)
    end.
    now split.
Qed.

Lemma commands_without_connection_witness :
  let s' := exec (step (do_command (do_emergency_shutdown true))) (init noon) in
  wire s' = [] /\ log_text s' = [].
Proof.
  apply (@commands_without_connection
           (do_command (do_emergency_shutdown true)) (init noon)).
  - left. now exists (do_emergency_shutdown true).
  - left. reflexivity.
Defined.

(** *** Device lists and target modes *)

Lemma mem_In x l : mem x l = true <-> In x l.
Proof.
  unfold mem. rewrite existsb_exists. split.
  - intros (y & Hy & E). apply String.eqb_eq in E. now subst.
  - intros H. exists x. split; [exact H|apply String.eqb_refl].
Qed.

Lemma first_device_listed n : 0 < n -> In "001" (device_list n).
Proof.
  intros H. right. apply in_map_iff. exists 1. split; [reflexivity|].
  unfold range1. apply in_map_iff. exists 1%nat. split; [reflexivity|].
  apply in_seq. lia.
Qed.

Lemma device_list_length n : List.length (device_list n) = S (Z.to_nat n).
Proof.
  unfold device_list, range1. cbn [List.length].
  now rewrite !length_map, length_seq.
Qed.

Lemma update_device_lists_run s :
  update_device_lists s =
  (Ok tt,
   if 0 <? total_devices s then
     let entries := device_list (total_devices s) in
     let s1 := set_servo_device_combo entries s in
     let s2 := if mem (servo_device_var s) entries then s1
               else set_servo_device_var "000" s1 in
     let s3 := set_current_device_combo entries s2 in
     if mem (current_device_var s) entries then s3
     else set_current_device_var "000" s3
   else s).
Proof.
  destruct s. unfold update_device_lists, device_list. mred. psimpl'.
  match goal with |- context [0 <? ?n] => destruct (0 <? n) end;
    [|reflexivity].
  match goal with
  | |- context [mem ?x ?l] => destruct (mem x l)
  end;
    match goal with
    | |- context [mem ?x ?l] => destruct (mem x l)
    end; reflexivity.
Qed.

(** With a positive device count, [update_device_lists] fills both lists
    with ["000"] and one three-digit entry per device, keeps a selection
    that is among them, and moves any other selection to ["000"]: both
    selections are entries of their lists afterwards. *)
Theorem device_lists_offer_the_selection s :
  0 < total_devices s ->
  let s' := exec update_device_lists s in
  let entries := device_list (total_devices s) in
  servo_device_combo s' = entries
  /\ current_device_combo s' = entries
  /\ List.length entries = S (Z.to_nat (total_devices s))
  /\ servo_device_var s'
     = (if mem (servo_device_var s) entries then servo_device_var s else "000")
  /\ current_device_var s'
     = (if mem (current_device_var s) entries then current_device_var s
        else "000")
  /\ In (servo_device_var s') (servo_device_combo s')
  /\ In (current_device_var s') (current_device_combo s').
Proof.
  intros Hn. cbv zeta. unfold exec. rewrite update_device_lists_run.
  apply Z.ltb_lt in Hn. rewrite Hn. cbv zeta. cbn [snd].
  assert (H0 : In "000" (device_list (total_devices s))) by (left; reflexivity).
  destruct (mem (servo_device_var s) (device_list (total_devices s))) eqn:E1;
    destruct (mem (current_device_var s) (device_list (total_devices s))) eqn:E2;
    psimpl';
    repeat split; try apply device_list_length; try exact H0;
    try (apply mem_In; exact E1); try (apply mem_In; exact E2).
Qed.

Lemma device_lists_offer_the_selection_witness :
  let s' := exec update_device_lists
              (set_servo_device_var "007" (set_total_devices 2 (init noon))) in
  servo_device_combo s' = ["000"; "001"; "002"]
  /\ servo_device_var s' = "000".
Proof.
  destruct (@device_lists_offer_the_selection
              (set_servo_device_var "007" (set_total_devices 2 (init noon))))
    as (H1 & _ & _ & H4 & _); [reflexivity|].
  split; [exact H1|exact H4].
Defined.

(** A device count that is not positive leaves the lists as they are:
    after ["TOTAL:<n>"] and then ["TOTAL:0"], each followed by the
    scheduled [update_device_lists], the count is 0, the label shows 0,
    and both lists still offer the [n] devices of before. *)
Theorem device_lists_outlive_the_devices n s :
  0 < n ->
  let s' := exec (process_serial_data ("TOTAL:" +++ str n) ;;
                  update_device_lists ;;
                  process_serial_data "TOTAL:0" ;;
                  update_device_lists) s in
  total_devices s' = 0
  /\ device_count_label s' = "0"
  /\ servo_device_combo s' = device_list n
  /\ current_device_combo s' = device_list n.
Proof.
  intros Hn. cbv zeta. unfold exec, bind.
  rewrite process_TOTAL.
  rewrite split_no_sep by (apply str_no_sep; reflexivity).
  cbn [hd]. rewrite parse_int_str.
  rewrite update_device_lists_run. psimpl'.
  apply Z.ltb_lt in Hn. rewrite Hn. cbv zeta.
  change "TOTAL:0" with ("TOTAL:" +++ "0").
  rewrite process_TOTAL.
  change (parse_int (hd EmptyString (split ":" "0"))) with (Some 0).
  cbv iota beta. rewrite update_device_lists_run.
  repeat match goal with
         | |- context [mem ?x ?l] => destruct (mem x l)
         end; repeat split.
Qed.

Lemma device_lists_outlive_the_devices_witness :
  let s' := exec (process_serial_data ("TOTAL:" +++ str 2) ;;
                  update_device_lists ;;
                  process_serial_data "TOTAL:0" ;;
                  update_device_lists) (init noon) in
  total_devices s' = 0
  /\ device_count_label s' = "0"
  /\ servo_device_combo s' = device_list 2
  /\ current_device_combo s' = device_list 2.
Proof.
  apply (@device_lists_outlive_the_devices 2 (init noon)). lia.
Defined.

Lemma set_current_sends s c p :
  current_value_var s = Ok c ->
  is_connected s = true -> serial_port s = Some p ->
  is_open p = true -> faulty p = false ->
  let device :=
    if String.eqb (current_target_var s) "all" then "000"
    else current_device_var s in
  wire (exec set_current s)
  = wire s ++ [(device +++ ",current," +++ str c) +++ nl].
Proof.
  intros Ha Hc Hp Ho Hf device. subst device.
  unfold set_current. mred. rewrite Ha.
  rewrite (send_command_online _ _ Hc Hp Ho Hf). reflexivity.
Qed.

Lemma select_servo_target_run mode s :
  select_servo_target mode s =
  (Ok tt,
   let s1 := set_servo_target_var mode s in
   if String.eqb mode "all" then set_servo_device_var "000" s1
   else if 0 <? total_devices s then
     let s2 := set_servo_device_combo (device_list (total_devices s)) s1 in
     if mem (servo_device_var s) (device_list (total_devices s)) then s2
     else set_servo_device_var "001" s2
   else s1).
Proof.
  destruct s. unfold select_servo_target, update_servo_device_list, device_list.
  mred. psimpl'.
  destruct (String.eqb mode "all"); [reflexivity|].
  match goal with |- context [0 <? ?n] => destruct (0 <? n) end;
    [|reflexivity].
  match goal with |- context [mem ?x ?l] => destruct (mem x l) end;
    reflexivity.
Qed.

Lemma select_current_target_run mode s :
  select_current_target mode s =
  (Ok tt,
   let s1 := set_current_target_var mode s in
   if String.eqb mode "all" then set_current_device_var "000" s1
   else if 0 <? total_devices s then
     let s2 := set_current_device_combo (device_list (total_devices s)) s1 in
     if mem (current_device_var s) (device_list (total_devices s)) then s2
     else set_current_device_var "001" s2
   else s1).
Proof.
  destruct s.
  unfold select_current_target, update_current_device_list, device_list.
  mred. psimpl'.
  destruct (String.eqb mode "all"); [reflexivity|].
  match goal with |- context [0 <? ?n] => destruct (0 <? n) end;
    [|reflexivity].
  match goal with |- context [mem ?x ?l] => destruct (mem x l) end;
    reflexivity.
Qed.

(** The radio buttons decide whom a command addresses.  After a click on
    a target mode, with devices counted, [set_servo] and [set_current]
    send one line each, with the value as it stands in the variable and
    no range check: to ["000"] in mode [all]; otherwise to the selected
    device if the list offers it and to ["001"] if not.  The address is
    an entry of the device list either way. *)
Theorem target_mode_decides_address mode s a c :
  ready s -> 0 < total_devices s ->
  servo_angle_var s = Ok a -> current_value_var s = Ok c ->
  let entries := device_list (total_devices s) in
  let address selected :=
    if String.eqb mode "all" then "000"
    else if mem selected entries then selected else "001" in
  wire (exec (select_servo_target mode ;; set_servo) s)
  = wire s ++ [(address (servo_device_var s) +++ ",servo," +++ str a) +++ nl]
  /\ wire (exec (select_current_target mode ;; set_current) s)
     = wire s
       ++ [(address (current_device_var s) +++ ",current," +++ str c) +++ nl]
  /\ In (address (servo_device_var s)) entries
  /\ In (address (current_device_var s)) entries.
Proof.
  intros (Hc & p & Hp & Ho & Hf) Hn Ha Hv. cbv zeta.
  assert (H0 : In "000" (device_list (total_devices s))) by (left; reflexivity).
  pose proof (first_device_listed Hn) as H1.
  apply Z.ltb_lt in Hn.
  split; [|split; [|split]].
  - unfold exec, bind. rewrite select_servo_target_run. cbv zeta iota.
    match goal with
    | |- wire (snd (set_servo ?st)) = _ =>
        assert (Ea : servo_angle_var st = Ok a
                     /\ is_connected st = true /\ serial_port st = Some p)
          by (destruct (String.eqb mode "all"), (0 <? total_devices s),
                (mem (servo_device_var s) (device_list (total_devices s)));
              repeat split; assumption);
        destruct Ea as (Ea & Ec & Ep);
        transitivity (wire (exec set_servo st)); [reflexivity|];
        rewrite (set_servo_sends st Ea Ec Ep Ho Hf)
    end.
    rewrite Hn.
    destruct (String.eqb mode "all") eqn:Em;
      [|destruct (mem (servo_device_var s) (device_list (total_devices s)))];
      psimpl'; rewrite Em; reflexivity.
  - unfold exec, bind. rewrite select_current_target_run. cbv zeta iota.
    match goal with
    | |- wire (snd (set_current ?st)) = _ =>
        assert (Ea : current_value_var st = Ok c
                     /\ is_connected st = true /\ serial_port st = Some p)
          by (destruct (String.eqb mode "all"), (0 <? total_devices s),
                (mem (current_device_var s) (device_list (total_devices s)));
              repeat split; assumption);
        destruct Ea as (Ea & Ec & Ep);
        transitivity (wire (exec set_current st)); [reflexivity|];
        rewrite (set_current_sends st Ea Ec Ep Ho Hf)
    end.
    rewrite Hn.
    destruct (String.eqb mode "all") eqn:Em;
      [|destruct (mem (current_device_var s) (device_list (total_devices s)))];
      psimpl'; rewrite Em; reflexivity.
  - destruct (String.eqb mode "all"); [exact H0|].
    destruct (mem (servo_device_var s) _) eqn:E; [now apply mem_In|exact H1].
  - destruct (String.eqb mode "all"); [exact H0|].
    destruct (mem (current_device_var s) _) eqn:E; [now apply mem_In|exact H1].
Qed.

Lemma target_mode_decides_address_witness :
  let s := set_current_device_var "009"
             (set_current_value_var (Ok 2000)
                (set_total_devices 3 (connected noon))) in
  wire (exec (select_current_target "individual" ;; set_current) s)
  = ["001,current,2000" +++ nl].
Proof.
  destruct (@target_mode_decides_address "individual"
              (set_current_device_var "009"
                 (set_current_value_var (Ok 2000)
                    (set_total_devices 3 (connected noon))))
              90 2000) as (_ & H & _).
  - split; [reflexivity|].
    exists {| is_open := true; faulty := false; failure := "" |}. repeat split.
  - reflexivity.
  - reflexivity.
  - reflexivity.
  - exact H.
Defined.

(** *** Connecting and disconnecting *)

Lemma toggle_connection_connect_cases opened s :
  is_connected s = false ->
  let r := toggle_connection opened s in
  let failed e :=
    link (snd r) = link s
    /\ link_display (snd r) = link_display s
    /\ after_queue (snd r) = after_queue s
    /\ dialogs (snd r) = dialogs s ++ [connection_error e]
    /\ log_text (snd r)
       = log_text s
         ++ ["[" +++ stamp s +++ "] " +++ ("❌ Connection failed: " +++ message e)
             +++ nl] in
  fst r = Ok tt
  /\ wire (snd r) = wire s
  /\ device_state (snd r) = device_state s
  /\ match parse_int (baud_var s) with
     | None => failed (ValueError (invalid_literal (baud_var s)))
     | Some baud =>
         if String.eqb (port_var s) "" then
           snd r = set_dialogs (dialogs s ++ [select_port_error]) s
         else
           match opened with
           | Ok p =>
               link (snd r) = (true, Some p)
               /\ link_display (snd r) = ("Disconnect", "Connected")
               /\ after_queue (snd r) = after_queue s ++ [after_get_status]
               /\ dialogs (snd r) = dialogs s
               /\ log_text (snd r)
                  = log_text s
                    ++ ["[" +++ stamp s +++ "] "
                        +++ ("🔌 Connected to " +++ port_var s +++ " at "
                             +++ str baud +++ " baud") +++ nl]
           | Raise e => failed e
           end
     end.
Proof.
  intros Hc. cbv zeta. unfold toggle_connection, Serial. mred. rewrite Hc.
  cbn [negb].
  destruct (parse_int (baud_var s)) as [baud|]; [|repeat split].
  destruct (String.eqb (port_var s) ""); [repeat split|].
  destruct opened as [p|e]; repeat split.
Qed.

(** [toggle_connection] on a disconnected object.  The baud text is read
    first: when [int] rejects it the attempt fails like a port that does
    not open, with the text of the [ValueError], also when no port is
    chosen.  With a number and no port, an error box is all that happens.
    When the port opens, the object is connected, the button and the label
    say so, the status request is scheduled, and nothing is written yet.
    When it does not open, the object stays disconnected, and the text of
    the exception is shown in an error box and logged.  No exception
    leaves the method. *)
Theorem connect_attempt_outcomes opened s :
  is_connected s = false ->
  let r := toggle_connection opened s in
  let failed e :=
    link (snd r) = link s
    /\ link_display (snd r) = link_display s
    /\ after_queue (snd r) = after_queue s
    /\ dialogs (snd r) = dialogs s ++ [connection_error e]
    /\ log_text (snd r)
       = log_text s
         ++ ["[" +++ stamp s +++ "] " +++ ("❌ Connection failed: " +++ message e)
             +++ nl] in
  fst r = Ok tt
  /\ wire (snd r) = wire s
  /\ device_state (snd r) = device_state s
  /\ match parse_int (baud_var s) with
     | None => failed (ValueError (invalid_literal (baud_var s)))
     | Some baud =>
         if String.eqb (port_var s) "" then
           snd r = set_dialogs (dialogs s ++ [select_port_error]) s
         else
           match opened with
           | Ok p =>
               link (snd r) = (true, Some p)
               /\ link_display (snd r) = ("Disconnect", "Connected")
               /\ after_queue (snd r) = after_queue s ++ [after_get_status]
               /\ dialogs (snd r) = dialogs s
               /\ log_text (snd r)
                  = log_text s
                    ++ ["[" +++ stamp s +++ "] "
                        +++ ("🔌 Connected to " +++ port_var s +++ " at "
                             +++ str baud +++ " baud") +++ nl]
           | Raise e => failed e
           end
     end.
Proof. apply toggle_connection_connect_cases. Qed.

Lemma connect_attempt_outcomes_witness :
  let r := toggle_connection (Ok {| is_open := true; faulty := false; failure := "" |})
             (set_baud_var "fast" (init noon)) in
  link (snd r) = (false, None)
  /\ dialogs (snd r)
     = [showerror "Connection Error"
          "Failed to connect: invalid literal for int() with base 10: 'fast'"].
Proof.
  destruct (@connect_attempt_outcomes
              (Ok {| is_open := true; faulty := false; failure := "" |})
              (set_baud_var "fast" (init noon)) eq_refl)
    as (_ & _ & _ & H).
  destruct H as (H1 & _ & _ & H4 & _). split; [exact H1|exact H4].
Defined.

Lemma toggle_connection_disconnect_cases opened s :
  is_connected s = true ->
  let r := toggle_connection opened s in
  let closed handle :=
    link (snd r) = (false, handle)
    /\ link_display (snd r) = ("Connect", "Disconnected")
    /\ status_labels (snd r) = ("0", "Unknown", "Unknown")
    /\ log_text (snd r)
       = log_text s ++ ["[" +++ stamp s +++ "] " +++ "🔌 Disconnected" +++ nl] in
  fst r = Ok tt
  /\ wire (snd r) = wire s
  /\ dialogs (snd r) = dialogs s
  /\ after_queue (snd r) = after_queue s
  /\ device_state (snd r) = device_state s
  /\ match serial_port s with
     | None => closed None
     | Some p =>
         if faulty p then
           link (snd r) = link s
           /\ link_display (snd r) = link_display s
           /\ status_labels (snd r) = status_labels s
           /\ log_text (snd r)
              = log_text s
                ++ ["[" +++ stamp s +++ "] "
                    +++ ("❌ Disconnect error: " +++ failure p)
                    +++ nl]
         else closed (Some {| is_open := false; faulty := false;
                               failure := failure p |})
     end.
Proof.
  intros Hc. cbv zeta. unfold toggle_connection, close. mred. rewrite Hc.
  cbn [negb].
  destruct (serial_port s) as [p|] eqn:Hp; [destruct p as [o [|]]|];
    cbn [faulty]; repeat split; unfold link, log_message; mred; psimpl';
    try reflexivity; f_equal; exact Hp.
Qed.

(** [toggle_connection] on a connected object.  When the handle closes,
    the object is disconnected, the button, the label and the three
    status labels go back to their initial text, and the closed handle
    stays in [serial_port].  When closing raises, the text of the
    exception is logged and nothing else changes: the object stays
    connected.  Either way
    nothing is written, no dialog is shown, the status attributes keep
    their values, and no exception leaves the method. *)
Theorem disconnect_attempt_outcomes opened s :
  is_connected s = true ->
  let r := toggle_connection opened s in
  let closed handle :=
    link (snd r) = (false, handle)
    /\ link_display (snd r) = ("Connect", "Disconnected")
    /\ status_labels (snd r) = ("0", "Unknown", "Unknown")
    /\ log_text (snd r)
       = log_text s ++ ["[" +++ stamp s +++ "] " +++ "🔌 Disconnected" +++ nl] in
  fst r = Ok tt
  /\ wire (snd r) = wire s
  /\ dialogs (snd r) = dialogs s
  /\ after_queue (snd r) = after_queue s
  /\ device_state (snd r) = device_state s
  /\ match serial_port s with
     | None => closed None
     | Some p =>
         if faulty p then
           link (snd r) = link s
           /\ link_display (snd r) = link_display s
           /\ status_labels (snd r) = status_labels s
           /\ log_text (snd r)
              = log_text s
                ++ ["[" +++ stamp s +++ "] "
                    +++ ("❌ Disconnect error: " +++ failure p)
                    +++ nl]
         else closed (Some {| is_open := false; faulty := false;
                               failure := failure p |})
     end.
Proof. apply toggle_connection_disconnect_cases. Qed.

Lemma disconnect_attempt_outcomes_witness :
  let s := set_serial_port
             (Some {| is_open := true; faulty := true;
                      failure := "device disconnected" |})
             (connected noon) in
  let r := toggle_connection (Raise (SerialException "busy")) s in
  link (snd r) = link s
  /\ log_text (snd r)
     = ["[12:00:00] ❌ Disconnect error: device disconnected" +++ nl].
Proof.
  destruct (@disconnect_attempt_outcomes (Raise (SerialException "busy"))
              (set_serial_port
                 (Some {| is_open := true; faulty := true;
                          failure := "device disconnected" |})
                 (connected noon)) eq_refl)
    as (_ & _ & _ & _ & _ & H1 & _ & _ & H4).
  split; [exact H1|exact H4].
Defined.

(** *** What holds in every state *)

Lemma link_invariant_of_views s s' :
  link s' = link s -> link_display s' = link_display s ->
  link_invariant s -> link_invariant s'.
Proof.
  unfold link_invariant, link. intros Hl Hd [H1 H2].
  assert (Ec : is_connected s' = is_connected s) by congruence.
  assert (Ep : serial_port s' = serial_port s) by congruence.
  rewrite Hd, Ec, Ep. split; assumption.
Qed.

Lemma link_invariant_set c p b l s :
  link s = (c, p) -> link_display s = (b, l) ->
  (c = true -> p <> None) ->
  (b, l) = (if c then ("Disconnect", "Connected") else ("Connect", "Disconnected")) ->
  link_invariant s.
Proof.
  unfold link_invariant, link. intros Hl Hd H1 H2.
  assert (Ec : is_connected s = c) by congruence.
  assert (Ep : serial_port s = p) by congruence.
  rewrite Hd, Ec, Ep. split; assumption.
Qed.

Lemma toggle_connection_keeps_window opened s :
  link_invariant s -> link_invariant (exec (toggle_connection opened) s).
Proof.
  intros I. unfold exec. destruct (is_connected s) eqn:Hc.
  - destruct (toggle_connection_disconnect_cases opened s Hc)
      as (_ & _ & _ & _ & _ & H).
    destruct (serial_port s) as [p|]; [destruct (faulty p)|].
    + destruct H as (Hl & Hd & _). now apply (link_invariant_of_views Hl Hd).
    + destruct H as (Hl & Hd & _).
      apply (link_invariant_set Hl Hd); [discriminate|reflexivity].
    + destruct H as (Hl & Hd & _).
      apply (link_invariant_set Hl Hd); [discriminate|reflexivity].
  - destruct (toggle_connection_connect_cases opened s Hc) as (_ & _ & _ & H).
    destruct (parse_int (baud_var s)) as [baud|].
    + destruct (String.eqb (port_var s) "").
      * rewrite H. now apply (@link_invariant_of_views s).
      * destruct opened as [p|e]; destruct H as (Hl & Hd & _).
        -- apply (link_invariant_set Hl Hd); [discriminate|reflexivity].
        -- now apply (link_invariant_of_views Hl Hd).
    + destruct H as (Hl & Hd & _). now apply (link_invariant_of_views Hl Hd).
Qed.

Lemma step_keeps_window a s :
  link_invariant s -> link_invariant (exec (step a) s).
Proof.
  intros I.
  destruct a as [opened| | | | | | | | | | | | | | | | |];
    [exact (toggle_connection_keeps_window opened I)|..];
    (apply (@link_invariant_of_views s); [| |exact I]; unfold exec;
     [match goal with
      | |- link (snd (?m s)) = _ =>
          assert (P : preserves link m) by (try destruct c; frame); apply P
      end
     |match goal with
      | |- link_display (snd (?m s)) = _ =>
          assert (P : preserves link_display m) by (try destruct c; frame);
          apply P
      end]).
Qed.

(** In every state that the object can reach, whatever the device sends
    and whatever fails, a connected object has a serial handle, and the
    connect button and the status label say what the connection flag
    says: [Disconnect] and [Connected] when it is set, [Connect] and
    [Disconnected] when it is not. *)
Theorem window_reflects_connection clk s :
  reachable clk s ->
  (is_connected s = true -> serial_port s <> None)
  /\ link_display s = (if is_connected s then ("Disconnect", "Connected")
                       else ("Connect", "Disconnected")).
Proof.
  induction 1 as [|s a _ IH]; [split; [discriminate|reflexivity]|].
  exact (step_keeps_window a IH).
Qed.

Lemma window_reflects_connection_witness :
  let s := exec (step (do_process_serial_data "TOTAL:x"))
             (exec (step (do_toggle_connection
                            (Ok {| is_open := true; faulty := false; failure := "" |})))
                (exec (step (user_sets_port "COM3")) (init noon))) in
  (is_connected s = true -> serial_port s <> None)
  /\ link_display s = (if is_connected s then ("Disconnect", "Connected")
                       else ("Connect", "Disconnected")).
Proof.
  apply (@window_reflects_connection noon).
  apply reachable_step, reachable_step, reachable_step, reachable_init.
Defined.

End SOLARGUIMore.
